(** * The CosmWasm launchpad client of oraiswap-frontend

    A shallow embedding of [src/libs/cosmwasm-launchpad/cosmwasmclient.ts]
    and [src/libs/cosmwasm-launchpad/lcdapi/wasm.ts], with the properties
    of the transaction search, the caches and the response shaping.

    Modelling conventions.
    - A JavaScript [number] is an integer or [NaN]: every number the client
      handles is a block height, a page count or an identifier, produced by
      [parseInt] or passed by the caller.  Fractions, infinities and the
      rounding of integers beyond 2^53 are outside the model.
    - A thrown value is an [Error] with its message, or some other value.
    - An [async] method is a computation over the client's fields and the
      log of requests sent to the LCD endpoint.  The endpoint answers a
      request as a function of the requests sent before it, so a transport
      that changes its answers over time is covered.  Calls on one client
      run one after the other. *)

From Stdlib Require Import ZArith List Ascii String Bool Lia.
From stdpp Require Import base option list strings pretty countable gmap.
From Equations Require Import Equations.
Import ListNotations.

#[local] Set Warnings "-register-all".

Local Open Scope string_scope.
Local Open Scope Z_scope.
Local Open Scope list_scope.

(** ** JavaScript values *)

Module Js.

(** A [number]: an integer or [NaN]. *)
Inductive number : Type :=
| NaN : number
| Num : Z -> number.

#[global] Instance number_eq_dec : EqDecision number.
Proof. solve_decision. Defined.

Definition number_to_option (n : number) : option Z :=
  match n with NaN => None | Num z => Some z end.

Definition number_of_option (o : option Z) : number :=
  match o with None => NaN | Some z => Num z end.

#[global] Instance number_countable : Countable number.
Proof.
  apply (inj_countable' number_to_option number_of_option).
  intros []; reflexivity.
Defined.

(** [Number.MAX_SAFE_INTEGER], 2^53 - 1. *)
Definition MAX_SAFE_INTEGER : number := Num 9007199254740991.

(** The comparisons [a < b], [a <= b], [a > b], [a >= b]: false as soon
    as one side is [NaN]. *)
Definition lt (a b : number) : bool :=
  match a, b with Num x, Num y => x <? y | _, _ => false end.
Definition le (a b : number) : bool :=
  match a, b with Num x, Num y => x <=? y | _, _ => false end.
Definition gt (a b : number) : bool := lt b a.
Definition ge (a b : number) : bool := le b a.

(** Truthiness of a number: [0] and [NaN] are falsy. *)
Definition truthy (n : number) : bool :=
  match n with Num z => negb (z =? 0) | NaN => false end.

(** [x || d] for an optional number [x] ([None] is [undefined]). *)
Definition or_default (x : option number) (d : number) : number :=
  match x with
  | Some n => if truthy n then n else d
  | None => d
  end.

(** [x || d] for an optional string: [undefined] and [''] are falsy. *)
Definition str_or (x : option string) (d : string) : string :=
  match x with
  | Some EmptyString | None => d
  | Some s => s
  end.

(** [x || undefined] for an optional string. *)
Definition str_or_undefined (x : option string) : option string :=
  match x with
  | Some EmptyString | None => None
  | Some s => Some s
  end.

(** [String(n)], as a template literal interpolates a number. *)
Definition to_string (n : number) : string :=
  match n with NaN => "NaN" | Num z => pretty z end.

(** *** [parseInt(s, 10)]

    Leading white space is skipped (the ASCII white space), then an
    optional sign is read, then the longest run of decimal digits; without a
    digit the result is [NaN].  [-0] is [0]. *)

Definition is_space (c : ascii) : bool :=
  let n := nat_of_ascii c in
  (Nat.eqb n 32 || (Nat.leb 9 n && Nat.leb n 13))%bool.

Definition digit_of (c : ascii) : option Z :=
  let n := nat_of_ascii c in
  if (Nat.leb 48 n && Nat.leb n 57)%bool
  then Some (Z.of_nat n - 48) else None.

Fixpoint skip_spaces (s : string) : string :=
  match s with
  | String c r => if is_space c then skip_spaces r else s
  | EmptyString => s
  end.

(** The longest prefix of decimal digits, read left to right; [acc] is
    the value read so far, [None] before the first digit. *)
Fixpoint read_digits (acc : option Z) (s : string) : option Z :=
  match s with
  | String c r =>
      match digit_of c with
      | Some d => read_digits (Some (10 * default 0 acc + d)) r
      | None => acc
      end
  | EmptyString => acc
  end.

Definition parseInt (s : string) : number :=
  match skip_spaces s with
  | String "-" r =>
      match read_digits None r with Some v => Num (- v) | None => NaN end
  | String "+" r => number_of_option (read_digits None r)
  | t => number_of_option (read_digits None t)
  end.

(** A parsed JSON document whose inside the client does not look at. *)
Inductive Json : Type :=
| JNull : Json
| JBool : bool -> Json
| JNumber : number -> Json
| JString : string -> Json
| JArray : list Json -> Json
| JObject : list (string * Json) -> Json.

(** What a [throw] carries. *)
Inductive Thrown : Type :=
| Error : string -> Thrown
| NotAnError : Json -> Thrown.

(** The outcome of a call: a value, or a thrown value (a rejected
    promise). *)
Inductive Result (A : Type) : Type :=
| Ok : A -> Result A
| Throw : Thrown -> Result A.
Arguments Ok {A} _.
Arguments Throw {A} _.

Definition is_ok {A} (r : Result A) : bool :=
  match r with Ok _ => true | Throw _ => false end.

Definition result_bind {A B} (r : Result A) (k : A -> Result B) : Result B :=
  match r with Ok a => k a | Throw e => Throw e end.

Definition result_map {A B} (f : A -> B) (r : Result A) : Result B :=
  match r with Ok a => Ok (f a) | Throw e => Throw e end.

End Js.
Export Js.

(** ** Data model *)

(** A [Uint8Array]. *)
Definition Bytes : Type := list Byte.byte.

(** *** The client's own types ([cosmwasmclient.ts]) *)

Record GetSequenceResult : Type := {
  seq_accountNumber : number;
  seq_sequence : number
}.

Record Account : Type := {
  acc_address : string;
  acc_balance : Json;
  acc_pubkey : option Json;
  acc_accountNumber : number;
  acc_sequence : number
}.

(** [SearchTxQuery] is the union of three interfaces told apart by the
    field that is defined; an object is the record of the three optional
    fields. *)
Record SearchTxQuery : Type := {
  q_height : option number;
  q_sentFromOrTo : option string;
  q_tags : option (list (string * string))
}.

Definition SearchByHeightQuery (h : number) : SearchTxQuery :=
  {| q_height := Some h; q_sentFromOrTo := None; q_tags := None |}.
Definition SearchBySentFromOrToQuery (a : string) : SearchTxQuery :=
  {| q_height := None; q_sentFromOrTo := Some a; q_tags := None |}.
Definition SearchByTagsQuery (t : list (string * string)) : SearchTxQuery :=
  {| q_height := None; q_sentFromOrTo := None; q_tags := Some t |}.

(** The type guards: the field of the variant is not [undefined].
    [searchTx] tries them in this order and then reads that field. *)
Definition isSearchByHeightQuery (query : SearchTxQuery) : bool :=
  bool_decide (is_Some (q_height query)).
Definition isSearchBySentFromOrToQuery (query : SearchTxQuery) : bool :=
  bool_decide (is_Some (q_sentFromOrTo query)).
Definition isSearchByTagsQuery (query : SearchTxQuery) : bool :=
  bool_decide (is_Some (q_tags query)).

Record SearchTxFilter : Type := {
  minHeight : option number;
  maxHeight : option number
}.

(** The default argument [filter = {}]. *)
Definition no_filter : SearchTxFilter :=
  {| minHeight := None; maxHeight := None |}.

Record IndexedTx : Type := {
  tx_height : number;
  tx_hash : string;
  tx_code : number;
  tx_rawLog : string;
  tx_logs : Json;
  tx_tx : Json;
  tx_timestamp : string
}.

Record Code : Type := {
  code_id : number;
  code_creator : string;
  code_checksum : string;
  code_source : option string;
  code_builder : option string
}.

Record CodeDetails : Type := {
  cd_id : number;
  cd_creator : string;
  cd_checksum : string;
  cd_source : option string;
  cd_builder : option string;
  cd_data : Bytes
}.

Record Contract : Type := {
  ct_address : string;
  ct_codeId : number;
  ct_creator : string;
  ct_admin : option string;
  ct_label : string
}.

Record ContractCodeHistoryEntry : Type := {
  he_operation : string;
  he_codeId : number;
  he_msg : Json
}.

Record BlockHeader : Type := {
  bh_version : Json;
  bh_height : number;
  bh_chainId : string;
  bh_time : string
}.

Record Block : Type := {
  blk_id : string;
  blk_header : BlockHeader;
  blk_txs : list Bytes
}.

(** The two object shapes [broadcastTx] returns. *)
Inductive BroadcastResult : Type :=
| SyncResult (height : number) (transactionHash : string)
             (code : number) (rawLog : string)
| IndexedResult (logs : Json) (rawLog : string)
                (transactionHash : string) (data : option Bytes).

(** *** Responses of the LCD endpoint ([@cosmjs/launchpad], [wasm.ts]) *)

Record NodeInfoResponse : Type := {
  node_info_network : option string
}.

Record AccountValue : Type := {
  av_address : string;
  av_coins : Json;
  av_public_key : Json;
  av_account_number : Json;
  av_sequence : Json
}.

Record AuthAccountsResponse : Type := {
  aar_height : string;
  aar_value : AccountValue
}.

Record BlockResponse : Type := {
  br_block_id_hash : string;
  br_version : Json;
  br_time : string;
  br_height : string;
  br_chain_id : string;
  br_txs : option (list string)
}.

Record EncodeTxResponse : Type := {
  etr_tx : string
}.

Record TxsResponse : Type := {
  r_height : string;
  r_txhash : string;
  r_code : option number;
  r_raw_log : string;
  r_logs : option Json;
  r_tx : Json;
  r_timestamp : string
}.

Record SearchTxsResponse : Type := {
  total_count : string;
  page_total : string;
  txs : list TxsResponse
}.

Record BroadcastTxsResponse : Type := {
  b_height : string;
  b_txhash : string;
  b_code : option number;
  b_raw_log : option string;
  b_logs : option Json;
  b_data : option string
}.

Module WasmTypes.

Inductive WasmResponse (T : Type) : Type :=
| WasmSuccess (height : string) (result : T)
| WasmError (error : string).
Arguments WasmSuccess {T} _ _.
Arguments WasmError {T} _.

Record CodeInfo : Type := {
  ci_id : number;
  ci_creator : string;
  ci_data_hash : string;
  ci_source : option string;
  ci_builder : option string
}.

(** [CodeDetails] of [wasm.ts], which extends [CodeInfo] with the base64
    code; named apart from the client's [CodeDetails]. *)
Record WasmCodeDetails : Type := {
  cdr_info : CodeInfo;
  cdr_data : string
}.

Record ContractInfo : Type := {
  cti_address : string;
  cti_code_id : number;
  cti_creator : string;
  cti_admin : option string;
  cti_label : string
}.

(** [ContractCodeHistoryEntry] of [wasm.ts]. *)
Record WasmContractCodeHistoryEntry : Type := {
  che_operation : string;
  che_code_id : number;
  che_msg : Json
}.

Record SmartQueryResponse : Type := {
  smart : string
}.

(** [types.ts] *)
Record WasmData : Type := {
  key : string;
  val : string
}.

Record Model : Type := {
  m_key : Bytes;
  m_val : Bytes
}.

(** The answer to a raw query, [WasmData[] | null | string]. *)
Inductive RawData : Type :=
| RawArray (data : list WasmData)
| RawNull
| RawString (data : string).

(** [LcdApiArray<T>] is [readonly T[] | null]. *)
Definition LcdApiArray (T : Type) : Type := option (list T).

(** [normalizeLcdApiArray] of [@cosmjs/launchpad]: [backend || []]. *)
Definition normalizeLcdApiArray {T} (backend : LcdApiArray T) : list T :=
  default [] backend.

Definition isWasmError {T} (resp : WasmResponse T) : bool :=
  match resp with WasmError _ => true | WasmSuccess _ _ => false end.

Definition unwrapWasmResponse {T} (response : WasmResponse T) : Result T :=
  match response with
  | WasmError error => Throw (Error error)
  | WasmSuccess _ result => Ok result
  end.

End WasmTypes.
Import WasmTypes.

(** ** The functions of [@cosmjs] the client calls

    They are not part of the repository and are taken as given.  Those
    that can throw return a [Result]. *)

Record Lib : Type := {
  sha256 : Bytes -> Bytes;
  fromBase64 : string -> Result Bytes;
  fromHex : string -> Result Bytes;
  toHex : Bytes -> string;
  fromUtf8 : Bytes -> Result string;
  toUtf8 : string -> Bytes;
  toUpperCase : string -> string;
  JSON_parse : string -> Result Json;
  JSON_stringify : Json -> string;
  normalizePubkey : Json -> Result (option Json);
  uint64ToNumber : Json -> Result number;
  Uint53_fromString : string -> Result number;
  parseLogs : Json -> Result Json
}.

(** ** The LCD endpoint *)

(** The calls on [lcdClient]; [Get] is the generic [get(path)]. *)
Inductive Request : Type :=
| NodeInfo
| AuthAccount (address : string)
| BlocksLatest
| Blocks (height : number)
| EncodeTx (tx : Json)
| TxsQuery (query : string)
| BroadcastTx (tx : Json)
| Get (path : string).

(** The endpoint: the answer to each call, given the calls made before
    it.  [get] returns [any]; each [be_get_*] is [get] at the type its
    call site casts the answer to. *)
Record Backend : Type := {
  be_nodeInfo : list Request -> Result NodeInfoResponse;
  be_authAccount : list Request -> string -> Result AuthAccountsResponse;
  be_blocksLatest : list Request -> Result BlockResponse;
  be_blocks : list Request -> number -> Result BlockResponse;
  be_encodeTx : list Request -> Json -> Result EncodeTxResponse;
  be_txsQuery : list Request -> string -> Result SearchTxsResponse;
  be_broadcastTx : list Request -> Json -> Result BroadcastTxsResponse;
  be_get_account : list Request -> string -> Result AuthAccountsResponse;
  be_get_codes :
    list Request -> string -> Result (WasmResponse (LcdApiArray CodeInfo));
  be_get_code :
    list Request -> string -> Result (WasmResponse WasmCodeDetails);
  be_get_contracts :
    list Request -> string -> Result (WasmResponse (LcdApiArray ContractInfo));
  be_get_contract :
    list Request -> string -> Result (WasmResponse (option ContractInfo));
  be_get_history :
    list Request -> string ->
    Result (WasmResponse (option (list WasmContractCodeHistoryEntry)));
  be_get_state :
    list Request -> string -> Result (WasmResponse (LcdApiArray WasmData));
  be_get_raw : list Request -> string -> Result (WasmResponse RawData);
  be_get_smart :
    list Request -> string -> Result (WasmResponse SmartQueryResponse)
}.

(** ** The client's state and the monad of its methods *)

(** The mutable fields of a [CosmWasmClient]. *)
Record Fields : Type := {
  anyValidAddress : option string;
  codesCache : gmap number CodeDetails;
  chainId : option string
}.

(** A client and the requests it has sent so far, oldest first. *)
Record State : Type := {
  fields : Fields;
  requests : list Request
}.

(** [new CosmWasmClient(apiUrl)]: nothing cached, nothing sent. *)
Definition new_client : State :=
  {| fields := {| anyValidAddress := None; codesCache := ∅; chainId := None |};
     requests := [] |}.

Definition M (A : Type) : Type := State -> Result A * State.

Definition ret {A} (a : A) : M A := fun st => (Ok a, st).

Definition throw {A} (e : Thrown) : M A := fun st => (Throw e, st).

Definition bind {A B} (m : M A) (k : A -> M B) : M B :=
  fun st =>
    match m st with
    | (Ok a, st') => k a st'
    | (Throw e, st') => (Throw e, st')
    end.

Notation "'let*' x ':=' m 'in' k" := (bind m (fun x => k))
  (at level 10, x name, m at level 100, k at level 200).

(** A synchronous call that may throw. *)
Definition lift {A} (r : Result A) : M A := fun st => (r, st).

(** [await lcdClient.<call>]: the call is logged and answered from the
    calls before it. *)
(** The state after a request is sent. *)
Definition logged (r : Request) (st : State) : State :=
  {| fields := fields st; requests := requests st ++ [r] |}.

Definition send {A} (r : Request) (answer : list Request -> Result A) : M A :=
  fun st => (answer (requests st), logged r st).

Definition read {A} (f : Fields -> A) : M A :=
  fun st => (Ok (f (fields st)), st).

(** The state after an assignment to the fields. *)
Definition written (f : Fields -> Fields) (st : State) : State :=
  {| fields := f (fields st); requests := requests st |}.

Definition write (f : Fields -> Fields) : M unit :=
  fun st => (Ok tt, written f st).

(** [try { m } catch (error) { handler }] *)
Definition try_catch {A} (m : M A) (handler : Thrown -> M A) : M A :=
  fun st =>
    match m st with
    | (Ok a, st') => (Ok a, st')
    | (Throw e, st') => handler e st'
    end.

(** [xs.map(f)] for a callback that may throw or touch the client. *)
Fixpoint mapM {A B} (f : A -> M B) (xs : list A) : M (list B) :=
  match xs with
  | [] => ret []
  | x :: xs' =>
      let* y := f x in
      let* ys := mapM f xs' in
      ret (y :: ys)
  end.

(** [Promise.all([p, q])] of two calls started in this order: both run
    to their end, and the result is rejected when one of them is. *)
Definition promise_all2 {A B} (p : M A) (q : M B) : M (A * B) :=
  fun st =>
    let (ra, st1) := p st in
    let (rb, st2) := q st1 in
    (match ra, rb with
     | Ok a, Ok b => Ok (a, b)
     | Throw e, _ => Throw e
     | Ok _, Throw e => Throw e
     end, st2).

(** ** [lcdapi/wasm.ts]: the wasm extension of the LCD client *)

Module WasmExtension.
Section WithBackend.

Variable lib : Lib.
Variable base : Backend.

Definition listCodeInfo : M (list CodeInfo) :=
  let path := "/wasm/code" in
  let* responseData := send (Get path) (fun h => be_get_codes base h path) in
  let* result := lift (unwrapWasmResponse responseData) in
  ret (normalizeLcdApiArray result).

Definition getCode (id : number) : M WasmCodeDetails :=
  let path := "/wasm/code/" +:+ to_string id in
  let* responseData := send (Get path) (fun h => be_get_code base h path) in
  lift (unwrapWasmResponse responseData).

Definition listContractsByCodeId (id : number) : M (list ContractInfo) :=
  let path := "/wasm/code/" +:+ to_string id +:+ "/contracts" in
  let* responseData :=
    send (Get path) (fun h => be_get_contracts base h path) in
  let* result := lift (unwrapWasmResponse responseData) in
  ret (normalizeLcdApiArray result).

Definition getContractInfo (address : string) : M (option ContractInfo) :=
  let path := "/wasm/contract/" +:+ address in
  let* response := send (Get path) (fun h => be_get_contract base h path) in
  lift (unwrapWasmResponse response).

Definition getContractCodeHistory (address : string)
  : M (option (list WasmContractCodeHistoryEntry)) :=
  let path := "/wasm/contract/" +:+ address +:+ "/history" in
  let* response := send (Get path) (fun h => be_get_history base h path) in
  lift (unwrapWasmResponse response).

(** [types.ts] *)
Definition parseWasmData (d : WasmData) : Result Model :=
  result_bind (fromHex lib (key d)) (fun k =>
  result_bind (fromBase64 lib (val d)) (fun v =>
  Ok {| m_key := k; m_val := v |})).

Definition getAllContractState (address : string) : M (list Model) :=
  let path := "/wasm/contract/" +:+ address +:+ "/state" in
  let* responseData := send (Get path) (fun h => be_get_state base h path) in
  let* result := lift (unwrapWasmResponse responseData) in
  mapM (fun d => lift (parseWasmData d)) (normalizeLcdApiArray result).

(** The data at the key, or [None] for [null]. *)
Definition queryContractRaw (address : string) (key : Bytes)
  : M (option Bytes) :=
  let hexKey := toHex lib key in
  let path :=
    "/wasm/contract/" +:+ address +:+ "/raw/" +:+ hexKey +:+ "?encoding=hex" in
  let* responseData := send (Get path) (fun h => be_get_raw base h path) in
  let* data := lift (unwrapWasmResponse responseData) in
  match data with
  | RawArray data =>
      (* The CosmWasm 0.10 interface *)
      match data with
      | [] => ret None
      | data0 :: _ =>
          let* bytes := lift (fromBase64 lib (val data0)) in ret (Some bytes)
      end
  | RawNull => ret None
  | RawString data =>
      (* The CosmWasm 0.11 interface *)
      match data with
      | EmptyString => ret None
      | _ => let* bytes := lift (fromBase64 lib data) in ret (Some bytes)
      end
  end.

Definition queryContractSmart (address : string) (query : Json) : M Json :=
  let encoded := toHex lib (toUtf8 lib (JSON_stringify lib query)) in
  let path :=
    "/wasm/contract/" +:+ address +:+ "/smart/" +:+ encoded
    +:+ "?encoding=hex" in
  let* responseData := send (Get path) (fun h => be_get_smart base h path) in
  let* result := lift (unwrapWasmResponse responseData) in
  let* bytes := lift (fromBase64 lib (smart result)) in
  let* text := lift (fromUtf8 lib bytes) in
  lift (JSON_parse lib text).

End WithBackend.
End WasmExtension.

(** ** [cosmwasmclient.ts]: the merge of [searchTx] *)

Module Merge.

(** The variables of the loop: [sent], [received] and [mergedTxs]. *)
Definition LoopState : Type :=
  (list IndexedTx * list IndexedTx * list IndexedTx)%type.

(** [sent.length && received.length] *)
Definition loop_cond (st : LoopState) : bool :=
  match st with
  | (_ :: _, _ :: _, _) => true
  | _ => false
  end.

(** One turn of the loop.  With equal hashes
    [sent.shift()! && received.shift()!] shifts both arrays and yields the
    element taken from [received], the first operand being an object. *)
Definition loop_body (st : LoopState) : LoopState :=
  match st with
  | (sent0 :: sent, received0 :: received, mergedTxs) =>
      if String.eqb (tx_hash sent0) (tx_hash received0)
      then (sent, received, mergedTxs ++ [received0])
      else if le (tx_height sent0) (tx_height received0)
      then (sent, received0 :: received, mergedTxs ++ [sent0])
      else (sent0 :: sent, received, mergedTxs ++ [received0])
  | _ => st
  end.

(** What is left to merge. *)
Definition remaining (st : LoopState) : nat :=
  match st with (sent, received, _) => length sent + length received end.

(** A value with the proof that it is the one computed. *)
Definition inspect {A} (a : A) : {b : A | a = b} := exist _ a eq_refl.

(** [while (sent.length && received.length) { ... }] *)
Equations? while_loop (st : LoopState) : LoopState
  by wf (remaining st) Nat.lt :=
  while_loop st with inspect (loop_cond st) := {
    | exist _ true running => while_loop (loop_body st)
    | exist _ false _ => st
  }.
Proof.
  destruct st as [[[|s0 sent] [|r0 received]] merged]; simpl in *;
    try discriminate.
  destruct (String.eqb _ _); [simpl; lia|].
  destruct (le _ _); simpl; lia.
Qed.

(** [[...mergedTxs, ...sent, ...received]] at the end of the loop
    started in [st]. *)
Definition output (st : LoopState) : list IndexedTx :=
  match while_loop st with
  | (sent', received', mergedTxs') => mergedTxs' ++ sent' ++ received'
  end.

(** The merge of the two presorted answers. *)
Definition mergeTxs (sent received : list IndexedTx) : list IndexedTx :=
  output (sent, received, []).

End Merge.
Import Merge.

(** ** [cosmwasmclient.ts]: the client *)

(** [/^([0-9A-F][0-9A-F])+$/]: one or more pairs of upper-case hex
    digits, and nothing else. *)
Definition is_upper_hex (c : ascii) : bool :=
  let n := nat_of_ascii c in
  ((Nat.leb 48 n && Nat.leb n 57) || (Nat.leb 65 n && Nat.leb n 70))%bool.

Fixpoint matches_hex_pairs (s : string) : bool :=
  match s with
  | String a (String b rest) =>
      is_upper_hex a && is_upper_hex b &&
      match rest with
      | EmptyString => true
      | _ => matches_hex_pairs rest
      end
  | _ => false
  end.

(** The double quote character, for messages that quote an address. *)
Definition dquote : string := String (ascii_of_nat 34) EmptyString.

Definition set_anyValidAddress (a : option string) (f : Fields) : Fields :=
  {| anyValidAddress := a; codesCache := codesCache f; chainId := chainId f |}.

Definition set_chainId (c : option string) (f : Fields) : Fields :=
  {| anyValidAddress := anyValidAddress f; codesCache := codesCache f;
     chainId := c |}.

(** [this.codesCache.set(codeId, codeDetails)] *)
Definition codesCache_set (codeId : number) (d : CodeDetails) (f : Fields)
  : Fields :=
  {| anyValidAddress := anyValidAddress f;
     codesCache := <[codeId := d]> (codesCache f);
     chainId := chainId f |}.

Module CosmWasmClient.
Section WithBackend.

Variable lib : Lib.
Variable lcdClient : Backend.

Definition getChainId : M string :=
  let* cached := read chainId in
  match str_or_undefined cached with
  | Some chainId => ret chainId
  | None =>
      let* response := send NodeInfo (be_nodeInfo lcdClient) in
      match str_or_undefined (node_info_network response) with
      | None => throw (Error "Chain ID must not be empty")
      | Some chainId =>
          let* _ := write (set_chainId (Some chainId)) in
          ret chainId
      end
  end.

Definition getHeight : M number :=
  let* known := read anyValidAddress in
  match str_or_undefined known with
  | Some address =>
      let* account :=
        send (AuthAccount address)
             (fun h => be_authAccount lcdClient h address) in
      ret (parseInt (aar_height account))
  | None =>
      let* latest := send BlocksLatest (be_blocksLatest lcdClient) in
      ret (parseInt (br_height latest))
  end.

Definition getIdentifier (tx : Json) : M string :=
  let* response := send (EncodeTx tx) (fun h => be_encodeTx lcdClient h tx) in
  let* bytes := lift (fromBase64 lib (etr_tx response)) in
  let hash := sha256 lib bytes in
  ret (toUpperCase lib (toHex lib hash)).

Definition getAccount (address : string) : M (option Account) :=
  let path := "/auth/accounts/" +:+ address in
  let* account := send (Get path) (fun h => be_get_account lcdClient h path) in
  let value := aar_value account in
  if String.eqb (av_address value) EmptyString then ret None
  else
    let* _ := write (set_anyValidAddress (Some (av_address value))) in
    let* pubkey := lift (normalizePubkey lib (av_public_key value)) in
    let* accountNumber :=
      lift (uint64ToNumber lib (av_account_number value)) in
    let* sequence := lift (uint64ToNumber lib (av_sequence value)) in
    ret (Some {| acc_address := av_address value;
                 acc_balance := av_coins value;
                 acc_pubkey := pubkey;
                 acc_accountNumber := accountNumber;
                 acc_sequence := sequence |}).

Definition getSequence (address : string) : M GetSequenceResult :=
  let* account := getAccount address in
  match account with
  | None =>
      throw (Error ("Account does not exist on chain. " +:+
                    "Send some tokens there before trying to query sequence."))
  | Some account =>
      ret {| seq_accountNumber := acc_accountNumber account;
             seq_sequence := acc_sequence account |}
  end.

Definition getBlock (height : option number) : M Block :=
  let* response :=
    match height with
    | Some height =>
        send (Blocks height) (fun h => be_blocks lcdClient h height)
    | None => send BlocksLatest (be_blocksLatest lcdClient)
    end in
  let* txs :=
    mapM (fun t => lift (fromBase64 lib t)) (default [] (br_txs response)) in
  ret {| blk_id := br_block_id_hash response;
         blk_header := {| bh_version := br_version response;
                          bh_time := br_time response;
                          bh_height := parseInt (br_height response);
                          bh_chainId := br_chain_id response |};
         blk_txs := txs |}.

(** The callback of [result.txs.map(...)] in [txsQuery]. *)
Definition to_IndexedTx (restItem : TxsResponse) : M IndexedTx :=
  let* logs := lift (parseLogs lib (default (JArray []) (r_logs restItem))) in
  ret {| tx_height := parseInt (r_height restItem);
         tx_hash := r_txhash restItem;
         tx_code := or_default (r_code restItem) (Num 0);
         tx_rawLog := r_raw_log restItem;
         tx_logs := logs;
         tx_tx := r_tx restItem;
         tx_timestamp := r_timestamp restItem |}.

(** The private helper behind [getTx] and [searchTx]. *)
Definition txsQuery (query : string) : M (list IndexedTx) :=
  let limit := Num 100 in
  let q := query +:+ "&limit=" +:+ to_string limit in
  let* result := send (TxsQuery q) (fun h => be_txsQuery lcdClient h q) in
  let pages := parseInt (page_total result) in
  if gt pages (Num 1) then
    throw (Error
      ("Found more results on the backend than we can process currently. "
       +:+ "Results: " +:+ total_count result
       +:+ ", supported: " +:+ to_string limit))
  else mapM to_IndexedTx (txs result).

Definition getTx (id : string) : M (option IndexedTx) :=
  let* results := txsQuery ("tx.hash=" +:+ id) in
  ret (head results).

(** The bounds [searchTx] works with: [filter.minHeight || 0] and
    [filter.maxHeight || Number.MAX_SAFE_INTEGER]. *)
Definition effective_min (filter : SearchTxFilter) : number :=
  or_default (minHeight filter) (Num 0).
Definition effective_max (filter : SearchTxFilter) : number :=
  or_default (maxHeight filter) MAX_SAFE_INTEGER.

Definition withFilters (minHeight maxHeight : number)
  (originalQuery : string) : string :=
  originalQuery +:+ "&tx.minheight=" +:+ to_string minHeight
  +:+ "&tx.maxheight=" +:+ to_string maxHeight.

(** The predicate of the last [txs.filter(...)]. *)
Definition in_range (minHeight maxHeight : number) (tx : IndexedTx) : bool :=
  ge (tx_height tx) minHeight && le (tx_height tx) maxHeight.

Definition searchTx (query : SearchTxQuery) (filter : SearchTxFilter)
  : M (list IndexedTx) :=
  let minHeight := effective_min filter in
  let maxHeight := effective_max filter in
  if lt maxHeight minHeight then ret []
  else
    let* txs :=
      match q_height query, q_sentFromOrTo query, q_tags query with
      | Some height, _, _ =>
          if lt height minHeight || gt height maxHeight then ret []
          else txsQuery ("tx.height=" +:+ to_string height)
      | None, Some sentFromOrTo, _ =>
          let sentQuery :=
            withFilters minHeight maxHeight
              ("message.module=bank&message.sender=" +:+ sentFromOrTo) in
          let receivedQuery :=
            withFilters minHeight maxHeight
              ("message.module=bank&transfer.recipient=" +:+ sentFromOrTo) in
          let* answers :=
            promise_all2 (txsQuery sentQuery) (txsQuery receivedQuery) in
          ret (mergeTxs (fst answers) (snd answers))
      | None, None, Some tags =>
          let rawQuery :=
            withFilters minHeight maxHeight
              (String.concat "&"
                 (map (fun t => fst t +:+ "=" +:+ snd t) tags)) in
          txsQuery rawQuery
      | None, None, None => throw (Error "Unknown query type")
      end in
    ret (List.filter (in_range minHeight maxHeight) txs).

Definition broadcastTx (tx : Json) : M BroadcastResult :=
  let* result :=
    send (BroadcastTx tx) (fun h => be_broadcastTx lcdClient h tx) in
  if negb (matches_hex_pairs (b_txhash result)) then
    throw (Error
      "Received ill-formatted txhash. Must be non-empty upper-case hex")
  else
    match b_code result with
    | Some code =>
        let* height := lift (Uint53_fromString lib (b_height result)) in
        ret (SyncResult height (b_txhash result) code
               (str_or (b_raw_log result) EmptyString))
    | None =>
        let* data :=
          match str_or_undefined (b_data result) with
          | Some hex => let* bytes := lift (fromHex lib hex) in ret (Some bytes)
          | None => ret None
          end in
        ret (IndexedResult (default (JArray []) (b_logs result))
               (str_or (b_raw_log result) EmptyString)
               (b_txhash result) data)
    end.

Definition getCodes : M (list Code) :=
  let* result := WasmExtension.listCodeInfo lcdClient in
  mapM (fun entry =>
          let* _ := write (set_anyValidAddress (Some (ci_creator entry))) in
          let* hashBytes := lift (fromHex lib (ci_data_hash entry)) in
          ret {| code_id := ci_id entry;
                 code_creator := ci_creator entry;
                 code_checksum := toHex lib hashBytes;
                 code_source := str_or_undefined (ci_source entry);
                 code_builder := str_or_undefined (ci_builder entry) |})
       result.

Definition getCodeDetails (codeId : number) : M CodeDetails :=
  let* cache := read codesCache in
  match cache !! codeId with
  | Some cached => ret cached
  | None =>
      let* getCodeResult := WasmExtension.getCode lcdClient codeId in
      let info := cdr_info getCodeResult in
      let* hashBytes := lift (fromHex lib (ci_data_hash info)) in
      let* data := lift (fromBase64 lib (cdr_data getCodeResult)) in
      let codeDetails :=
        {| cd_id := ci_id info;
           cd_creator := ci_creator info;
           cd_checksum := toHex lib hashBytes;
           cd_source := str_or_undefined (ci_source info);
           cd_builder := str_or_undefined (ci_builder info);
           cd_data := data |} in
      let* _ := write (codesCache_set codeId codeDetails) in
      ret codeDetails
  end.

Definition to_Contract (entry : ContractInfo) : Contract :=
  {| ct_address := cti_address entry;
     ct_codeId := cti_code_id entry;
     ct_creator := cti_creator entry;
     ct_admin := cti_admin entry;
     ct_label := cti_label entry |}.

Definition getContracts (codeId : number) : M (list Contract) :=
  let* result := WasmExtension.listContractsByCodeId lcdClient codeId in
  ret (map to_Contract result).

Definition getContract (address : string) : M Contract :=
  let* result := WasmExtension.getContractInfo lcdClient address in
  match result with
  | None =>
      throw (Error ("No contract found at address " +:+ dquote +:+ address
                    +:+ dquote))
  | Some result => ret (to_Contract result)
  end.

Definition getContractCodeHistory (address : string)
  : M (list ContractCodeHistoryEntry) :=
  let* result := WasmExtension.getContractCodeHistory lcdClient address in
  match result with
  | None =>
      throw (Error ("No contract history found for address " +:+ dquote
                    +:+ address +:+ dquote))
  | Some result =>
      ret (map (fun entry => {| he_operation := che_operation entry;
                                he_codeId := che_code_id entry;
                                he_msg := che_msg entry |}) result)
  end.

Definition queryContractRaw (address : string) (key : Bytes)
  : M (option Bytes) :=
  (* just test contract existence *)
  let* _info := getContract address in
  WasmExtension.queryContractRaw lib lcdClient address key.

Definition queryContractSmart (address : string) (queryMsg : Json) : M Json :=
  try_catch (WasmExtension.queryContractSmart lib lcdClient address queryMsg)
    (fun error =>
       match error with
       | Error message =>
           if String.prefix "not found: contract" message then
             throw (Error ("No contract found at address " +:+ dquote
                           +:+ address +:+ dquote))
           else throw error
       | _ => throw error
       end).

(** *** Calls on one instance *)

Inductive Call : Type :=
| GetChainId
| GetHeight
| GetIdentifier (tx : Json)
| GetSequence (address : string)
| GetAccount (address : string)
| GetBlock (height : option number)
| GetTx (id : string)
| SearchTx (query : SearchTxQuery) (filter : SearchTxFilter)
| BroadcastTxCall (tx : Json)
| GetCodes
| GetCodeDetails (codeId : number)
| GetContracts (codeId : number)
| GetContract (address : string)
| GetContractCodeHistory (address : string)
| QueryContractRaw (address : string) (key : Bytes)
| QueryContractSmart (address : string) (queryMsg : Json).

(** The state a call leaves behind, whether it returns or throws. *)
Definition after (c : Call) (st : State) : State :=
  match c with
  | GetChainId => snd (getChainId st)
  | GetHeight => snd (getHeight st)
  | GetIdentifier tx => snd (getIdentifier tx st)
  | GetSequence a => snd (getSequence a st)
  | GetAccount a => snd (getAccount a st)
  | GetBlock h => snd (getBlock h st)
  | GetTx id => snd (getTx id st)
  | SearchTx q f => snd (searchTx q f st)
  | BroadcastTxCall tx => snd (broadcastTx tx st)
  | GetCodes => snd (getCodes st)
  | GetCodeDetails id => snd (getCodeDetails id st)
  | GetContracts id => snd (getContracts id st)
  | GetContract a => snd (getContract a st)
  | GetContractCodeHistory a => snd (getContractCodeHistory a st)
  | QueryContractRaw a k => snd (queryContractRaw a k st)
  | QueryContractSmart a q => snd (queryContractSmart a q st)
  end.

(** A sequence of calls, one after the other. *)
Definition after_all (cs : list Call) (st : State) : State :=
  fold_left (fun st c => after c st) cs st.

End WithBackend.
End CosmWasmClient.



(** ** Vocabulary of the properties *)

(** Heights in ascending order: each is [<=] the next, as JavaScript
    compares them. *)
Fixpoint ascending (l : list IndexedTx) : bool :=
  match l with
  | a :: (b :: _) as rest => le (tx_height a) (tx_height b) && ascending rest
  | _ => true
  end.

(** Heights in strictly ascending order: no two entries of the list are at
    the same height. *)
Fixpoint strictly_ascending (l : list IndexedTx) : bool :=
  match l with
  | a :: (b :: _) as rest =>
      lt (tx_height a) (tx_height b) && strictly_ascending rest
  | _ => true
  end.

(** Entries of the two lists with the same hash have the same height. *)
Definition same_hash_same_height (sent received : list IndexedTx) : bool :=
  forallb (fun a =>
    forallb (fun b =>
      implb (String.eqb (tx_hash a) (tx_hash b))
            (bool_decide (tx_height a = tx_height b)))
      received)
    sent.

(** The bounds of a filter as its interface reads: an absent [minHeight]
    is 0, an absent [maxHeight] is [Number.MAX_SAFE_INTEGER]. *)
Definition filter_min (filter : SearchTxFilter) : number :=
  default (Num 0) (minHeight filter).
Definition filter_max (filter : SearchTxFilter) : number :=
  default MAX_SAFE_INTEGER (maxHeight filter).

(** The query string [txsQuery] sends for [query]. *)
Definition txs_request (query : string) : string := query +:+ "&limit=100".

(** The message [txsQuery] throws when the answer has several pages. *)
Definition pagination_message (resp : SearchTxsResponse) : string :=
  "Found more results on the backend than we can process currently. Results: "
  +:+ total_count resp +:+ ", supported: 100".

(** An endpoint all of whose search answers report several pages. *)
Definition always_several_pages (lcdClient : Backend) : Prop :=
  forall history q resp,
    be_txsQuery lcdClient history q = Ok resp ->
    gt (parseInt (page_total resp)) (Num 1) = true.

(** No hash occurs twice in the list. *)
Definition duplicate_free (l : list IndexedTx) : bool :=
  bool_decide (NoDup (map tx_hash l)).

(** The entries of [sent] whose hash also occurs in [received]. *)
Definition shared_hashes (sent received : list IndexedTx) : list string :=
  map tx_hash
    (List.filter
       (fun a => existsb (fun b => String.eqb (tx_hash a) (tx_hash b)) received)
       sent).

(** How often a hash occurs in a list. *)
Definition occurrences (h : string) (l : list IndexedTx) : nat :=
  length (List.filter (fun a => String.eqb (tx_hash a) h) l).

(** The state of the merge loop after [n] turns. *)
Definition loop_after (n : nat) (sent received : list IndexedTx) : LoopState :=
  Nat.iter n loop_body (sent, received, []).

(** ** Fixtures for the examples *)

(** An instance of the [@cosmjs] functions for the examples: decoders
    that accept every text, numbers read with [parseInt]. *)
Definition example_lib : Lib :=
  {| sha256 := fun b => b;
     fromBase64 := fun s => Ok (list_byte_of_string s);
     fromHex := fun s => Ok (list_byte_of_string s);
     toHex := string_of_list_byte;
     fromUtf8 := fun b => Ok (string_of_list_byte b);
     toUtf8 := list_byte_of_string;
     toUpperCase := fun s => s;
     JSON_parse := fun s => Ok (JString s);
     JSON_stringify := fun _ => "{}";
     normalizePubkey :=
       fun j => Ok (match j with JNull => None | _ => Some j end);
     uint64ToNumber :=
       fun j => match j with
                | JString s => Ok (parseInt s)
                | JNumber n => Ok n
                | _ => Throw (Error "Invalid string format")
                end;
     Uint53_fromString := fun s => Ok (parseInt s);
     parseLogs := fun j => Ok j |}.

(** The error of a transport that cannot reach the endpoint. *)
Definition network_error {A} : Result A := Throw (Error "Network Error").

(** A call the endpoint does not answer. *)
Definition down {A} : list Request -> Result A := fun _ => network_error.
Definition down_for {A B} : list Request -> B -> Result A :=
  fun _ _ => network_error.

(** An endpoint that answers the calls the examples make and no other. *)
Definition fixture_backend
  (nodeInfo : list Request -> Result NodeInfoResponse)
  (txsQuery : list Request -> string -> Result SearchTxsResponse)
  (broadcastTx : list Request -> Json -> Result BroadcastTxsResponse)
  (get_account : list Request -> string -> Result AuthAccountsResponse)
  (get_code : list Request -> string -> Result (WasmResponse WasmCodeDetails))
  (get_contract :
     list Request -> string -> Result (WasmResponse (option ContractInfo)))
  (get_raw : list Request -> string -> Result (WasmResponse RawData))
  : Backend :=
  {| be_nodeInfo := nodeInfo;
     be_authAccount := down_for;
     be_blocksLatest := down;
     be_blocks := down_for;
     be_encodeTx := down_for;
     be_txsQuery := txsQuery;
     be_broadcastTx := broadcastTx;
     be_get_account := get_account;
     be_get_codes := down_for;
     be_get_code := get_code;
     be_get_contracts := down_for;
     be_get_contract := get_contract;
     be_get_history := down_for;
     be_get_state := down_for;
     be_get_raw := get_raw;
     be_get_smart := down_for |}.

(** An endpoint that only answers transaction searches. *)
Definition txs_backend
  (answer : list Request -> string -> Result SearchTxsResponse) : Backend :=
  fixture_backend down answer down_for down_for down_for down_for down_for.

(** A transaction as the search endpoint lists it. *)
Definition rest_tx (height hash : string) : TxsResponse :=
  {| r_height := height; r_txhash := hash; r_code := None;
     r_raw_log := EmptyString; r_logs := None; r_tx := JNull;
     r_timestamp := EmptyString |}.

(** The same transaction as the client returns it. *)
Definition indexed_tx (height : Z) (hash : string) : IndexedTx :=
  {| tx_height := Num height; tx_hash := hash; tx_code := Num 0;
     tx_rawLog := EmptyString; tx_logs := JArray []; tx_tx := JNull;
     tx_timestamp := EmptyString |}.

(** One page holding the given transactions. *)
Definition one_page (l : list TxsResponse) : SearchTxsResponse :=
  {| total_count := pretty (Z.of_nat (length l)); page_total := "1";
     txs := l |}.

(** An endpoint that lists [sent] for a search by sender and [received]
    for any other search. *)
Definition bank_backend (sent received : list TxsResponse) : Backend :=
  txs_backend (fun _ q =>
    if String.prefix "message.module=bank&message.sender=" q
    then Ok (one_page sent) else Ok (one_page received)).

(** An answer that reports three pages. *)
Definition three_pages : SearchTxsResponse :=
  {| total_count := "250"; page_total := "3"; txs := [rest_tx "7" "AB"] |}.

(** The two shapes of a [broadcastTx] result. *)
Definition is_sync_result (r : BroadcastResult) : bool :=
  match r with SyncResult _ _ _ _ => true | IndexedResult _ _ _ _ => false end.

(** Non-empty, of even length, upper-case hex digits only. *)
Definition strict_upper_hex (s : string) : bool :=
  negb (String.eqb s EmptyString)
  && Nat.even (String.length s)
  && forallb is_upper_hex (list_ascii_of_string s).

(** An endpoint that only answers broadcasts. *)
Definition broadcast_backend (answer : BroadcastTxsResponse) : Backend :=
  fixture_backend down down_for (fun _ _ => Ok answer) down_for down_for down_for
    down_for.

(** The answer to a broadcast in sync mode, with the hash DEAD. *)
Definition sync_answer : BroadcastTxsResponse :=
  {| b_height := "0"; b_txhash := "DEAD"; b_code := Some (Num 5);
     b_raw_log := Some "out of gas"; b_logs := None; b_data := None |}.

(** An endpoint that only answers account lookups. *)
Definition account_backend (answer : AuthAccountsResponse) : Backend :=
  fixture_backend down down_for down_for (fun _ _ => Ok answer) down_for down_for
    down_for.

(** The record the endpoint returns for an address it has not seen. *)
Definition empty_account : AuthAccountsResponse :=
  {| aar_height := "12";
     aar_value := {| av_address := EmptyString; av_coins := JArray [];
                     av_public_key := JNull;
                     av_account_number := JString "0";
                     av_sequence := JString "0" |} |}.

(** An endpoint that only answers contract lookups and raw queries. *)
Definition raw_backend (info : ContractInfo) (data : RawData) : Backend :=
  fixture_backend down down_for down_for down_for down_for
    (fun _ _ => Ok (WasmSuccess "12" (Some info)))
    (fun _ _ => Ok (WasmSuccess "12" data)).

Definition example_contract : ContractInfo :=
  {| cti_address := "orai1contract"; cti_code_id := Num 1;
     cti_creator := "orai1creator"; cti_admin := None;
     cti_label := "hackatom" |}.

(** The path of a raw query. *)
Definition raw_path (lib : Lib) (address : string) (key : Bytes) : string :=
  "/wasm/contract/" +:+ address +:+ "/raw/" +:+ toHex lib key
  +:+ "?encoding=hex".

(** The answers to a raw query that the client returns [null] for. *)
Definition reads_as_absent (data : RawData) : bool :=
  match data with
  | RawArray [] | RawNull | RawString EmptyString => true
  | _ => false
  end.

(** The states a computation ends in are related to those it starts in. *)
Definition every_run {A} (R : State -> State -> Prop) (m : M A) : Prop :=
  forall st, R st (snd (m st)).

Definition is_NodeInfo (r : Request) : bool :=
  match r with NodeInfo => true | _ => false end.

(** How many times node info was requested. *)
Definition count_nodeInfo (log : list Request) : nat :=
  length (List.filter is_NodeInfo log).

Definition is_GetChainId (c : CosmWasmClient.Call) : bool :=
  match c with CosmWasmClient.GetChainId => true | _ => false end.

(** The chain id a client has resolved, if any: [this.chainId] when it is
    truthy. *)
Definition resolved_chainId (st : State) : option string :=
  str_or_undefined (chainId (fields st)).

(** An endpoint that only answers node info, with the given network. *)
Definition node_backend (network : option string) : Backend :=
  fixture_backend (fun _ => Ok {| node_info_network := network |}) down_for
    down_for down_for down_for down_for down_for.



(** Once a chain id is resolved, no call changes it or asks for the node
    info again. *)
Definition memo_kept (st st' : State) : Prop :=
  forall c, resolved_chainId st = Some c ->
            chainId (fields st') = chainId (fields st) /\
            count_nodeInfo (requests st') = count_nodeInfo (requests st).

(** The chain id field and the number of node info requests are as they
    were. *)
Definition chain_untouched (st st' : State) : Prop :=
  chainId (fields st') = chainId (fields st) /\
  count_nodeInfo (requests st') = count_nodeInfo (requests st).



(** ** Vocabulary of the further properties *)

(** A transaction as [txsQuery] returns it, against the entry of the
    answer it was made from. *)
Definition indexed_from (lib : Lib) (restItem : TxsResponse) (tx : IndexedTx)
  : Prop :=
  tx_height tx = parseInt (r_height restItem) /\
  tx_hash tx = r_txhash restItem /\
  tx_code tx = or_default (r_code restItem) (Num 0) /\
  tx_rawLog tx = r_raw_log restItem /\
  parseLogs lib (default (JArray []) (r_logs restItem)) = Ok (tx_logs tx) /\
  tx_tx tx = r_tx restItem /\
  tx_timestamp tx = r_timestamp restItem.

(** The searches [searchTx] sends for a query and a filter. *)
Definition searchTx_requests (query : SearchTxQuery) (filter : SearchTxFilter)
  : list Request :=
  let lo := CosmWasmClient.effective_min filter in
  let hi := CosmWasmClient.effective_max filter in
  if lt hi lo then []
  else
    match q_height query, q_sentFromOrTo query, q_tags query with
    | Some height, _, _ =>
        if lt height lo || gt height hi then []
        else [TxsQuery (txs_request ("tx.height=" +:+ to_string height))]
    | None, Some address, _ =>
        [TxsQuery (txs_request
           (CosmWasmClient.withFilters lo hi
              ("message.module=bank&message.sender=" +:+ address)));
         TxsQuery (txs_request
           (CosmWasmClient.withFilters lo hi
              ("message.module=bank&transfer.recipient=" +:+ address)))]
    | None, None, Some tags =>
        [TxsQuery (txs_request
           (CosmWasmClient.withFilters lo hi
              (String.concat "&"
                 (map (fun t => fst t +:+ "=" +:+ snd t) tags))))]
    | None, None, None => []
    end.

(** A state with more requests sent and the same fields. *)
Definition sent_more (new : list Request) (st : State) : State :=
  {| fields := fields st; requests := requests st ++ new |}.

(** The kinds of request each method of the client makes. *)
Definition sends (call : CosmWasmClient.Call) (r : Request) : bool :=
  match call, r with
  | CosmWasmClient.GetChainId, NodeInfo => true
  | CosmWasmClient.GetHeight, (AuthAccount _ | BlocksLatest) => true
  | CosmWasmClient.GetIdentifier _, EncodeTx _ => true
  | CosmWasmClient.GetBlock _, (Blocks _ | BlocksLatest) => true
  | (CosmWasmClient.GetTx _ | CosmWasmClient.SearchTx _ _), TxsQuery _ => true
  | CosmWasmClient.BroadcastTxCall _, BroadcastTx _ => true
  | (CosmWasmClient.GetSequence _ | CosmWasmClient.GetAccount _
     | CosmWasmClient.GetCodes | CosmWasmClient.GetCodeDetails _
     | CosmWasmClient.GetContracts _ | CosmWasmClient.GetContract _
     | CosmWasmClient.GetContractCodeHistory _
     | CosmWasmClient.QueryContractRaw _ _
     | CosmWasmClient.QueryContractSmart _ _), Get _ => true
  | _, _ => false
  end.

(** The methods that assign to each field. *)
Definition writes_anyValidAddress (call : CosmWasmClient.Call) : bool :=
  match call with
  | CosmWasmClient.GetSequence _ | CosmWasmClient.GetAccount _
  | CosmWasmClient.GetCodes => true
  | _ => false
  end.

Definition writes_codesCache (call : CosmWasmClient.Call) : bool :=
  match call with CosmWasmClient.GetCodeDetails _ => true | _ => false end.

Definition writes_chainId (call : CosmWasmClient.Call) : bool :=
  match call with CosmWasmClient.GetChainId => true | _ => false end.

(** A call kept within what its method sends and assigns. *)
Definition within_footprint (call : CosmWasmClient.Call) (st st' : State)
  : Prop :=
  (exists new,
     requests st' = requests st ++ new /\ forallb (sends call) new = true) /\
  (writes_anyValidAddress call = false ->
   anyValidAddress (fields st') = anyValidAddress (fields st)) /\
  (writes_codesCache call = false ->
   codesCache (fields st') = codesCache (fields st)) /\
  (writes_chainId call = false ->
   chainId (fields st') = chainId (fields st)).

(** An endpoint like [base] that also answers the calls [base] leaves
    out. *)
Definition answering_also (base : Backend)
  (authAccount : list Request -> string -> Result AuthAccountsResponse)
  (blocksLatest : list Request -> Result BlockResponse)
  (blocks : list Request -> number -> Result BlockResponse)
  (get_codes :
     list Request -> string -> Result (WasmResponse (LcdApiArray CodeInfo)))
  (get_history :
     list Request -> string ->
     Result (WasmResponse (option (list WasmContractCodeHistoryEntry))))
  (get_state :
     list Request -> string -> Result (WasmResponse (LcdApiArray WasmData)))
  (get_smart :
     list Request -> string -> Result (WasmResponse SmartQueryResponse))
  : Backend :=
  {| be_nodeInfo := be_nodeInfo base;
     be_authAccount := authAccount;
     be_blocksLatest := blocksLatest;
     be_blocks := blocks;
     be_encodeTx := be_encodeTx base;
     be_txsQuery := be_txsQuery base;
     be_broadcastTx := be_broadcastTx base;
     be_get_account := be_get_account base;
     be_get_codes := get_codes;
     be_get_code := be_get_code base;
     be_get_contracts := be_get_contracts base;
     be_get_contract := be_get_contract base;
     be_get_history := get_history;
     be_get_state := get_state;
     be_get_raw := be_get_raw base;
     be_get_smart := get_smart |}.

(** The record the endpoint returns for an account it knows. *)
Definition funded_account : AuthAccountsResponse :=
  {| aar_height := "12";
     aar_value := {| av_address := "orai1funded"; av_coins := JArray [];
                     av_public_key := JNull;
                     av_account_number := JString "7";
                     av_sequence := JString "3" |} |}.

(** A block at height 12 with two transactions. *)
Definition example_block : BlockResponse :=
  {| br_block_id_hash := "ABCD"; br_version := JNull;
     br_time := "2020-02-15T10:39:10.4696305Z"; br_height := "12";
     br_chain_id := "Oraichain"; br_txs := Some ["dHgx"; "dHgy"] |}.

(** The path of an account lookup and of a contract lookup. *)
Definition account_path (address : string) : string :=
  "/auth/accounts/" +:+ address.
Definition contract_path (address : string) : string :=
  "/wasm/contract/" +:+ address.

(** The message of [getContract] for an address without a contract. *)
Definition no_contract_message (address : string) : string :=
  "No contract found at address " +:+ dquote +:+ address +:+ dquote.

(** The path of a smart query. *)
Definition smart_path (lib : Lib) (address : string) (query : Json) : string :=
  "/wasm/contract/" +:+ address +:+ "/smart/"
  +:+ toHex lib (toUtf8 lib (JSON_stringify lib query)) +:+ "?encoding=hex".

(** An endpoint that answers nothing. *)
Definition unreachable_fixture : Backend :=
  fixture_backend down down_for down_for down_for down_for down_for down_for.

(** An endpoint that knows the account [funded_account], by either
    lookup. *)
Definition funded_backend : Backend :=
  answering_also (account_backend funded_account)
    (fun _ _ => Ok funded_account) down down_for down_for down_for down_for
    down_for.

(** An endpoint without contracts that would answer a raw query. *)
Definition no_contract_backend : Backend :=
  fixture_backend down down_for down_for down_for down_for
    (fun _ _ => Ok (WasmSuccess "12" None))
    (fun _ _ => Ok (WasmSuccess "12" RawNull)).

(** An endpoint whose smart queries fail with the given message. *)
Definition smart_error_backend (message : string) : Backend :=
  answering_also unreachable_fixture down_for down down_for down_for down_for
    down_for (fun _ _ => Ok (WasmError message)).

(** An endpoint that lists the given history for every contract. *)
Definition history_backend
  (history : option (list WasmContractCodeHistoryEntry)) : Backend :=
  answering_also unreachable_fixture down_for down down_for down_for
    (fun _ _ => Ok (WasmSuccess "12" history)) down_for down_for.

(** A code as [getCodes] returns it, against the entry of the answer it
    was made from. *)
Definition code_from (lib : Lib) (entry : CodeInfo) (code : Code) : Prop :=
  code_id code = ci_id entry /\
  code_creator code = ci_creator entry /\
  result_map (toHex lib) (fromHex lib (ci_data_hash entry))
  = Ok (code_checksum code) /\
  code_source code = str_or_undefined (ci_source entry) /\
  code_builder code = str_or_undefined (ci_builder entry).

(** A state entry as [getAllContractState] returns it, against the entry
    of the answer. *)
Definition model_from (lib : Lib) (d : WasmData) (m : Model) : Prop :=
  fromHex lib (key d) = Ok (m_key m) /\ fromBase64 lib (val d) = Ok (m_val m).

(** The request [getBlock] sends. *)
Definition block_request (height : option number) : Request :=
  match height with Some h => Blocks h | None => BlocksLatest end.

(** An endpoint that answers every block request with [example_block]. *)
Definition block_backend : Backend :=
  answering_also unreachable_fixture down_for (fun _ => Ok example_block)
    (fun _ _ => Ok example_block) down_for down_for down_for down_for.

(** An endpoint that lists the given codes. *)
Definition codes_backend (codes : LcdApiArray CodeInfo) : Backend :=
  answering_also unreachable_fixture down_for down down_for
    (fun _ _ => Ok (WasmSuccess "12" codes)) down_for down_for down_for.

(** An endpoint that lists the given state for every contract. *)
Definition state_backend (state : LcdApiArray WasmData) : Backend :=
  answering_also unreachable_fixture down_for down down_for down_for down_for
    (fun _ _ => Ok (WasmSuccess "12" state)) down_for.

Definition example_code_info : CodeInfo :=
  {| ci_id := Num 1; ci_creator := "orai1creator";
     ci_data_hash := "3defc33a"; ci_source := Some EmptyString;
     ci_builder := Some "cosmwasm/rust-optimizer:0.8.0" |}.

(** An endpoint that lists [example_code_info] and knows the account
    [funded_account]. *)
Definition warm_backend : Backend :=
  answering_also unreachable_fixture (fun _ _ => Ok funded_account) down
    down_for (fun _ _ => Ok (WasmSuccess "12" (Some [example_code_info])))
    down_for down_for down_for.

(** What [getCodes] makes of [example_code_info]. *)
Definition example_code_listed : Code :=
  {| code_id := Num 1; code_creator := "orai1creator";
     code_checksum := "3defc33a"; code_source := None;
     code_builder := Some "cosmwasm/rust-optimizer:0.8.0" |}.

(** ** Calls of [getChainId] that overlap *)

(** An [async] method runs without interruption up to an [await], and from
    the answer to the [await] on; in between, other calls on the instance
    run.  [getChainId] has one [await], so it runs in two stretches. *)

(** How far a call of [getChainId] gets at once. *)
Inductive Started : Type :=
| Returned (chainId : string)
| Awaiting.

(** [getChainId] up to its [await]: with a chain id cached it returns at
    once; without, it has sent the request for the node info and waits. *)
Definition getChainId_begin (st : State) : Started * State :=
  match str_or_undefined (chainId (fields st)) with
  | Some chainId => (Returned chainId, st)
  | None => (Awaiting, logged NodeInfo st)
  end.

(** [getChainId] from the answer to its [await] on. *)
Definition getChainId_resume (answer : Result NodeInfoResponse) : M string :=
  let* response := lift answer in
  match str_or_undefined (node_info_network response) with
  | None => throw (Error "Chain ID must not be empty")
  | Some chainId =>
      let* _ := write (set_chainId (Some chainId)) in
      ret chainId
  end.

(** What happens on an instance, one uninterrupted stretch at a time: a
    call of [getChainId] starts, a call of [getChainId] that waits gets its
    answer, or another method does one of the things the other methods do:
    it sends a request, assigns [anyValidAddress] or fills [codesCache]. *)
Inductive Event : Type :=
| CallGetChainId
| NodeInfoAnswer (answer : Result NodeInfoResponse)
| OtherSends (r : Request)
| OtherNotesAddress (a : option string)
| OtherCachesCode (codeId : number) (d : CodeDetails).

(** An instance with calls of [getChainId] under way: the client, and how
    many calls wait for their answer.  A call that waits holds nothing of its
    own, so the number is all there is to know of them. *)
Record Instance : Type := {
  client : State;
  awaiting : nat
}.

Definition new_instance : Instance :=
  {| client := new_client; awaiting := 0 |}.

(** What a stretch shows to the callers: a call of [getChainId] is left
    waiting, or ends (it returns or throws), or nothing of [getChainId]. *)
Inductive Outcome : Type :=
| Waits
| Ends (r : Result string)
| Nothing.

(** One stretch.  An answer with no call waiting for it does nothing. *)
Definition on_event (e : Event) (i : Instance) : Outcome * Instance :=
  match e with
  | CallGetChainId =>
      match getChainId_begin (client i) with
      | (Returned c, st) =>
          (Ends (Ok c), {| client := st; awaiting := awaiting i |})
      | (Awaiting, st) => (Waits, {| client := st; awaiting := S (awaiting i) |})
      end
  | NodeInfoAnswer answer =>
      match awaiting i with
      | O => (Nothing, i)
      | S n =>
          let (r, st) := getChainId_resume answer (client i) in
          (Ends r, {| client := st; awaiting := n |})
      end
  | OtherSends r =>
      (Nothing, {| client := logged r (client i); awaiting := awaiting i |})
  | OtherNotesAddress a =>
      (Nothing, {| client := written (set_anyValidAddress a) (client i);
                   awaiting := awaiting i |})
  | OtherCachesCode codeId d =>
      (Nothing, {| client := written (codesCache_set codeId d) (client i);
                   awaiting := awaiting i |})
  end.

(** The instance after a sequence of stretches. *)
Definition run (events : list Event) (i : Instance) : Instance :=
  fold_left (fun i e => snd (on_event e i)) events i.

(** What the stretches of a sequence show, one after the other. *)
Fixpoint outcomes (events : list Event) (i : Instance) : list Outcome :=
  match events with
  | [] => []
  | e :: rest => fst (on_event e i) :: outcomes rest (snd (on_event e i))
  end.

(** The stretches of the methods other than [getChainId]; none of them
    asks for the node info. *)
Definition of_other_method (e : Event) : bool :=
  match e with
  | OtherSends r => negb (is_NodeInfo r)
  | OtherNotesAddress _ | OtherCachesCode _ _ => true
  | CallGetChainId | NodeInfoAnswer _ => false
  end.

(** The stretches of any method. *)
Definition of_a_method (e : Event) : bool :=
  match e with
  | CallGetChainId | NodeInfoAnswer _ => true
  | _ => of_other_method e
  end.

(** An endpoint whose first answer to the request for the node info is a
    failure of the network, and every later one the network [Oraichain]. *)
Definition recovering_node_backend : Backend :=
  fixture_backend
    (fun history =>
       match history with
       | [] => network_error
       | _ => Ok {| node_info_network := Some "Oraichain" |}
       end)
    down_for down_for down_for down_for down_for down_for.
(** * Properties *)

(** ** JavaScript helpers on examples *)

Example parseInt_plain : parseInt "100" = Num 100.
Proof. reflexivity. Qed.
Example parseInt_trailing : parseInt " 12px" = Num 12.
Proof. reflexivity. Qed.
Example parseInt_negative : parseInt "-7" = Num (-7).
Proof. reflexivity. Qed.
Example parseInt_empty : parseInt EmptyString = NaN.
Proof. reflexivity. Qed.
Example to_string_max : to_string MAX_SAFE_INTEGER = "9007199254740991".
Proof. reflexivity. Qed.

Example matches_DEAD : matches_hex_pairs "DEAD" = true.
Proof. reflexivity. Qed.
Example rejects_deadbeef : matches_hex_pairs "deadbeef" = false.
Proof. reflexivity. Qed.
Example rejects_odd : matches_hex_pairs "ABC" = false.
Proof. reflexivity. Qed.
Example rejects_empty : matches_hex_pairs EmptyString = false.
Proof. reflexivity. Qed.


(** ** The merge *)

Section MergeFacts.

Implicit Types (sent received mergedTxs : list IndexedTx) (st : LoopState).

Lemma while_loop_unfold_if st :
  while_loop st = if loop_cond st then while_loop (loop_body st) else st.
Proof.
  apply (while_loop_elim
           (fun st r =>
              r = if loop_cond st then while_loop (loop_body st) else st)).
  - intros st' running _ _. rewrite running. reflexivity.
  - intros st' stopped _. rewrite stopped. reflexivity.
Qed.

(** A turn of the loop does not change where the loop ends. *)
Lemma while_loop_body st : while_loop (loop_body st) = while_loop st.
Proof.
  rewrite (while_loop_unfold_if st).
  destruct (loop_cond st) eqn:E; [reflexivity|].
  assert (loop_body st = st) as ->.
  { destruct st as [[[|? ?] [|? ?]] ?]; simpl in *; congruence. }
  rewrite while_loop_unfold_if, E. reflexivity.
Qed.

Lemma while_loop_iter n st : while_loop (Nat.iter n loop_body st) = while_loop st.
Proof.
  induction n as [|n IH]; simpl; [reflexivity|].
  rewrite while_loop_body. exact IH.
Qed.

(** The loop exits: at its end one of the two arrays is empty. *)
Lemma while_loop_exits st : loop_cond (while_loop st) = false.
Proof.
  apply (while_loop_elim (fun _ r => loop_cond r = false)).
  - intros st' _ IH _. exact IH.
  - intros st' stopped _. exact stopped.
Qed.

Lemma output_body st : output (loop_body st) = output st.
Proof. unfold output. rewrite while_loop_body. reflexivity. Qed.

Lemma output_stopped st :
  loop_cond st = false ->
  output st = match st with (s, r, m) => m ++ s ++ r end.
Proof.
  intros E. unfold output. rewrite while_loop_unfold_if, E. reflexivity.
Qed.

(** What was merged before a state stays in front. *)
Lemma output_acc sent received mergedTxs :
  output (sent, received, mergedTxs)
  = mergedTxs ++ output (sent, received, []).
Proof.
  remember (length sent + length received)%nat as n eqn:Hn.
  revert sent received mergedTxs Hn.
  induction n as [n IH] using lt_wf_ind.
  intros sent received mergedTxs Hn.
  destruct sent as [|a sent]; [rewrite !output_stopped; reflexivity|].
  destruct received as [|b received];
    [rewrite !output_stopped by reflexivity; reflexivity|].
  assert (IH' : forall s r m, (length s + length r < n)%nat ->
                 output (s, r, m) = m ++ output (s, r, [])).
  { intros s r m Hlt. exact (IH _ Hlt s r m eq_refl). }
  rewrite <- (output_body (a :: sent, b :: received, mergedTxs)).
  rewrite <- (output_body (a :: sent, b :: received, [])).
  simpl in *.
  destruct (String.eqb _ _).
  - rewrite (IH' sent received (mergedTxs ++ [b])) by lia.
    rewrite (IH' sent received [b]) by lia.
    rewrite <- !app_assoc. reflexivity.
  - destruct (le _ _).
    + rewrite (IH' sent (b :: received) (mergedTxs ++ [a])) by (simpl; lia).
      rewrite (IH' sent (b :: received) [a]) by (simpl; lia).
      rewrite <- !app_assoc. reflexivity.
    + rewrite (IH' (a :: sent) received (mergedTxs ++ [b])) by (simpl; lia).
      rewrite (IH' (a :: sent) received [b]) by (simpl; lia).
      rewrite <- !app_assoc. reflexivity.
Qed.

Lemma mergeTxs_output sent received :
  mergeTxs sent received = output (sent, received, []).
Proof. reflexivity. Qed.

(** The merge, one element at a time. *)
Lemma mergeTxs_nil_l received : mergeTxs [] received = received.
Proof. rewrite mergeTxs_output, output_stopped; reflexivity. Qed.

Lemma mergeTxs_nil_r sent : mergeTxs sent [] = sent.
Proof.
  rewrite mergeTxs_output, output_stopped.
  - simpl. apply app_nil_r.
  - destruct sent; reflexivity.
Qed.

Lemma mergeTxs_cons a sent b received :
  mergeTxs (a :: sent) (b :: received) =
  if String.eqb (tx_hash a) (tx_hash b) then b :: mergeTxs sent received
  else if le (tx_height a) (tx_height b)
       then a :: mergeTxs sent (b :: received)
       else b :: mergeTxs (a :: sent) received.
Proof.
  rewrite !mergeTxs_output.
  rewrite <- (output_body (a :: sent, b :: received, [])). simpl.
  destruct (String.eqb _ _); [apply output_acc|].
  destruct (le _ _); apply output_acc.
Qed.

End MergeFacts.


(** ** Comparisons of numbers *)

Lemma le_Num a b : le a b = true -> exists x y, a = Num x /\ b = Num y /\ x <= y.
Proof.
  destruct a as [|x], b as [|y]; simpl; try discriminate.
  intros H. exists x, y. repeat split. lia.
Qed.

Lemma le_trans a b c : le a b = true -> le b c = true -> le a c = true.
Proof.
  intros Hab Hbc.
  apply le_Num in Hab as (x & y & -> & -> & Hxy).
  apply le_Num in Hbc as (y' & z & Hy & -> & Hyz).
  injection Hy as <-. simpl. lia.
Qed.

Lemma le_total_Num x y : le (Num x) (Num y) = false -> le (Num y) (Num x) = true.
Proof. simpl. lia. Qed.

Lemma in_range_Num lo hi t :
  CosmWasmClient.in_range lo hi t = true ->
  exists h l u, tx_height t = Num h /\ lo = Num l /\ hi = Num u /\ l <= h <= u.
Proof.
  unfold CosmWasmClient.in_range, ge. intros H.
  apply andb_prop in H as [H1 H2].
  apply le_Num in H1 as (l & h & -> & Hh & ?).
  apply le_Num in H2 as (h' & u & Hh' & -> & ?).
  rewrite Hh in Hh'. injection Hh' as <-.
  exists h, l, u. repeat split; auto.
Qed.

(** ** Ascending lists *)

Lemma ascending_tail a l : ascending (a :: l) = true -> ascending l = true.
Proof.
  destruct l as [|b l]; [reflexivity|].
  simpl. intros H. apply andb_prop in H as [_ H]. exact H.
Qed.

Lemma ascending_head a l x :
  ascending (a :: l) = true -> In x l -> le (tx_height a) (tx_height x) = true.
Proof.
  revert a. induction l as [|b l IH]; intros a Hasc Hin; [destruct Hin|].
  simpl in Hasc. apply andb_prop in Hasc as [Hab Hrest].
  destruct Hin as [<-|Hin]; [exact Hab|].
  eapply le_trans; [exact Hab|]. apply IH; assumption.
Qed.

Lemma ascending_cons a l :
  (forall x, In x l -> le (tx_height a) (tx_height x) = true) ->
  ascending l = true -> ascending (a :: l) = true.
Proof.
  intros Hhead Hl. destruct l as [|b l]; [reflexivity|].
  change (le (tx_height a) (tx_height b) && ascending (b :: l) = true).
  rewrite Hl, (Hhead b) by (left; reflexivity). reflexivity.
Qed.

Lemma ascending_filter_cons (P : IndexedTx -> bool) b rest :
  (P b = true -> forall x, In x rest -> P x = true ->
                 le (tx_height b) (tx_height x) = true) ->
  ascending (List.filter P rest) = true ->
  ascending (List.filter P (b :: rest)) = true.
Proof.
  intros Hhead Hrest. simpl. destruct (P b) eqn:Pb; [|exact Hrest].
  apply ascending_cons; [|exact Hrest].
  intros x Hx. apply filter_In in Hx as [Hx Px]. apply Hhead; auto.
Qed.

Lemma ascending_filter (P : IndexedTx -> bool) l :
  ascending l = true -> ascending (List.filter P l) = true.
Proof.
  induction l as [|a l IH]; intros Hasc; [reflexivity|].
  apply ascending_filter_cons.
  - intros _ x Hx _. eapply ascending_head; eauto.
  - apply IH. eapply ascending_tail; eauto.
Qed.

(** ** Facts about the merged list *)

Lemma same_hash_same_height_spec sent received :
  same_hash_same_height sent received = true <->
  (forall a b, In a sent -> In b received ->
               tx_hash a = tx_hash b -> tx_height a = tx_height b).
Proof.
  unfold same_hash_same_height. rewrite forallb_forall. split.
  - intros H a b Ha Hb Heq. specialize (H a Ha).
    rewrite forallb_forall in H. specialize (H b Hb).
    apply String.eqb_eq in Heq. rewrite Heq in H. simpl in H.
    apply bool_decide_eq_true in H. exact H.
  - intros H a Ha. apply forallb_forall. intros b Hb.
    destruct (String.eqb _ _) eqn:E; [|reflexivity]. simpl.
    apply bool_decide_eq_true. apply String.eqb_eq in E. auto.
Qed.

(** Induction along the three branches of the loop. *)
Lemma merge_ind (P : list IndexedTx -> list IndexedTx -> Prop) :
  (forall received, P [] received) ->
  (forall sent, P sent []) ->
  (forall a sent b received,
      P sent received -> P sent (b :: received) -> P (a :: sent) received ->
      P (a :: sent) (b :: received)) ->
  forall sent received, P sent received.
Proof.
  intros Hnil_l Hnil_r Hcons sent.
  induction sent as [|a sent IHs]; intros received; [apply Hnil_l|].
  induction received as [|b received IHr]; [apply Hnil_r|].
  apply Hcons; auto.
Qed.

(** Every merged entry comes from one of the two lists. *)
Lemma mergeTxs_In sent received x :
  In x (mergeTxs sent received) -> In x sent \/ In x received.
Proof.
  revert x. pattern sent, received. apply merge_ind; clear sent received.
  - intros received x. rewrite mergeTxs_nil_l. auto.
  - intros sent x. rewrite mergeTxs_nil_r. auto.
  - intros a sent b received IH1 IH2 IH3 x. rewrite mergeTxs_cons.
    destruct (String.eqb _ _); [|destruct (le _ _)]; simpl;
      intros [<-|Hx]; auto;
      [apply IH1 in Hx|apply IH2 in Hx|apply IH3 in Hx]; simpl in Hx; tauto.
Qed.

(** Every received entry is in the merged list. *)
Lemma mergeTxs_received sent received x :
  In x received -> In x (mergeTxs sent received).
Proof.
  revert x. pattern sent, received. apply merge_ind; clear sent received.
  - intros received x. rewrite mergeTxs_nil_l. auto.
  - intros sent x [].
  - intros a sent b received IH1 IH2 IH3 x Hx. rewrite mergeTxs_cons.
    destruct (String.eqb _ _); [|destruct (le _ _)]; simpl.
    + destruct Hx as [->|Hx]; auto.
    + right. apply IH2. exact Hx.
    + destruct Hx as [->|Hx]; auto.
Qed.

(** The merged list, cut to a height range, is ascending. *)
Lemma merged_in_range_ascending lo hi sent received :
  ascending sent = true -> ascending received = true ->
  same_hash_same_height sent received = true ->
  ascending (List.filter (CosmWasmClient.in_range lo hi)
               (mergeTxs sent received)) = true.
Proof.
  rewrite same_hash_same_height_spec.
  pattern sent, received. apply merge_ind; clear sent received.
  - intros received _ Hr _. rewrite mergeTxs_nil_l. apply ascending_filter, Hr.
  - intros sent Hs _ _. rewrite mergeTxs_nil_r. apply ascending_filter, Hs.
  - intros a sent b received IH1 IH2 IH3 Hs Hr Hagree.
    pose proof (ascending_tail _ _ Hs) as Hs'.
    pose proof (ascending_tail _ _ Hr) as Hr'.
    rewrite mergeTxs_cons.
    destruct (String.eqb (tx_hash a) (tx_hash b)) eqn:Ehash;
      [|destruct (le (tx_height a) (tx_height b)) eqn:Ele].
    + (* same hash: the received entry stands for both *)
      assert (tx_height a = tx_height b) as Hab.
      { apply Hagree; [left; reflexivity|left; reflexivity|].
        apply String.eqb_eq, Ehash. }
      apply ascending_filter_cons.
      * intros _ x Hx _. apply mergeTxs_In in Hx as [Hx|Hx].
        -- rewrite <- Hab. eapply ascending_head; eauto.
        -- eapply ascending_head; eauto.
      * apply IH1; auto. intros; apply Hagree; simpl; auto.
    + (* the sent entry is not above the received one *)
      apply ascending_filter_cons.
      * intros _ x Hx _. apply mergeTxs_In in Hx as [Hx|[<-|Hx]].
        -- eapply ascending_head; eauto.
        -- exact Ele.
        -- eapply le_trans; [exact Ele|]. eapply ascending_head; eauto.
      * apply IH2; auto. intros; apply Hagree; simpl; auto.
    + (* the received entry is below the sent one, or is no height *)
      apply ascending_filter_cons.
      * intros Pb x Hx Px.
        apply in_range_Num in Pb as (hb & l & u & Hb & _).
        apply in_range_Num in Px as (hx & l' & u' & Hx' & _).
        apply mergeTxs_In in Hx as [[<-|Hx]|Hx].
        -- rewrite Hb, Hx' in *. apply le_total_Num, Ele.
        -- pose proof (ascending_head _ _ _ Hs Hx) as Hax.
           apply le_Num in Hax as (ha & hx2 & Ha & Hx2 & ?).
           rewrite Ha, Hb, Hx' in *. injection Hx2 as <-.
           simpl in *. lia.
        -- eapply ascending_head; eauto.
      * apply IH3; auto. intros; apply Hagree; simpl; auto.
Qed.

(** Where the loop stands after some turns, the merged list is what was
    merged so far followed by the merge of what is left. *)
Lemma mergeTxs_loop_after n sent received s r acc :
  loop_after n sent received = (s, r, acc) ->
  mergeTxs sent received = acc ++ mergeTxs s r.
Proof.
  intros Hn. unfold mergeTxs at 1, output.
  rewrite <- (while_loop_iter n). fold (loop_after n sent received).
  rewrite Hn. change (output (s, r, acc) = acc ++ mergeTxs s r).
  apply output_acc.
Qed.

(** Two heads that tie on the height: the sent one is merged first. *)
Lemma tie_sent_first n sent received a s b r acc :
  loop_after n sent received = (a :: s, b :: r, acc) ->
  tx_hash a <> tx_hash b ->
  le (tx_height a) (tx_height b) = true ->
  exists pre post, mergeTxs sent received = acc ++ a :: pre ++ b :: post.
Proof.
  intros Hn Hhash Hle.
  rewrite (mergeTxs_loop_after _ _ _ _ _ _ Hn), mergeTxs_cons, Hle.
  apply String.eqb_neq in Hhash. rewrite Hhash.
  destruct (in_split b (mergeTxs s (b :: r))) as (pre & post & ->).
  { apply mergeTxs_received. left. reflexivity. }
  exists pre, post. reflexivity.
Qed.


(** ** Running the methods *)

Import CosmWasmClient.

Section Running.

Variable lib : Lib.
Variable lcdClient : Backend.

Lemma to_IndexedTx_state restItem st :
  snd (to_IndexedTx lib restItem st) = st.
Proof.
  unfold to_IndexedTx, bind, lift, ret.
  destruct (parseLogs _ _); reflexivity.
Qed.

Lemma mapM_state {A B} (f : A -> M B) (xs : list A) st :
  (forall x st, snd (f x st) = st) -> snd (mapM f xs st) = st.
Proof.
  intros Hf. induction xs as [|x xs IH]; [reflexivity|].
  simpl. unfold bind at 1. specialize (Hf x st).
  destruct (f x st) as [[y|e] st1]; simpl in Hf; subst; [|reflexivity].
  unfold bind. destruct (mapM f xs st) as [[ys|e] st'];
    simpl in *; subst; reflexivity.
Qed.

Lemma txsQuery_unfold query st :
  txsQuery lib lcdClient query st =
  match be_txsQuery lcdClient (requests st) (txs_request query) with
  | Throw e => (Throw e, logged (TxsQuery (txs_request query)) st)
  | Ok result =>
      if gt (parseInt (page_total result)) (Num 1)
      then (Throw (Error (pagination_message result)),
            logged (TxsQuery (txs_request query)) st)
      else mapM (to_IndexedTx lib) (txs result)
             (logged (TxsQuery (txs_request query)) st)
  end.
Proof.
  unfold txsQuery, bind, send.
  change (query +:+ "&limit=" +:+ to_string (Num 100))
    with (txs_request query).
  destruct (be_txsQuery _ _ _) as [result|e]; [|reflexivity].
  destruct (gt _ _); reflexivity.
Qed.

(** [txsQuery] sends one request and leaves the fields alone. *)
Lemma txsQuery_state query st :
  snd (txsQuery lib lcdClient query st) = logged (TxsQuery (txs_request query)) st.
Proof.
  rewrite txsQuery_unfold.
  destruct (be_txsQuery _ _ _) as [result|e]; [|reflexivity].
  destruct (gt _ _); [reflexivity|].
  apply mapM_state. intros. apply to_IndexedTx_state.
Qed.

Lemma txsQuery_several_pages query st resp :
  be_txsQuery lcdClient (requests st) (txs_request query) = Ok resp ->
  gt (parseInt (page_total resp)) (Num 1) = true ->
  txsQuery lib lcdClient query st =
  (Throw (Error (pagination_message resp)),
   logged (TxsQuery (txs_request query)) st).
Proof.
  intros Hresp Hpages. rewrite txsQuery_unfold, Hresp, Hpages. reflexivity.
Qed.

(** A successful [txsQuery] saw a single page. *)
Lemma txsQuery_ok query st l :
  fst (txsQuery lib lcdClient query st) = Ok l ->
  exists resp,
    be_txsQuery lcdClient (requests st) (txs_request query) = Ok resp /\
    gt (parseInt (page_total resp)) (Num 1) = false.
Proof.
  rewrite txsQuery_unfold.
  destruct (be_txsQuery _ _ _) as [resp|e]; [|discriminate].
  destruct (gt _ _) eqn:E; [discriminate|].
  intros _. exists resp. auto.
Qed.

(** [searchTx] with the bounds the wrong way round. *)
Lemma searchTx_inverted query filter st :
  lt (effective_max filter) (effective_min filter) = true ->
  searchTx lib lcdClient query filter st = (Ok [], st).
Proof. intros H. unfold searchTx. rewrite H. reflexivity. Qed.

(** [searchTx] by sender or recipient, from the two answers. *)
Lemma searchTx_sentFromOrTo query filter address st sent st1 received st2 :
  q_height query = None -> q_sentFromOrTo query = Some address ->
  lt (effective_max filter) (effective_min filter) = false ->
  txsQuery lib lcdClient
    (withFilters (effective_min filter) (effective_max filter)
       ("message.module=bank&message.sender=" +:+ address)) st
  = (Ok sent, st1) ->
  txsQuery lib lcdClient
    (withFilters (effective_min filter) (effective_max filter)
       ("message.module=bank&transfer.recipient=" +:+ address)) st1
  = (Ok received, st2) ->
  searchTx lib lcdClient query filter st
  = (Ok (List.filter (in_range (effective_min filter) (effective_max filter))
           (mergeTxs sent received)), st2).
Proof.
  intros Hh Ha Hrange Hsent Hreceived.
  unfold searchTx. rewrite Hrange, Hh, Ha.
  unfold bind at 1. unfold bind at 1. unfold promise_all2.
  rewrite Hsent, Hreceived. reflexivity.
Qed.

(** A query none of the three guards accepts. *)
Lemma searchTx_unknown_query query filter st :
  lt (effective_max filter) (effective_min filter) = false ->
  isSearchByHeightQuery query = false ->
  isSearchBySentFromOrToQuery query = false ->
  isSearchByTagsQuery query = false ->
  searchTx lib lcdClient query filter st
  = (Throw (Error "Unknown query type"), st).
Proof.
  unfold isSearchByHeightQuery, isSearchBySentFromOrToQuery,
    isSearchByTagsQuery.
  intros Hrange Hheight Hsent Htags. unfold searchTx. rewrite Hrange.
  destruct (q_height query); [discriminate|].
  destruct (q_sentFromOrTo query); [discriminate|].
  destruct (q_tags query); [discriminate|]. reflexivity.
Qed.

(** A search by height outside the bounds is answered without a
    request. *)
Lemma searchTx_height_outside query filter st height :
  q_height query = Some height ->
  (lt height (effective_min filter) || gt height (effective_max filter))%bool
  = true ->
  searchTx lib lcdClient query filter st = (Ok [], st).
Proof.
  intros Hheight Houtside. unfold searchTx.
  destruct (lt (effective_max filter) (effective_min filter)); [reflexivity|].
  rewrite Hheight, Houtside. reflexivity.
Qed.

(** Whatever [searchTx] returns lies within the bounds it worked with. *)
Lemma searchTx_within_effective query filter st l :
  fst (searchTx lib lcdClient query filter st) = Ok l ->
  Forall (fun tx => in_range (effective_min filter) (effective_max filter) tx
                    = true) l.
Proof.
  unfold searchTx. destruct (lt _ _).
  - intros H. injection H as <-. constructor.
  - unfold bind at 1.
    match goal with |- context [match ?m st with _ => _ end] =>
      destruct (m st) as [[txs|e] st'] end; [|discriminate].
    unfold ret. simpl. intros H. injection H as <-.
    apply List.Forall_forall. intros x Hx. apply filter_In in Hx. tauto.
Qed.

End Running.


(** ** When the merge counts every transaction once *)

Lemma lt_trans a b c : lt a b = true -> lt b c = true -> lt a c = true.
Proof.
  destruct a as [|x], b as [|y], c as [|z]; simpl; try discriminate. lia.
Qed.

Lemma strictly_ascending_tail a l :
  strictly_ascending (a :: l) = true -> strictly_ascending l = true.
Proof.
  destruct l as [|b l]; [reflexivity|].
  simpl. intros H. apply andb_prop in H as [_ H]. exact H.
Qed.

Lemma strictly_ascending_head a l x :
  strictly_ascending (a :: l) = true -> In x l ->
  lt (tx_height a) (tx_height x) = true.
Proof.
  revert a. induction l as [|b l IH]; intros a Hasc Hin; [destruct Hin|].
  simpl in Hasc. apply andb_prop in Hasc as [Hab Hrest].
  destruct Hin as [<-|Hin]; [exact Hab|].
  eapply lt_trans; [exact Hab|]. apply IH; assumption.
Qed.

Lemma existsb_hash_false a l :
  (forall x, In x l -> tx_hash x <> tx_hash a) ->
  existsb (fun b => String.eqb (tx_hash a) (tx_hash b)) l = false.
Proof.
  intros H. induction l as [|b l IH]; [reflexivity|].
  simpl. rewrite IH by (intros; apply H; right; assumption).
  assert (tx_hash a <> tx_hash b) as Hne
    by (intros E; apply (H b); [left; reflexivity|congruence]).
  apply String.eqb_neq in Hne. rewrite Hne. reflexivity.
Qed.

(** A received entry whose hash no sent entry has is not shared. *)
Lemma shared_hashes_skip_received sent b received :
  (forall x, In x sent -> tx_hash x <> tx_hash b) ->
  shared_hashes sent (b :: received) = shared_hashes sent received.
Proof.
  intros H. unfold shared_hashes. f_equal.
  apply List.filter_ext_in. intros x Hx. simpl.
  pose proof (H x Hx) as Hne. apply String.eqb_neq in Hne.
  rewrite Hne. reflexivity.
Qed.

Lemma NoDup_hashes_cons a l :
  NoDup (map tx_hash (a :: l)) ->
  (forall x, In x l -> tx_hash x <> tx_hash a) /\ NoDup (map tx_hash l).
Proof.
  simpl. intros H. apply NoDup_cons in H as [Hnotin Hl].
  split; [|exact Hl]. intros x Hx E. apply Hnotin.
  rewrite list_elem_of_In, <- E. apply in_map, Hx.
Qed.

Lemma NoDup_hashes_intro a l :
  (forall x, In x l -> tx_hash x <> tx_hash a) -> NoDup (map tx_hash l) ->
  NoDup (map tx_hash (a :: l)).
Proof.
  intros Hne Hl. simpl. apply NoDup_cons. split; [|exact Hl].
  rewrite list_elem_of_In. intros Hin.
  apply in_map_iff in Hin as (x & E & Hx). exact (Hne x Hx E).
Qed.

(** When no two entries of a list are at the same height, and a shared
    hash has one height, the merge returns every transaction once. *)
Lemma mergeTxs_exact_when_heights_strict sent received :
  strictly_ascending sent = true -> strictly_ascending received = true ->
  same_hash_same_height sent received = true ->
  duplicate_free sent = true -> duplicate_free received = true ->
  duplicate_free (mergeTxs sent received) = true /\
  length (mergeTxs sent received)
  = (length sent + length received
     - length (shared_hashes sent received))%nat.
Proof.
  unfold duplicate_free. rewrite !bool_decide_eq_true.
  rewrite same_hash_same_height_spec.
  intros Hs Hr Hagree Hds Hdr.
  enough (NoDup (map tx_hash (mergeTxs sent received)) /\
          (length (mergeTxs sent received)
           + length (shared_hashes sent received)
           = length sent + length received)%nat) as [H1 H2]
    by (split; [exact H1|lia]).
  revert Hs Hr Hagree Hds Hdr.
  pattern sent, received. apply merge_ind; clear sent received.
  - intros received _ _ _ _ Hdr. rewrite mergeTxs_nil_l. split; [exact Hdr|].
    simpl. lia.
  - intros sent _ _ _ Hds _. rewrite mergeTxs_nil_r. split; [exact Hds|].
    unfold shared_hashes. simpl.
    replace (List.filter (fun _ => false) sent) with (@nil IndexedTx);
      [simpl; lia|].
    induction sent as [|? ? IH]; [reflexivity|]. simpl. apply IH.
    apply NoDup_hashes_cons in Hds. tauto.
  - intros a sent b received IH1 IH2 IH3 Hs Hr Hagree Hds Hdr.
    pose proof (strictly_ascending_tail _ _ Hs) as Hs'.
    pose proof (strictly_ascending_tail _ _ Hr) as Hr'.
    destruct (NoDup_hashes_cons _ _ Hds) as [Ha Hds'].
    destruct (NoDup_hashes_cons _ _ Hdr) as [Hb Hdr'].
    rewrite mergeTxs_cons.
    destruct (String.eqb (tx_hash a) (tx_hash b)) eqn:Ehash;
      [|destruct (le (tx_height a) (tx_height b)) eqn:Ele].
    + (* the two copies meet: one is kept *)
      apply String.eqb_eq in Ehash.
      destruct IH1 as [IHn IHl]; auto.
      { intros; apply Hagree; simpl; auto. }
      split.
      * apply NoDup_hashes_intro; [|exact IHn].
        intros x Hx. apply mergeTxs_In in Hx as [Hx|Hx]; [|auto].
        rewrite <- Ehash. auto.
      * assert (shared_hashes (a :: sent) (b :: received)
                = tx_hash a :: shared_hashes sent received) as ->.
        { unfold shared_hashes at 1. simpl.
          apply String.eqb_eq in Ehash. rewrite Ehash. simpl. f_equal.
          change (shared_hashes sent (b :: received)
                  = shared_hashes sent received).
          apply shared_hashes_skip_received.
          apply String.eqb_eq in Ehash. intros x Hx. rewrite <- Ehash. auto. }
        simpl. simpl in IHl. lia.
    + (* the sent entry is lower: it is in no later received entry *)
      apply String.eqb_neq in Ehash.
      assert (forall x, In x (b :: received) -> tx_hash x <> tx_hash a)
        as Hfresh.
      { intros x [<-|Hx] E; [congruence|].
        assert (tx_height a = tx_height x) as Hax
          by (apply Hagree; simpl; auto).
        pose proof (strictly_ascending_head _ _ _ Hr Hx) as Hbx.
        rewrite <- Hax in Hbx.
        destruct (tx_height a), (tx_height b); simpl in *;
          try discriminate; lia. }
      destruct IH2 as [IHn IHl]; auto.
      { intros; apply Hagree; simpl; auto. }
      split.
      * apply NoDup_hashes_intro; [|exact IHn].
        intros x Hx. apply mergeTxs_In in Hx as [Hx|Hx]; auto.
      * assert (shared_hashes (a :: sent) (b :: received)
                = shared_hashes sent (b :: received)) as ->.
        { unfold shared_hashes at 1.
          change (List.filter ?f (a :: sent))
            with (if f a then a :: List.filter f sent else List.filter f sent).
          cbv beta. rewrite (existsb_hash_false a (b :: received) Hfresh).
          reflexivity. }
        simpl. simpl in IHl. lia.
    + (* the received entry is lower: it is in no later sent entry *)
      apply String.eqb_neq in Ehash.
      assert (forall x, In x (a :: sent) -> tx_hash x <> tx_hash b)
        as Hfresh.
      { intros x [<-|Hx] E; [congruence|].
        assert (tx_height x = tx_height b) as Hxb
          by (apply Hagree; simpl; auto).
        pose proof (strictly_ascending_head _ _ _ Hs Hx) as Hax.
        rewrite Hxb in Hax.
        destruct (tx_height a), (tx_height b); simpl in *;
          try discriminate; lia. }
      destruct IH3 as [IHn IHl]; auto.
      { intros; apply Hagree; simpl; auto. }
      split.
      * apply NoDup_hashes_intro; [|exact IHn].
        intros x Hx. apply mergeTxs_In in Hx as [Hx|Hx]; auto.
      * rewrite (shared_hashes_skip_received (a :: sent) b received Hfresh).
        simpl. simpl in IHl. lia.
Qed.

(** ** The search by sender or recipient *)

(** C1, at an input on which the merge counts a transaction twice.  An
    address sends the transaction AA to itself at height 10, and in the same
    block, before it, receives BB from someone else.  Both lists are
    ascending and free of duplicates and share the hash AA, yet the merged
    list is AA, BB, AA: three entries where 1 + 2 - 1 = 2 are due, AA
    twice.  The heads AA and BB differ and tie on the height, so the sent AA
    is merged and the received AA is never compared with it.  [searchTx]
    returns this list as it is. *)
Theorem mergeTxs_counts_self_transfer_twice :
  let sent := [indexed_tx 10 "AA"] in
  let received := [indexed_tx 10 "BB"; indexed_tx 10 "AA"] in
  ascending sent = true /\ ascending received = true /\
  duplicate_free sent = true /\ duplicate_free received = true /\
  shared_hashes sent received = ["AA"] /\
  mergeTxs sent received
  = [indexed_tx 10 "AA"; indexed_tx 10 "BB"; indexed_tx 10 "AA"] /\
  occurrences "AA" (mergeTxs sent received) = 2%nat /\
  length (mergeTxs sent received)
  <> (length sent + length received
      - length (shared_hashes sent received))%nat /\
  fst (searchTx example_lib
         (bank_backend [rest_tx "10" "AA"]
                       [rest_tx "10" "BB"; rest_tx "10" "AA"])
         (SearchBySentFromOrToQuery "orai1address") no_filter new_client)
  = Ok [indexed_tx 10 "AA"; indexed_tx 10 "BB"; indexed_tx 10 "AA"].
Proof.
  cbv zeta. repeat split; try (vm_compute; reflexivity).
  vm_compute. discriminate.
Qed.

(** Two answers that share B at height 20: B is returned once. *)
Example searchTx_spec_example :
  fst (searchTx example_lib
         (bank_backend [rest_tx "10" "A"; rest_tx "20" "B"]
                       [rest_tx "15" "C"; rest_tx "20" "B"])
         (SearchBySentFromOrToQuery "orai1address") no_filter new_client)
  = Ok [indexed_tx 10 "A"; indexed_tx 15 "C"; indexed_tx 20 "B"].
Proof. vm_compute. reflexivity. Qed.

(** The merge takes two entries with the same hash for one transaction and
    keeps the received one.  Two lists that gave the hash AA different
    heights, which one transaction index does not do, would come back out of
    order: the entry taken for AA is the received one, at height 20, and CC
    at height 6 follows it. *)
Example searchTx_takes_a_hash_for_one_transaction :
  let sent := [indexed_tx 5 "AA"; indexed_tx 6 "CC"] in
  let received := [indexed_tx 20 "AA"; indexed_tx 21 "DD"] in
  let returned :=
    [indexed_tx 20 "AA"; indexed_tx 6 "CC"; indexed_tx 21 "DD"] in
  ascending sent = true /\ ascending received = true /\
  mergeTxs sent received = returned /\
  fst (searchTx example_lib
         (bank_backend [rest_tx "5" "AA"; rest_tx "6" "CC"]
                       [rest_tx "20" "AA"; rest_tx "21" "DD"])
         (SearchBySentFromOrToQuery "orai1address") no_filter new_client)
  = Ok returned /\
  ascending returned = false.
Proof. cbv zeta. repeat split; vm_compute; reflexivity. Qed.

(** C2: when the two answers are ascending by height, a hash they share
    naming one transaction and so standing at one height in both, what
    [searchTx] returns for a search by sender or recipient is ascending; and
    when two entries of the same height and different hashes meet in the
    loop, the sent one, which the loop looks at first, comes before the
    received one in what is returned. *)
Theorem searchTx_sentFromOrTo_ordered
  (lib : Lib) (lcdClient : Backend)
  (query : SearchTxQuery) (filter : SearchTxFilter) (address : string)
  (st st1 st2 : State) (sent received : list IndexedTx) :
  q_height query = None -> q_sentFromOrTo query = Some address ->
  lt (effective_max filter) (effective_min filter) = false ->
  txsQuery lib lcdClient
    (withFilters (effective_min filter) (effective_max filter)
       ("message.module=bank&message.sender=" +:+ address)) st
  = (Ok sent, st1) ->
  txsQuery lib lcdClient
    (withFilters (effective_min filter) (effective_max filter)
       ("message.module=bank&transfer.recipient=" +:+ address)) st1
  = (Ok received, st2) ->
  ascending sent = true -> ascending received = true ->
  same_hash_same_height sent received = true ->
  exists returned,
    searchTx lib lcdClient query filter st = (Ok returned, st2) /\
    ascending returned = true /\
    forall n a s b r acc,
      loop_after n sent received = (a :: s, b :: r, acc) ->
      tx_height a = tx_height b -> tx_hash a <> tx_hash b ->
      In a returned ->
      exists before between behind,
        returned = before ++ a :: between ++ b :: behind.
Proof.
  intros Hh Ha Hrange Hsent Hreceived Hs Hr Hagree.
  eexists. split; [|split].
  - eapply searchTx_sentFromOrTo; eauto.
  - apply merged_in_range_ascending; assumption.
  - intros n a s b r acc Hn Hheight Hhash Hin.
    apply filter_In in Hin as [_ Pa].
    assert (in_range (effective_min filter) (effective_max filter) b = true)
      as Pb.
    { unfold in_range in *. rewrite <- Hheight. exact Pa. }
    assert (le (tx_height a) (tx_height b) = true) as Hle.
    { rewrite <- Hheight.
      apply in_range_Num in Pa as (h & _ & _ & -> & _). simpl. lia. }
    destruct (tie_sent_first _ _ _ _ _ _ _ _ Hn Hhash Hle)
      as (pre & post & ->).
    exists (List.filter (in_range (effective_min filter) (effective_max filter))
              acc),
      (List.filter (in_range (effective_min filter) (effective_max filter))
              pre),
      (List.filter (in_range (effective_min filter) (effective_max filter))
              post).
    rewrite List.filter_app. simpl. rewrite Pa.
    rewrite List.filter_app. simpl. rewrite Pb. reflexivity.
Qed.

Lemma searchTx_sentFromOrTo_ordered_witness :
  exists returned,
    searchTx example_lib
      (bank_backend [rest_tx "10" "AA"; rest_tx "20" "BB"]
                    [rest_tx "10" "CC"; rest_tx "20" "BB"])
      (SearchBySentFromOrToQuery "orai1address") no_filter new_client
    = (Ok returned,
       logged (TxsQuery (txs_request
                 (withFilters (Num 0) MAX_SAFE_INTEGER
                    "message.module=bank&transfer.recipient=orai1address")))
         (logged (TxsQuery (txs_request
                   (withFilters (Num 0) MAX_SAFE_INTEGER
                      "message.module=bank&message.sender=orai1address")))
            new_client)) /\
    ascending returned = true /\
    forall n a s b r acc,
      loop_after n [indexed_tx 10 "AA"; indexed_tx 20 "BB"]
                   [indexed_tx 10 "CC"; indexed_tx 20 "BB"]
      = (a :: s, b :: r, acc) ->
      tx_height a = tx_height b -> tx_hash a <> tx_hash b ->
      In a returned ->
      exists before between behind,
        returned = before ++ a :: between ++ b :: behind.
Proof.
  apply (searchTx_sentFromOrTo_ordered example_lib
           (bank_backend [rest_tx "10" "AA"; rest_tx "20" "BB"]
                         [rest_tx "10" "CC"; rest_tx "20" "BB"])
           (SearchBySentFromOrToQuery "orai1address") no_filter
           "orai1address" new_client
           (logged (TxsQuery (txs_request
                      (withFilters (Num 0) MAX_SAFE_INTEGER
                         "message.module=bank&message.sender=orai1address")))
              new_client)
           _
           [indexed_tx 10 "AA"; indexed_tx 20 "BB"]
           [indexed_tx 10 "CC"; indexed_tx 20 "BB"]);
    vm_compute; reflexivity.
Defined.


(** ** The height filter *)

(** The bounds [searchTx] works with are those of the filter, unless the
    filter names [maxHeight: 0], which [||] takes for an absent bound, or a
    bound that is [NaN]. *)
Lemma effective_min_filter_min filter :
  minHeight filter <> Some NaN -> effective_min filter = filter_min filter.
Proof.
  unfold effective_min, filter_min, or_default.
  destruct (minHeight filter) as [[|z]|]; simpl; try congruence.
  intros _. destruct (Z.eqb_spec z 0) as [->|]; reflexivity.
Qed.

Lemma effective_max_filter_max filter :
  maxHeight filter <> Some NaN -> maxHeight filter <> Some (Num 0) ->
  effective_max filter = filter_max filter.
Proof.
  unfold effective_max, filter_max, or_default.
  destruct (maxHeight filter) as [[|z]|]; simpl; try congruence.
  intros _ Hz. destruct (Z.eqb_spec z 0) as [->|]; [congruence|reflexivity].
Qed.

(** For a filter whose [maxHeight] is not 0, an empty range is answered
    at once: nothing is sent. *)
Lemma searchTx_empty_range lib lcdClient query filter st :
  maxHeight filter <> Some (Num 0) ->
  lt (filter_max filter) (filter_min filter) = true ->
  searchTx lib lcdClient query filter st = (Ok [], st).
Proof.
  intros Hmax Hlt. apply searchTx_inverted.
  rewrite effective_min_filter_min, effective_max_filter_max; auto.
  - intros E. unfold filter_max in Hlt. rewrite E in Hlt. discriminate.
  - intros E. unfold filter_min in Hlt. rewrite E in Hlt.
    destruct (filter_max filter); discriminate.
Qed.

(** For a filter whose [maxHeight] is not 0 (and whose bounds are
    numbers), what [searchTx] returns lies within the bounds of the
    filter. *)
Lemma searchTx_within_filter lib lcdClient query filter st l :
  minHeight filter <> Some NaN -> maxHeight filter <> Some NaN ->
  maxHeight filter <> Some (Num 0) ->
  fst (searchTx lib lcdClient query filter st) = Ok l ->
  Forall (fun tx => in_range (filter_min filter) (filter_max filter) tx = true) l.
Proof.
  intros Hmin Hmax Hzero Hl. apply searchTx_within_effective in Hl.
  rewrite effective_min_filter_min, effective_max_filter_max in Hl; auto.
Qed.

(** C3, at an input on which the empty range is not seen.  The filter
    asks for heights from 1 to 0.  [filter.maxHeight || MAX_SAFE_INTEGER]
    takes the 0 for an absent bound, the test [maxHeight < minHeight] is
    false, and the search is sent, with [tx.maxheight=9007199254740991]; the
    transaction the endpoint lists at height 7 is returned. *)
Theorem searchTx_maxHeight_zero_sends_request :
  let filter := {| minHeight := Some (Num 1); maxHeight := Some (Num 0) |} in
  let lcdClient :=
    txs_backend (fun _ _ => Ok (one_page [rest_tx "7" "AB"])) in
  lt (filter_max filter) (filter_min filter) = true /\
  effective_max filter = MAX_SAFE_INTEGER /\
  searchTx example_lib lcdClient
    (SearchByTagsQuery [("message.module", "bank")]) filter new_client
  = (Ok [indexed_tx 7 "AB"],
     logged (TxsQuery ("message.module=bank&tx.minheight=1"
                       +:+ "&tx.maxheight=9007199254740991&limit=100"))
       new_client).
Proof. cbv zeta. repeat split; vm_compute; reflexivity. Qed.

(** C4, at an input on which a returned height is outside the filter.  The
    filter asks for heights up to 0; the 0 is taken for an absent bound and
    the transaction at height 7 is returned: the same [||] as in the test
    for an empty range, seen here at the last [txs.filter(...)]. *)
Theorem searchTx_maxHeight_zero_returns_higher :
  let filter := {| minHeight := None; maxHeight := Some (Num 0) |} in
  let lcdClient :=
    txs_backend (fun _ _ => Ok (one_page [rest_tx "7" "AB"])) in
  filter_min filter = Num 0 /\ filter_max filter = Num 0 /\
  fst (searchTx example_lib lcdClient
         (SearchByTagsQuery [("message.module", "bank")]) filter new_client)
  = Ok [indexed_tx 7 "AB"] /\
  in_range (filter_min filter) (filter_max filter) (indexed_tx 7 "AB") = false.
Proof. cbv zeta. repeat split; vm_compute; reflexivity. Qed.


(** ** Pagination *)

Lemma getTx_several_pages lib lcdClient id st resp :
  be_txsQuery lcdClient (requests st) (txs_request ("tx.hash=" +:+ id))
  = Ok resp ->
  gt (parseInt (page_total resp)) (Num 1) = true ->
  fst (getTx lib lcdClient id st) = Throw (Error (pagination_message resp)).
Proof.
  intros Hresp Hpages. unfold getTx, bind.
  rewrite (txsQuery_several_pages _ _ _ _ _ Hresp Hpages). reflexivity.
Qed.

Lemma txsQuery_never_ok lib lcdClient query st :
  always_several_pages lcdClient ->
  is_ok (fst (txsQuery lib lcdClient query st)) = false.
Proof.
  intros Hall. destruct (fst (txsQuery _ _ _ _)) as [l|e] eqn:E; [|reflexivity].
  apply txsQuery_ok in E as (resp & Hresp & Hpages).
  rewrite (Hall _ _ _ Hresp) in Hpages. discriminate.
Qed.

(** C5: when the answer to a search reports more than one page,
    [txsQuery] throws, and so does [getTx]; the message names the total the
    endpoint reported and the limit of 100.  Against an endpoint all of whose
    answers report several pages, [searchTx] returns only when it has sent
    nothing (an empty range), and then returns the empty list: no part of a
    longer result is ever returned. *)
Theorem txsQuery_rejects_several_pages
  (lib : Lib) (lcdClient : Backend) (query : string) (st : State)
  (resp : SearchTxsResponse) :
  be_txsQuery lcdClient (requests st) (txs_request query) = Ok resp ->
  gt (parseInt (page_total resp)) (Num 1) = true ->
  txsQuery lib lcdClient query st
  = (Throw (Error (pagination_message resp)),
     logged (TxsQuery (txs_request query)) st) /\
  (forall id, query = "tx.hash=" +:+ id ->
     fst (getTx lib lcdClient id st)
     = Throw (Error (pagination_message resp))) /\
  (always_several_pages lcdClient ->
   forall q filter st' l,
     fst (searchTx lib lcdClient q filter st') = Ok l ->
     searchTx lib lcdClient q filter st' = (Ok [], st')).
Proof.
  intros Hresp Hpages. split; [|split].
  - apply txsQuery_several_pages; assumption.
  - intros id ->. apply getTx_several_pages; assumption.
  - intros Hall q filter st' l. unfold searchTx.
    destruct (lt _ _); [reflexivity|].
    unfold bind at 1.
    destruct (q_height q) as [height|].
    { destruct (lt height _ || gt height _)%bool; [reflexivity|].
      pose proof (txsQuery_never_ok lib lcdClient
                    ("tx.height=" +:+ to_string height) st' Hall) as Hno.
      destruct (txsQuery _ _ _ _) as [[txs|e] st'']; [discriminate|].
      discriminate. }
    destruct (q_sentFromOrTo q) as [address|].
    { unfold bind at 1, promise_all2.
      match goal with |- context [txsQuery lib lcdClient ?x st'] =>
        pose proof (txsQuery_never_ok lib lcdClient x st' Hall) as Hno;
        destruct (txsQuery lib lcdClient x st') as [[txs|e] st1]
      end; [discriminate|].
      match goal with |- context [txsQuery lib lcdClient ?x st1] =>
        destruct (txsQuery lib lcdClient x st1) as [[txs|e'] st2]
      end; discriminate. }
    destruct (q_tags q) as [tags|]; [|discriminate].
    match goal with |- context [txsQuery lib lcdClient ?x st'] =>
      pose proof (txsQuery_never_ok lib lcdClient x st' Hall) as Hno;
      destruct (txsQuery lib lcdClient x st') as [[txs|e] st1]
    end; discriminate.
Qed.

Lemma txsQuery_rejects_several_pages_witness :
  let lcdClient := txs_backend (fun _ _ => Ok three_pages) in
  txsQuery example_lib lcdClient "tx.hash=AB" new_client
  = (Throw (Error (pagination_message three_pages)),
     logged (TxsQuery (txs_request "tx.hash=AB")) new_client) /\
  (forall id, "tx.hash=AB" = "tx.hash=" +:+ id ->
     fst (getTx example_lib lcdClient id new_client)
     = Throw (Error (pagination_message three_pages))) /\
  (always_several_pages lcdClient ->
   forall q filter st' l,
     fst (searchTx example_lib lcdClient q filter st') = Ok l ->
     searchTx example_lib lcdClient q filter st' = (Ok [], st')).
Proof.
  apply (txsQuery_rejects_several_pages example_lib
           (txs_backend (fun _ _ => Ok three_pages)) "tx.hash=AB" new_client
           three_pages); reflexivity.
Defined.

(** The endpoint of the witness is one whose answers all report several
    pages, and a search of it throws. *)
Example searchTx_three_pages :
  always_several_pages (txs_backend (fun _ _ => Ok three_pages)) /\
  fst (searchTx example_lib (txs_backend (fun _ _ => Ok three_pages))
         (SearchByTagsQuery [("message.module", "bank")]) no_filter new_client)
  = Throw (Error ("Found more results on the backend than we can process "
                  +:+ "currently. Results: 250, supported: 100")).
Proof.
  split; [|vm_compute; reflexivity].
  intros history q resp H. injection H as <-. reflexivity.
Qed.


(** ** [broadcastTx] *)

Lemma matches_hex_pairs_strict s :
  matches_hex_pairs s = strict_upper_hex s.
Proof.
  assert (forall n s, (String.length s < n)%nat ->
                      matches_hex_pairs s = strict_upper_hex s) as Hall.
  { clear s. induction n as [|n IH]; intros s Hn; [lia|].
    destruct s as [|a [|b rest]]; [reflexivity|reflexivity|].
    change (matches_hex_pairs (String a (String b rest)))
      with (is_upper_hex a && is_upper_hex b &&
            match rest with
            | EmptyString => true
            | _ => matches_hex_pairs rest
            end).
    simpl in Hn.
    assert (matches_hex_pairs rest = strict_upper_hex rest) as Hrest
      by (apply IH; lia).
    unfold strict_upper_hex in *.
    change (String.length (String a (String b rest)))
      with (S (S (String.length rest))).
    change (Nat.even (S (S (String.length rest))))
      with (Nat.even (String.length rest)).
    change (list_ascii_of_string (String a (String b rest)))
      with (a :: b :: list_ascii_of_string rest).
    simpl forallb. simpl String.eqb. simpl negb.
    destruct rest as [|c rest'].
    - simpl. rewrite !andb_true_r. reflexivity.
    - rewrite Hrest. simpl String.eqb. simpl negb.
      generalize (Nat.even (String.length (String c rest'))) as even_length.
      generalize (forallb is_upper_hex
                    (list_ascii_of_string (String c rest'))) as all_hex.
      intros all_hex even_length.
      destruct (is_upper_hex a), (is_upper_hex b), even_length, all_hex;
        reflexivity. }
  apply (Hall (S (String.length s))). lia.
Qed.

(** C6: [broadcastTx] throws when the hash of the answer is not a
    non-empty, even-length string of upper-case hex digits ("deadbeef" is
    none).  When it is, an answer with a [code] gives the synchronous shape,
    with the height parsed by [Uint53.fromString], and an answer without
    gives the indexed shape, with the data decoded by [fromHex] when there is
    some; a returned result is of the synchronous shape exactly when the
    answer has a [code]. *)
Theorem broadcastTx_shapes
  (lib : Lib) (lcdClient : Backend) (tx : Json) (st : State)
  (result : BroadcastTxsResponse) :
  be_broadcastTx lcdClient (requests st) tx = Ok result ->
  strict_upper_hex "deadbeef" = false /\
  (strict_upper_hex (b_txhash result) = false ->
   fst (broadcastTx lib lcdClient tx st)
   = Throw (Error
       "Received ill-formatted txhash. Must be non-empty upper-case hex")) /\
  (strict_upper_hex (b_txhash result) = true ->
   (forall code, b_code result = Some code ->
      fst (broadcastTx lib lcdClient tx st)
      = result_map
          (fun height =>
             SyncResult height (b_txhash result) code
               (str_or (b_raw_log result) EmptyString))
          (Uint53_fromString lib (b_height result))) /\
   (b_code result = None ->
      fst (broadcastTx lib lcdClient tx st)
      = result_map
          (fun data =>
             IndexedResult (default (JArray []) (b_logs result))
               (str_or (b_raw_log result) EmptyString)
               (b_txhash result) data)
          (match str_or_undefined (b_data result) with
           | Some hex => result_map Some (fromHex lib hex)
           | None => Ok None
           end)) /\
   (forall r, fst (broadcastTx lib lcdClient tx st) = Ok r ->
      is_sync_result r = true <-> is_Some (b_code result))).
Proof.
  intros Hresult. split; [reflexivity|].
  unfold broadcastTx, bind, send. rewrite Hresult.
  rewrite <- matches_hex_pairs_strict.
  split.
  - intros ->. reflexivity.
  - intros ->. simpl negb. cbv iota.
    split; [|split].
    + intros code ->. unfold lift, ret.
      destruct (Uint53_fromString _ _); reflexivity.
    + intros ->. unfold lift, ret.
      destruct (str_or_undefined _); [|reflexivity].
      destruct (fromHex _ _); reflexivity.
    + intros r. destruct (b_code result) as [code|].
      * unfold lift, ret. destruct (Uint53_fromString _ _); [|discriminate].
        simpl. intros H. injection H as <-. simpl. split; eauto.
      * unfold lift, ret.
        destruct (str_or_undefined _);
          [destruct (fromHex _ _); [|discriminate]|];
          simpl; intros H; injection H as <-; simpl;
          (split; [discriminate|intros [? ?]; discriminate]).
Qed.

Lemma broadcastTx_shapes_witness :
  fst (broadcastTx example_lib (broadcast_backend sync_answer) JNull new_client)
  = Ok (SyncResult (Num 0) "DEAD" (Num 5) "out of gas").
Proof.
  destruct (broadcastTx_shapes example_lib (broadcast_backend sync_answer)
              JNull new_client sync_answer eq_refl) as (_ & _ & Hvalid).
  destruct (Hvalid eq_refl) as (Hsync & _ & _).
  exact (Hsync (Num 5) eq_refl).
Defined.


(** ** Accounts *)

Lemma getSequence_of_getAccount lib lcdClient address st :
  fst (getSequence lib lcdClient address st) =
  match fst (getAccount lib lcdClient address st) with
  | Ok None =>
      Throw (Error ("Account does not exist on chain. Send some tokens "
                    +:+ "there before trying to query sequence."))
  | Ok (Some account) =>
      Ok {| seq_accountNumber := acc_accountNumber account;
            seq_sequence := acc_sequence account |}
  | Throw e => Throw e
  end.
Proof.
  unfold getSequence, bind.
  destruct (getAccount _ _ _ _) as [[[account|]|e] st']; reflexivity.
Qed.

(** C7: for an address whose record comes back with an empty address
    field, [getAccount] returns [undefined] and [getSequence] throws, with
    the message that the account does not exist on chain and needs tokens
    sent to it first.  For a record with an address whose numbers are
    read, [getAccount] returns the account and [getSequence] its account
    number and sequence. *)
Theorem getSequence_needs_account
  (lib : Lib) (lcdClient : Backend) (address : string) (st : State)
  (account : AuthAccountsResponse) :
  be_get_account lcdClient (requests st) ("/auth/accounts/" +:+ address)
  = Ok account ->
  (av_address (aar_value account) = EmptyString ->
   fst (getAccount lib lcdClient address st) = Ok None /\
   fst (getSequence lib lcdClient address st)
   = Throw (Error ("Account does not exist on chain. Send some tokens there "
                   +:+ "before trying to query sequence."))) /\
  (forall pubkey accountNumber sequence,
     av_address (aar_value account) <> EmptyString ->
     normalizePubkey lib (av_public_key (aar_value account)) = Ok pubkey ->
     uint64ToNumber lib (av_account_number (aar_value account))
     = Ok accountNumber ->
     uint64ToNumber lib (av_sequence (aar_value account)) = Ok sequence ->
     fst (getAccount lib lcdClient address st)
     = Ok (Some {| acc_address := av_address (aar_value account);
                   acc_balance := av_coins (aar_value account);
                   acc_pubkey := pubkey;
                   acc_accountNumber := accountNumber;
                   acc_sequence := sequence |}) /\
     fst (getSequence lib lcdClient address st)
     = Ok {| seq_accountNumber := accountNumber;
             seq_sequence := sequence |}).
Proof.
  intros Haccount. split.
  - intros Hempty.
    assert (fst (getAccount lib lcdClient address st) = Ok None) as Hnone.
    { unfold getAccount, bind, send. rewrite Haccount, Hempty. reflexivity. }
    split; [exact Hnone|].
    rewrite getSequence_of_getAccount, Hnone. reflexivity.
  - intros pubkey accountNumber sequence Hpresent Hpubkey Hnumber Hsequence.
    match goal with |- ?G /\ _ => assert G as Hsome end.
    { unfold getAccount, bind, send. rewrite Haccount.
      apply String.eqb_neq in Hpresent. rewrite Hpresent.
      unfold write, lift. rewrite Hpubkey, Hnumber, Hsequence. reflexivity. }
    split; [exact Hsome|].
    rewrite getSequence_of_getAccount, Hsome. reflexivity.
Qed.

Lemma getSequence_needs_account_witness :
  fst (getAccount example_lib (account_backend empty_account)
         "orai1unseen" new_client) = Ok None /\
  fst (getSequence example_lib (account_backend empty_account)
         "orai1unseen" new_client)
  = Throw (Error ("Account does not exist on chain. Send some tokens there "
                  +:+ "before trying to query sequence.")).
Proof.
  apply (getSequence_needs_account example_lib (account_backend empty_account)
           "orai1unseen" new_client empty_account); reflexivity.
Defined.

(** ** Raw contract queries *)

Lemma getContract_found lcdClient address st height info :
  be_get_contract lcdClient (requests st) ("/wasm/contract/" +:+ address)
  = Ok (WasmSuccess height (Some info)) ->
  getContract lcdClient address st
  = (Ok (to_Contract info), logged (Get ("/wasm/contract/" +:+ address)) st).
Proof.
  intros H. unfold getContract, WasmExtension.getContractInfo, bind, send.
  rewrite H. reflexivity.
Qed.

(** C10: for a contract that exists, [queryContractRaw] returns [null]
    when the answer is [null], the empty string, or the empty array: the
    0.11 shape does not tell an empty value from none.  In the 0.10 shape
    [null] is returned exactly when the array is empty, and in the 0.11
    shape exactly when the answer is [null] or the empty string. *)
Theorem queryContractRaw_absent
  (lib : Lib) (lcdClient : Backend) (address : string) (key : Bytes)
  (st : State) (height height' : string) (info : ContractInfo)
  (data : RawData) :
  be_get_contract lcdClient (requests st) ("/wasm/contract/" +:+ address)
  = Ok (WasmSuccess height (Some info)) ->
  be_get_raw lcdClient
    (requests st ++ [Get ("/wasm/contract/" +:+ address)])
    (raw_path lib address key)
  = Ok (WasmSuccess height' data) ->
  (data = RawNull \/ data = RawString EmptyString \/ data = RawArray [] ->
   fst (queryContractRaw lib lcdClient address key st) = Ok None) /\
  (fst (queryContractRaw lib lcdClient address key st) = Ok None <->
   reads_as_absent data = true) /\
  (forall items, data = RawArray items ->
     (fst (queryContractRaw lib lcdClient address key st) = Ok None <->
      items = [])).
Proof.
  intros Hcontract Hraw.
  assert (fst (queryContractRaw lib lcdClient address key st) =
          match data with
          | RawArray [] | RawNull | RawString EmptyString => Ok None
          | RawArray (data0 :: _) => result_map Some (fromBase64 lib (val data0))
          | RawString text => result_map Some (fromBase64 lib text)
          end) as Hrun.
  { unfold queryContractRaw, bind at 1.
    rewrite (getContract_found _ _ _ _ _ Hcontract).
    unfold WasmExtension.queryContractRaw, bind, send. simpl requests.
    fold (raw_path lib address key). rewrite Hraw. simpl.
    destruct data as [[|data0 items]| |[|c text]]; try reflexivity;
      unfold lift, ret; destruct (fromBase64 _ _); reflexivity. }
  rewrite Hrun. split; [|split].
  - intros [->|[->| ->]]; reflexivity.
  - destruct data as [[|data0 items]| |[|c text]]; simpl;
      try (split; [reflexivity|reflexivity]);
      destruct (fromBase64 _ _); simpl; split; discriminate.
  - intros items ->. destruct items as [|data0 items].
    + split; reflexivity.
    + destruct (fromBase64 _ _); simpl; split; discriminate.
Qed.

Lemma queryContractRaw_absent_witness :
  fst (queryContractRaw example_lib
         (raw_backend example_contract (RawString EmptyString))
         "orai1contract" [] new_client) = Ok None.
Proof.
  destruct (queryContractRaw_absent example_lib
              (raw_backend example_contract (RawString EmptyString))
              "orai1contract" [] new_client "12" "12" example_contract
              (RawString EmptyString) eq_refl eq_refl) as (Habsent & _).
  apply Habsent. right. left. reflexivity.
Defined.

(** In the 0.10 shape an empty value stored at the key is returned as
    such, not as [null]. *)
Example queryContractRaw_empty_value_v010 :
  fst (queryContractRaw example_lib
         (raw_backend example_contract
            (RawArray [{| key := "00"; val := EmptyString |}]))
         "orai1contract" [] new_client) = Ok (Some []).
Proof. vm_compute. reflexivity. Qed.


(** ** What every call preserves *)

Section Preserved.

Variable R : State -> State -> Prop.
Hypothesis R_refl : forall st, R st st.
Hypothesis R_trans : forall st1 st2 st3, R st1 st2 -> R st2 st3 -> R st1 st3.

(** Sending anything but a node info request. *)
Hypothesis R_send : forall r st, is_NodeInfo r = false -> R st (logged r st).
(** Noting a valid address. *)
Hypothesis R_address :
  forall a st, R st (written (set_anyValidAddress a) st).
(** Caching a code that is not cached yet. *)
Hypothesis R_cache :
  forall codeId d st,
    codesCache (fields st) !! codeId = None ->
    R st (written (codesCache_set codeId d) st).

Lemma every_run_ret {A} (a : A) : every_run R (ret a).
Proof. intros st. apply R_refl. Qed.

Lemma every_run_throw {A} e : every_run R (@throw A e).
Proof. intros st. apply R_refl. Qed.

Lemma every_run_lift {A} (r : Result A) : every_run R (lift r).
Proof. intros st. apply R_refl. Qed.

Lemma every_run_read {A} (f : Fields -> A) : every_run R (read f).
Proof. intros st. apply R_refl. Qed.

Lemma every_run_send {A} r (answer : list Request -> Result A) :
  is_NodeInfo r = false -> every_run R (send r answer).
Proof. intros Hr st. apply R_send, Hr. Qed.

Lemma every_run_address a : every_run R (write (set_anyValidAddress a)).
Proof. intros st. apply R_address. Qed.

Lemma every_run_bind {A B} (m : M A) (k : A -> M B) :
  every_run R m -> (forall a, every_run R (k a)) -> every_run R (bind m k).
Proof.
  intros Hm Hk st. unfold bind. specialize (Hm st).
  destruct (m st) as [[a|e] st']; simpl in *; [|exact Hm].
  eapply R_trans; [exact Hm|apply Hk].
Qed.

Lemma every_run_mapM {A B} (f : A -> M B) xs :
  (forall x, every_run R (f x)) -> every_run R (mapM f xs).
Proof.
  intros Hf. induction xs as [|x xs IH]; simpl.
  - apply every_run_ret.
  - apply every_run_bind; [apply Hf|]. intros y.
    apply every_run_bind; [exact IH|]. intros ys. apply every_run_ret.
Qed.

Lemma every_run_try_catch {A} (m : M A) handler :
  every_run R m -> (forall e, every_run R (handler e)) ->
  every_run R (try_catch m handler).
Proof.
  intros Hm Hh st. unfold try_catch. specialize (Hm st).
  destruct (m st) as [[a|e] st']; simpl in *; [exact Hm|].
  eapply R_trans; [exact Hm|apply Hh].
Qed.

Lemma every_run_promise_all2 {A B} (p : M A) (q : M B) :
  every_run R p -> every_run R q -> every_run R (promise_all2 p q).
Proof.
  intros Hp Hq st. unfold promise_all2. specialize (Hp st).
  destruct (p st) as [ra st1]. specialize (Hq st1).
  destruct (q st1) as [rb st2]. simpl in *.
  eapply R_trans; eassumption.
Qed.

Ltac every_run_step :=
  match goal with
  | |- every_run _ (ret _) => apply every_run_ret
  | |- every_run _ (throw _) => apply every_run_throw
  | |- every_run _ (lift _) => apply every_run_lift
  | |- every_run _ (read _) => apply every_run_read
  | |- every_run _ (write (set_anyValidAddress _)) => apply every_run_address
  | |- every_run _ (send _ _) => apply every_run_send; reflexivity
  | |- every_run _ (bind _ _) => apply every_run_bind; [|intros ?]
  | |- every_run _ (mapM _ _) => apply every_run_mapM; intros ?
  | |- every_run _ (try_catch _ _) => apply every_run_try_catch; [|intros ?]
  | |- every_run _ (promise_all2 _ _) => apply every_run_promise_all2
  | |- every_run _ (match ?x with _ => _ end) => destruct x
  | |- every_run _ (if ?b then _ else _) => destruct b
  end.

Variable lib : Lib.
Variable lcdClient : Backend.

Lemma every_run_txsQuery query : every_run R (txsQuery lib lcdClient query).
Proof. unfold txsQuery, to_IndexedTx. cbv zeta. repeat every_run_step. Qed.

Lemma every_run_getContract address :
  every_run R (getContract lcdClient address).
Proof.
  unfold getContract, WasmExtension.getContractInfo. cbv zeta.
  repeat every_run_step.
Qed.

Lemma every_run_getAccount address :
  every_run R (getAccount lib lcdClient address).
Proof. unfold getAccount. cbv zeta. repeat every_run_step. Qed.

Ltac every_run :=
  cbv zeta;
  repeat first
    [ apply every_run_txsQuery | apply every_run_getContract
    | apply every_run_getAccount | every_run_step ].

Lemma every_run_searchTx query filter :
  every_run R (searchTx lib lcdClient query filter).
Proof. unfold searchTx. every_run. Qed.

Lemma every_run_getCodeDetails codeId :
  every_run R (getCodeDetails lib lcdClient codeId).
Proof.
  intros st. unfold getCodeDetails, bind at 1, read.
  destruct (codesCache (fields st) !! codeId) as [cached|] eqn:Hmiss;
    [apply R_refl|].
  unfold WasmExtension.getCode, bind, send, lift, write, ret.
  assert (R st (logged (Get ("/wasm/code/" +:+ to_string codeId)) st))
    as Hsent by (apply R_send; reflexivity).
  destruct (be_get_code _ _ _) as [responseData|e]; [|exact Hsent].
  destruct (unwrapWasmResponse responseData) as [getCodeResult|e];
    [|exact Hsent].
  destruct (fromHex _ _) as [hashBytes|e]; [|exact Hsent].
  destruct (fromBase64 _ _) as [data|e]; [|exact Hsent].
  simpl. eapply R_trans; [exact Hsent|].
  apply (R_cache codeId _ (logged _ st)). exact Hmiss.
Qed.

(** Every call but [getChainId]. *)
Lemma after_other call st :
  is_GetChainId call = false -> R st (after lib lcdClient call st).
Proof.
  destruct call as [ | |tx|address|address|height|id|query filter|tx|
                    |codeId|codeId|address|address|address rawKey
                    |address queryMsg];
    simpl; try discriminate; intros _.
  - (* getHeight *)
    assert (every_run R (getHeight lcdClient)) as H
      by (unfold getHeight; every_run).
    apply H.
  - (* getIdentifier *)
    assert (every_run R (getIdentifier lib lcdClient tx)) as H
      by (unfold getIdentifier; every_run).
    apply H.
  - (* getSequence *)
    assert (every_run R (getSequence lib lcdClient address)) as H
      by (unfold getSequence; every_run).
    apply H.
  - apply every_run_getAccount.
  - (* getBlock *)
    assert (every_run R (getBlock lib lcdClient height)) as H
      by (unfold getBlock; every_run).
    apply H.
  - (* getTx *)
    assert (every_run R (getTx lib lcdClient id)) as H
      by (unfold getTx; every_run).
    apply H.
  - apply every_run_searchTx.
  - (* broadcastTx *)
    assert (every_run R (broadcastTx lib lcdClient tx)) as H
      by (unfold broadcastTx; every_run).
    apply H.
  - (* getCodes *)
    assert (every_run R (getCodes lib lcdClient)) as H
      by (unfold getCodes, WasmExtension.listCodeInfo; every_run).
    apply H.
  - apply every_run_getCodeDetails.
  - (* getContracts *)
    assert (every_run R (getContracts lcdClient codeId)) as H
      by (unfold getContracts, WasmExtension.listContractsByCodeId;
          every_run).
    apply H.
  - apply every_run_getContract.
  - (* getContractCodeHistory *)
    assert (every_run R (getContractCodeHistory lcdClient address)) as H
      by (unfold getContractCodeHistory,
            WasmExtension.getContractCodeHistory; every_run).
    apply H.
  - (* queryContractRaw *)
    assert (every_run R (queryContractRaw lib lcdClient address rawKey)) as H
      by (unfold queryContractRaw, WasmExtension.queryContractRaw;
          every_run).
    apply H.
  - (* queryContractSmart *)
    assert (every_run R (queryContractSmart lib lcdClient address queryMsg))
      as H
      by (unfold queryContractSmart, WasmExtension.queryContractSmart;
          every_run).
    apply H.
Qed.

End Preserved.


(** ** The chain id memo *)

Section ChainId.

Variable lib : Lib.
Variable lcdClient : Backend.

(** With a chain id resolved, [getChainId] returns it and does nothing. *)
Lemma getChainId_resolved st c :
  resolved_chainId st = Some c ->
  getChainId lcdClient st = (Ok c, st).
Proof.
  unfold resolved_chainId, getChainId, bind, read. intros ->. reflexivity.
Qed.

(** Without one, it asks for the node info. *)
Lemma getChainId_unresolved st :
  resolved_chainId st = None ->
  getChainId lcdClient st =
  match be_nodeInfo lcdClient (requests st) with
  | Throw e => (Throw e, logged NodeInfo st)
  | Ok response =>
      match str_or_undefined (node_info_network response) with
      | None => (Throw (Error "Chain ID must not be empty"),
                 logged NodeInfo st)
      | Some c => (Ok c, written (set_chainId (Some c)) (logged NodeInfo st))
      end
  end.
Proof.
  unfold resolved_chainId, getChainId, bind, read, send. intros ->.
  destruct (be_nodeInfo _ _) as [response|e]; [|reflexivity].
  destruct (str_or_undefined _); reflexivity.
Qed.

Lemma str_or_undefined_Some x c :
  str_or_undefined x = Some c -> x = Some c /\ c <> EmptyString.
Proof.
  destruct x as [[|a s]|]; simpl; try discriminate.
  intros H. injection H as <-. split; [reflexivity|discriminate].
Qed.

Lemma str_or_undefined_nonempty c :
  c <> EmptyString -> str_or_undefined (Some c) = Some c.
Proof. destruct c; [congruence|reflexivity]. Qed.

(** A successful call leaves the chain id resolved. *)
Lemma getChainId_ok st c st' :
  getChainId lcdClient st = (Ok c, st') -> resolved_chainId st' = Some c.
Proof.
  destruct (resolved_chainId st) as [c0|] eqn:E.
  - rewrite (getChainId_resolved _ _ E). intros H.
    injection H as <- <-. exact E.
  - rewrite (getChainId_unresolved _ E).
    destruct (be_nodeInfo _ _) as [response|e]; [|discriminate].
    destruct (str_or_undefined _) as [c1|] eqn:E1; [|discriminate].
    intros H. injection H as <- <-.
    apply str_or_undefined_Some in E1 as [_ Hc].
    unfold resolved_chainId. simpl. apply str_or_undefined_nonempty, Hc.
Qed.

Lemma count_nodeInfo_logged r st :
  count_nodeInfo (requests (logged r st)) =
  ((if is_NodeInfo r then 1 else 0) + count_nodeInfo (requests st))%nat.
Proof.
  unfold count_nodeInfo, logged. simpl.
  rewrite List.filter_app, length_app. simpl.
  destruct (is_NodeInfo r); simpl; lia.
Qed.

(** Calls other than [getChainId] neither touch the chain id nor ask for
    the node info. *)
Lemma after_other_chain_untouched call st :
  is_GetChainId call = false ->
  chain_untouched st (after lib lcdClient call st).
Proof.
  apply after_other; unfold chain_untouched.
  - auto.
  - intros st1 st2 st3 [H1 H2] [H3 H4]. split; congruence.
  - intros r st' Hr. split; [reflexivity|].
    rewrite count_nodeInfo_logged, Hr. reflexivity.
  - intros a st'. split; reflexivity.
  - intros codeId d st' _. split; reflexivity.
Qed.

Lemma after_all_chain_untouched calls st :
  forallb (fun call => negb (is_GetChainId call)) calls = true ->
  chain_untouched st (after_all lib lcdClient calls st).
Proof.
  revert st. induction calls as [|call calls IH]; intros st Hcalls.
  - split; reflexivity.
  - simpl in Hcalls. apply andb_prop in Hcalls as [Hcall Hcalls].
    apply negb_true_iff in Hcall.
    destruct (after_other_chain_untouched call st Hcall) as [H1 H2].
    destruct (IH (after lib lcdClient call st) Hcalls) as [H3 H4].
    unfold after_all in *. simpl. split; congruence.
Qed.

Lemma memo_kept_trans st1 st2 st3 :
  memo_kept st1 st2 -> memo_kept st2 st3 -> memo_kept st1 st3.
Proof.
  intros H12 H23 c Hc. destruct (H12 c Hc) as [H1 H2].
  assert (resolved_chainId st2 = Some c) as Hc2.
  { unfold resolved_chainId in *. rewrite H1. exact Hc. }
  destruct (H23 c Hc2) as [H3 H4]. split; congruence.
Qed.

(** With a chain id resolved, no call at all changes it or asks again. *)
Lemma after_memo_kept call st : memo_kept st (after lib lcdClient call st).
Proof.
  destruct (is_GetChainId call) eqn:E.
  - destruct call; try discriminate. simpl. intros c Hc.
    rewrite (getChainId_resolved _ _ Hc). split; reflexivity.
  - intros c _. apply after_other_chain_untouched, E.
Qed.

Lemma after_all_memo_kept calls st :
  memo_kept st (after_all lib lcdClient calls st).
Proof.
  revert st. induction calls as [|call calls IH]; intros st.
  - intros c _. split; reflexivity.
  - eapply memo_kept_trans; [apply (after_memo_kept call)|]. apply IH.
Qed.

End ChainId.

(** ** The chain id memo, with calls that overlap *)

(** The two stretches of [getChainId], the second with the answer of the
    endpoint, are the method. *)
Lemma getChainId_begin_resume lcdClient st :
  getChainId lcdClient st
  = match getChainId_begin st with
    | (Returned c, st') => (Ok c, st')
    | (Awaiting, st') =>
        getChainId_resume (be_nodeInfo lcdClient (requests st)) st'
    end.
Proof.
  unfold getChainId, getChainId_begin, getChainId_resume, bind, read, send,
    lift.
  destruct (str_or_undefined (chainId (fields st))); [reflexivity|].
  destruct (be_nodeInfo lcdClient (requests st)) as [response|e];
    reflexivity.
Qed.

Lemma run_app events1 events2 i :
  run (events1 ++ events2) i = run events2 (run events1 i).
Proof. apply fold_left_app. Qed.

Lemma run_cons e events i :
  run (e :: events) i = run events (snd (on_event e i)).
Proof. reflexivity. Qed.

(** What the second stretch leaves: the client as it was when the call
    throws, and the network of the answer as the chain id when it
    returns. *)
Lemma getChainId_resume_cases answer st :
  (exists e, getChainId_resume answer st = (Throw e, st)) \/
  (exists response c,
     answer = Ok response /\
     str_or_undefined (node_info_network response) = Some c /\
     getChainId_resume answer st
     = (Ok c, written (set_chainId (Some c)) st)).
Proof.
  unfold getChainId_resume, bind, lift, write, ret, throw.
  destruct answer as [response|e]; [|left; eauto].
  destruct (str_or_undefined (node_info_network response)) as [c|] eqn:E;
    [|left; eauto].
  right. exists response, c. auto.
Qed.

Lemma resolved_written_chainId c st :
  c <> EmptyString ->
  resolved_chainId (written (set_chainId (Some c)) st) = Some c.
Proof. intros Hc. apply str_or_undefined_nonempty, Hc. Qed.

(** A call that ends with a chain id leaves that chain id cached. *)
Lemma on_event_returns e i0 c i :
  on_event e i0 = (Ends (Ok c), i) -> resolved_chainId (client i) = Some c.
Proof.
  destruct e as [|answer|r|a|codeId d]; simpl; try discriminate.
  - unfold getChainId_begin.
    destruct (str_or_undefined (chainId (fields (client i0)))) as [c0|] eqn:E;
      [|discriminate].
    intros H. injection H as <- <-. exact E.
  - destruct (awaiting i0) as [|n]; [discriminate|].
    destruct (getChainId_resume_cases answer (client i0))
      as [(e & ->)|(response & c1 & _ & Hc1 & ->)]; [discriminate|].
    intros H. injection H as <- <-. simpl.
    apply resolved_written_chainId.
    apply str_or_undefined_Some in Hc1. apply Hc1.
Qed.

(** With a chain id cached, a stretch of any method leaves a chain id
    cached and asks for no node info; with no call waiting, the chain id is
    the same and no call waits. *)
Lemma on_event_settled e i c :
  resolved_chainId (client i) = Some c -> of_a_method e = true ->
  count_nodeInfo (requests (client (snd (on_event e i))))
  = count_nodeInfo (requests (client i)) /\
  exists c',
    resolved_chainId (client (snd (on_event e i))) = Some c' /\
    (awaiting i = 0%nat ->
     c' = c /\ awaiting (snd (on_event e i)) = 0%nat).
Proof.
  intros Hc He. destruct e as [|answer|r|a|codeId d]; simpl in *.
  - unfold getChainId_begin. unfold resolved_chainId in Hc. rewrite Hc.
    simpl. split; [reflexivity|]. exists c. auto.
  - destruct (awaiting i) as [|n] eqn:Hn.
    + simpl. split; [reflexivity|]. exists c. auto.
    + destruct (getChainId_resume_cases answer (client i))
        as [(e & ->)|(response & c1 & _ & Hc1 & ->)]; simpl.
      * split; [reflexivity|]. exists c. split; [exact Hc|discriminate].
      * split; [reflexivity|]. exists c1. split; [|discriminate].
        apply resolved_written_chainId.
        apply str_or_undefined_Some in Hc1. apply Hc1.
  - apply negb_true_iff in He. split.
    + change (count_nodeInfo (requests (logged r (client i)))
              = count_nodeInfo (requests (client i))).
      rewrite count_nodeInfo_logged, He. reflexivity.
    + exists c. auto.
  - split; [reflexivity|]. exists c. auto.
  - split; [reflexivity|]. exists c. auto.
Qed.

Lemma run_settled events i c :
  resolved_chainId (client i) = Some c ->
  forallb of_a_method events = true ->
  count_nodeInfo (requests (client (run events i)))
  = count_nodeInfo (requests (client i)) /\
  exists c',
    resolved_chainId (client (run events i)) = Some c' /\
    (awaiting i = 0%nat -> c' = c /\ awaiting (run events i) = 0%nat).
Proof.
  revert i c. induction events as [|e events IH]; intros i c Hc Hevents.
  - split; [reflexivity|]. exists c. auto.
  - simpl in Hevents. apply andb_prop in Hevents as [He Hevents].
    rewrite run_cons.
    destruct (on_event_settled e i c Hc He) as (Hcount & c1 & Hc1 & Hidle).
    destruct (IH _ c1 Hc1 Hevents) as (Hcount' & c2 & Hc2 & Hidle').
    split; [congruence|]. exists c2. split; [exact Hc2|].
    intros Hi. destruct (Hidle Hi) as [-> Hi1].
    destruct (Hidle' Hi1) as [-> Hi2]. auto.
Qed.

(** The stretches of the other methods neither touch the chain id nor ask
    for the node info, and no call of [getChainId] starts or ends in them. *)
Lemma run_other_methods events i :
  forallb of_other_method events = true ->
  chain_untouched (client i) (client (run events i)) /\
  awaiting (run events i) = awaiting i.
Proof.
  revert i. induction events as [|e events IH]; intros i Hevents.
  - repeat split.
  - simpl in Hevents. apply andb_prop in Hevents as [He Hevents].
    rewrite run_cons. destruct (IH (snd (on_event e i)) Hevents)
      as [[Hchain Hcount] Hwait].
    rewrite Hwait. unfold chain_untouched. rewrite Hchain, Hcount.
    destruct e as [|answer|r|a|codeId d]; try discriminate;
      cbn [on_event snd client awaiting].
    + apply negb_true_iff in He.
      rewrite count_nodeInfo_logged, He. repeat split.
    + repeat split.
    + repeat split.
Qed.

(** C8, amended: [getChainId] memoizes, with calls that may overlap.
    Once a call has returned a chain id, whatever the methods do from then
    on, every later call returns a cached chain id at once and no node info
    is asked for again; the chain id is the one first returned when no other
    call of [getChainId] was waiting for its answer at that moment.  An
    instance on which the first call of [getChainId] gets an answer with a
    network before a second call starts has sent exactly one request for the
    node info, then and ever after.  A call made with no chain id cached
    sends its own request, and throws when the network of the answer is
    empty or missing. *)
Theorem getChainId_memoized (lcdClient : Backend) :
  (forall e i0 c i events,
     on_event e i0 = (Ends (Ok c), i) ->
     forallb of_a_method events = true ->
     count_nodeInfo (requests (client (run events i)))
     = count_nodeInfo (requests (client i)) /\
     exists c',
       getChainId lcdClient (client (run events i))
       = (Ok c', client (run events i)) /\
       (awaiting i = 0%nat -> c' = c)) /\
  (forall before meanwhile response c later,
     forallb of_other_method before = true ->
     forallb of_other_method meanwhile = true ->
     forallb of_a_method later = true ->
     str_or_undefined (node_info_network response) = Some c ->
     count_nodeInfo
       (requests
          (client
             (run (before ++ CallGetChainId :: meanwhile
                   ++ NodeInfoAnswer (Ok response) :: later)
                new_instance)))
     = 1%nat /\
     getChainId lcdClient
       (client
          (run (before ++ CallGetChainId :: meanwhile
                ++ NodeInfoAnswer (Ok response) :: later)
             new_instance))
     = (Ok c,
        client
          (run (before ++ CallGetChainId :: meanwhile
                ++ NodeInfoAnswer (Ok response) :: later)
             new_instance))) /\
  (forall i,
     resolved_chainId (client i) = None ->
     on_event CallGetChainId i
     = (Waits, {| client := logged NodeInfo (client i);
                  awaiting := S (awaiting i) |})) /\
  (forall st0 response,
     resolved_chainId st0 = None ->
     be_nodeInfo lcdClient (requests st0) = Ok response ->
     str_or_undefined (node_info_network response) = None ->
     getChainId lcdClient st0
     = (Throw (Error "Chain ID must not be empty"), logged NodeInfo st0)).
Proof.
  split; [|split; [|split]].
  - intros e i0 c i events Hreturned Hevents.
    apply on_event_returns in Hreturned.
    destruct (run_settled events i c Hreturned Hevents)
      as (Hcount & c' & Hc' & Hidle).
    split; [exact Hcount|]. exists c'. split.
    + apply getChainId_resolved, Hc'.
    + intros Hi. apply Hidle, Hi.
  - intros before meanwhile response c later Hbefore Hmeanwhile Hlater Hc.
    rewrite run_app, run_cons.
    destruct (run_other_methods before new_instance Hbefore)
      as [[Hchain0 Hcount0] Hwait0].
    set (i0 := run before new_instance) in *.
    assert (on_event CallGetChainId i0
            = (Waits, {| client := logged NodeInfo (client i0);
                         awaiting := 1 |})) as Hcall.
    { simpl. unfold getChainId_begin. rewrite Hchain0, Hwait0. reflexivity. }
    rewrite Hcall. cbn [snd]. rewrite run_app, run_cons.
    destruct (run_other_methods meanwhile
                {| client := logged NodeInfo (client i0); awaiting := 1 |}
                Hmeanwhile) as [[Hchain1 Hcount1] Hwait1].
    set (i1 := run meanwhile _) in *. cbn [client awaiting] in *.
    assert (snd (on_event (NodeInfoAnswer (Ok response)) i1)
            = {| client := written (set_chainId (Some c)) (client i1);
                 awaiting := 0 |}) as Hanswer.
    { simpl. rewrite Hwait1.
      unfold getChainId_resume, bind, lift, write, ret. rewrite Hc.
      reflexivity. }
    rewrite Hanswer.
    assert (resolved_chainId (written (set_chainId (Some c)) (client i1))
            = Some c) as Hresolved.
    { apply resolved_written_chainId.
      apply str_or_undefined_Some in Hc. apply Hc. }
    destruct (run_settled later
                {| client := written (set_chainId (Some c)) (client i1);
                   awaiting := 0 |} c Hresolved Hlater)
      as (Hcount & c' & Hc' & Hidle).
    destruct (Hidle eq_refl) as [-> _]. split.
    + rewrite Hcount. cbn [client]. unfold written. cbn [requests].
      rewrite Hcount1, count_nodeInfo_logged, Hcount0. reflexivity.
    + apply getChainId_resolved, Hc'.
  - intros i Hnone. simpl. unfold getChainId_begin.
    unfold resolved_chainId in Hnone. rewrite Hnone. reflexivity.
  - intros st0 answer Hnone Hanswer Hnetwork.
    rewrite (getChainId_unresolved _ _ Hnone), Hanswer, Hnetwork.
    reflexivity.
Qed.

Lemma getChainId_memoized_witness :
  (count_nodeInfo
     (requests
        (client
           (run [CallGetChainId; OtherSends BlocksLatest; CallGetChainId]
              {| client := written (set_chainId (Some "Oraichain"))
                             (logged NodeInfo new_client);
                 awaiting := 0 |})))
   = count_nodeInfo
       (requests (written (set_chainId (Some "Oraichain"))
                    (logged NodeInfo new_client))) /\
   exists c',
     getChainId (node_backend (Some "Oraichain"))
       (client
          (run [CallGetChainId; OtherSends BlocksLatest; CallGetChainId]
             {| client := written (set_chainId (Some "Oraichain"))
                            (logged NodeInfo new_client);
                awaiting := 0 |}))
     = (Ok c',
        client
          (run [CallGetChainId; OtherSends BlocksLatest; CallGetChainId]
             {| client := written (set_chainId (Some "Oraichain"))
                            (logged NodeInfo new_client);
                awaiting := 0 |})) /\
     (0%nat = 0%nat -> c' = "Oraichain")) /\
  count_nodeInfo
    (requests
       (client
          (run ([OtherSends (Get "/wasm/code")] ++ CallGetChainId
                :: [OtherNotesAddress (Some "orai1creator")]
                ++ NodeInfoAnswer
                     (Ok {| node_info_network := Some "Oraichain" |})
                :: [CallGetChainId; OtherSends BlocksLatest; CallGetChainId])
             new_instance)))
  = 1%nat.
Proof.
  pose proof (getChainId_memoized (node_backend (Some "Oraichain")))
    as (Hsame & Hone & _ & _).
  split.
  - apply (Hsame (NodeInfoAnswer
                    (Ok {| node_info_network := Some "Oraichain" |}))
             {| client := logged NodeInfo new_client; awaiting := 1 |}
             "Oraichain"
             {| client := written (set_chainId (Some "Oraichain"))
                            (logged NodeInfo new_client);
                awaiting := 0 |}
             [CallGetChainId; OtherSends BlocksLatest; CallGetChainId]);
      reflexivity.
  - apply (Hone [OtherSends (Get "/wasm/code")]
             [OtherNotesAddress (Some "orai1creator")]
             {| node_info_network := Some "Oraichain" |} "Oraichain"
             [CallGetChainId; OtherSends BlocksLatest; CallGetChainId]);
      reflexivity.
Defined.

(** C8 fails as it is stated: an instance asks for the node info more than
    once.  A first call that fails on the network and a second that returns
    make two requests, and every later call returns the cached chain id; so
    do two calls that overlap, each of them returning the chain id. *)
Lemma getChainId_asks_more_than_once :
  let st1 := snd (getChainId recovering_node_backend new_client) in
  let st2 := snd (getChainId recovering_node_backend st1) in
  let overlapping :=
    [CallGetChainId; CallGetChainId;
     NodeInfoAnswer (Ok {| node_info_network := Some "Oraichain" |});
     NodeInfoAnswer (Ok {| node_info_network := Some "Oraichain" |})] in
  (getChainId recovering_node_backend new_client
   = (Throw (Error "Network Error"), st1) /\
   getChainId recovering_node_backend st1 = (Ok "Oraichain", st2) /\
   getChainId recovering_node_backend st2 = (Ok "Oraichain", st2) /\
   requests st2 = [NodeInfo; NodeInfo]) /\
  (outcomes overlapping new_instance
   = [Waits; Waits; Ends (Ok "Oraichain"); Ends (Ok "Oraichain")] /\
   requests (client (run overlapping new_instance)) = [NodeInfo; NodeInfo] /\
   count_nodeInfo (requests (client (run overlapping new_instance)))
   = 2%nat).
Proof. cbv zeta. repeat split. Qed.

(** Without a first success every call asks again: a network that is
    empty makes each of two calls send a request. *)
Example getChainId_retries_after_failure :
  requests
    (after_all example_lib (node_backend None) [GetChainId; GetChainId]
       new_client)
  = [NodeInfo; NodeInfo].
Proof. reflexivity. Qed.


(** ** The code cache *)

Section CodeCache.

Variable lib : Lib.
Variable lcdClient : Backend.

(** A cached code is returned without a request. *)
Lemma getCodeDetails_hit codeId d st :
  codesCache (fields st) !! codeId = Some d ->
  getCodeDetails lib lcdClient codeId st = (Ok d, st).
Proof.
  intros Hhit. unfold getCodeDetails, bind at 1, read. rewrite Hhit.
  reflexivity.
Qed.




End CodeCache.




(** * Further properties *)

(** ** The merge *)

(** X1: when no two entries of a list are at the same height and a shared
    hash has one height, the merge of two duplicate-free lists is
    duplicate-free and as long as the two lists together less the hashes
    they share. *)
Theorem mergeTxs_counts_once_when_one_per_height
  (sent received : list IndexedTx) :
  strictly_ascending sent = true -> strictly_ascending received = true ->
  same_hash_same_height sent received = true ->
  duplicate_free sent = true -> duplicate_free received = true ->
  duplicate_free (mergeTxs sent received) = true /\
  length (mergeTxs sent received)
  = (length sent + length received
     - length (shared_hashes sent received))%nat.
Proof. apply mergeTxs_exact_when_heights_strict. Qed.

Lemma mergeTxs_counts_once_when_one_per_height_witness :
  duplicate_free
    (mergeTxs [indexed_tx 10 "A"; indexed_tx 20 "B"]
              [indexed_tx 15 "C"; indexed_tx 20 "B"]) = true /\
  length (mergeTxs [indexed_tx 10 "A"; indexed_tx 20 "B"]
                   [indexed_tx 15 "C"; indexed_tx 20 "B"])
  = (length [indexed_tx 10 "A"; indexed_tx 20 "B"]
     + length [indexed_tx 15 "C"; indexed_tx 20 "B"]
     - length (shared_hashes [indexed_tx 10 "A"; indexed_tx 20 "B"]
                             [indexed_tx 15 "C"; indexed_tx 20 "B"]))%nat.
Proof.
  apply (mergeTxs_counts_once_when_one_per_height
           [indexed_tx 10 "A"; indexed_tx 20 "B"]
           [indexed_tx 15 "C"; indexed_tx 20 "B"]);
    vm_compute; reflexivity.
Defined.

Lemma shared_hashes_nil sent received :
  shared_hashes sent received = [] ->
  forall a b, In a sent -> In b received -> tx_hash a <> tx_hash b.
Proof.
  unfold shared_hashes. intros Hnil a b Ha Hb Heq.
  apply map_eq_nil in Hnil.
  assert (In a (List.filter
                  (fun a => existsb
                     (fun b => String.eqb (tx_hash a) (tx_hash b)) received)
                  sent)) as Hin.
  { apply filter_In. split; [exact Ha|].
    apply existsb_exists. exists b. split; [exact Hb|].
    apply String.eqb_eq, Heq. }
  rewrite Hnil in Hin. destruct Hin.
Qed.

(** X2: when the two lists share no hash, the merged list is a
    rearrangement of the two lists together: every entry once, none
    added. *)
Theorem mergeTxs_permutation_when_nothing_shared
  (sent received : list IndexedTx) :
  shared_hashes sent received = [] ->
  Permutation (mergeTxs sent received) (sent ++ received).
Proof.
  intros Hnil. pose proof (shared_hashes_nil _ _ Hnil) as Hne. clear Hnil.
  revert Hne. pattern sent, received. apply merge_ind; clear sent received.
  - intros received _. rewrite mergeTxs_nil_l. reflexivity.
  - intros sent _. rewrite mergeTxs_nil_r, app_nil_r. reflexivity.
  - intros a sent b received _ IH2 IH3 Hne. rewrite mergeTxs_cons.
    assert (tx_hash a <> tx_hash b) as Hab by (apply Hne; left; reflexivity).
    apply String.eqb_neq in Hab. rewrite Hab.
    destruct (le _ _).
    + simpl. apply perm_skip. apply IH2.
      intros x y Hx Hy. apply Hne; [right; exact Hx|exact Hy].
    + rewrite IH3 by (intros x y Hx Hy; apply Hne; [exact Hx|right; exact Hy]).
      apply Permutation_middle.
Qed.

Lemma mergeTxs_permutation_when_nothing_shared_witness :
  Permutation
    (mergeTxs [indexed_tx 10 "A"; indexed_tx 10 "B"]
              [indexed_tx 10 "C"; indexed_tx 15 "D"])
    ([indexed_tx 10 "A"; indexed_tx 10 "B"]
     ++ [indexed_tx 10 "C"; indexed_tx 15 "D"]).
Proof.
  apply (mergeTxs_permutation_when_nothing_shared
           [indexed_tx 10 "A"; indexed_tx 10 "B"]
           [indexed_tx 10 "C"; indexed_tx 15 "D"]).
  reflexivity.
Defined.

(** X3: the merge drops no transaction, adds none and keeps the order of
    each list: the received entries are a subsequence of the merged list,
    the hashes of the sent entries are a subsequence of its hashes, every
    merged entry is an entry of one of the two lists, and the merged list
    is no longer than the two together. *)
Theorem mergeTxs_keeps_both_lists (sent received : list IndexedTx) :
  sublist received (mergeTxs sent received) /\
  sublist (map tx_hash sent) (map tx_hash (mergeTxs sent received)) /\
  (forall x, In x (mergeTxs sent received) -> In x sent \/ In x received) /\
  (length (mergeTxs sent received) <= length sent + length received)%nat.
Proof.
  split; [|split; [|split]].
  - pattern sent, received. apply merge_ind; clear sent received.
    + intros received. rewrite mergeTxs_nil_l. reflexivity.
    + intros sent. apply sublist_nil_l.
    + intros a sent b received IH1 IH2 IH3. rewrite mergeTxs_cons.
      destruct (String.eqb _ _); [|destruct (le _ _)].
      * apply sublist_skip, IH1.
      * apply sublist_cons, IH2.
      * apply sublist_skip, IH3.
  - pattern sent, received. apply merge_ind; clear sent received.
    + intros received. apply sublist_nil_l.
    + intros sent. rewrite mergeTxs_nil_r. reflexivity.
    + intros a sent b received IH1 IH2 IH3. rewrite mergeTxs_cons.
      destruct (String.eqb (tx_hash a) (tx_hash b)) eqn:E;
        [|destruct (le _ _)]; simpl.
      * apply String.eqb_eq in E. rewrite E. apply sublist_skip, IH1.
      * apply sublist_skip, IH2.
      * apply sublist_cons, IH3.
  - intros x. apply mergeTxs_In.
  - pattern sent, received. apply merge_ind; clear sent received.
    + intros received. rewrite mergeTxs_nil_l. simpl. lia.
    + intros sent. rewrite mergeTxs_nil_r. simpl. lia.
    + intros a sent b received IH1 IH2 IH3. rewrite mergeTxs_cons.
      destruct (String.eqb _ _); [|destruct (le _ _)]; simpl in *; lia.
Qed.


(** ** Transaction searches *)

Lemma mapM_to_IndexedTx_ok lib xs st l st' :
  mapM (to_IndexedTx lib) xs st = (Ok l, st') ->
  Forall2 (indexed_from lib) xs l /\ st' = st.
Proof.
  revert l st'. induction xs as [|x xs IH]; intros l st' Hrun.
  - injection Hrun as <- <-. split; [constructor|reflexivity].
  - simpl in Hrun. unfold bind at 1 in Hrun.
    unfold to_IndexedTx at 1 in Hrun. unfold bind at 1, lift in Hrun.
    destruct (parseLogs lib _) as [logs|e] eqn:Hlogs; [|discriminate].
    unfold ret at 1 in Hrun. unfold bind at 1 in Hrun.
    destruct (mapM (to_IndexedTx lib) xs st) as [[ys|e] st1] eqn:Hrest;
      [|discriminate].
    unfold ret in Hrun. injection Hrun as <- <-.
    destruct (IH ys st1 eq_refl) as [Hall ->].
    split; [|reflexivity]. constructor; [|exact Hall].
    unfold indexed_from. simpl. repeat split. exact Hlogs.
Qed.

(** What a successful [txsQuery] saw and made of it. *)
Lemma txsQuery_ok_inv lib lcdClient query st l st' :
  txsQuery lib lcdClient query st = (Ok l, st') ->
  exists resp,
    be_txsQuery lcdClient (requests st) (txs_request query) = Ok resp /\
    gt (parseInt (page_total resp)) (Num 1) = false /\
    Forall2 (indexed_from lib) (txs resp) l /\
    st' = logged (TxsQuery (txs_request query)) st.
Proof.
  rewrite txsQuery_unfold.
  destruct (be_txsQuery _ _ _) as [resp|e]; [|discriminate].
  destruct (gt _ _) eqn:Hpages; [discriminate|].
  intros Hmap. apply mapM_to_IndexedTx_ok in Hmap as [Hall ->].
  exists resp. auto.
Qed.

(** X4: a [txsQuery] that returns has sent one search, with [&limit=100]
    added, and got a single page; it returns the transactions of that page,
    as many and in the same order, each with its hash, its height read by
    [parseInt], its code or 0, and its logs parsed. *)
Theorem txsQuery_returns_the_page
  (lib : Lib) (lcdClient : Backend) (query : string) (st st' : State)
  (l : list IndexedTx) :
  txsQuery lib lcdClient query st = (Ok l, st') ->
  exists resp,
    be_txsQuery lcdClient (requests st) (query +:+ "&limit=100") = Ok resp /\
    gt (parseInt (page_total resp)) (Num 1) = false /\
    Forall2 (indexed_from lib) (txs resp) l /\
    map tx_hash l = map r_txhash (txs resp) /\
    length l = length (txs resp) /\
    st' = logged (TxsQuery (query +:+ "&limit=100")) st.
Proof.
  intros Hrun. apply txsQuery_ok_inv in Hrun as (resp & H1 & H2 & H3 & H4).
  exists resp. repeat split; auto.
  - clear -H3. induction H3 as [|x y xs ys Hxy _ IH]; [reflexivity|].
    simpl. rewrite IH. destruct Hxy as (_ & -> & _). reflexivity.
  - symmetry. eapply Forall2_length. exact H3.
Qed.

Lemma txsQuery_returns_the_page_witness :
  exists resp,
    be_txsQuery
      (txs_backend (fun _ _ => Ok (one_page [rest_tx "7" "AB"])))
      (requests new_client) ("tx.height=7" +:+ "&limit=100") = Ok resp /\
    gt (parseInt (page_total resp)) (Num 1) = false /\
    Forall2 (indexed_from example_lib) (txs resp) [indexed_tx 7 "AB"] /\
    map tx_hash [indexed_tx 7 "AB"] = map r_txhash (txs resp) /\
    length [indexed_tx 7 "AB"] = length (txs resp) /\
    logged (TxsQuery "tx.height=7&limit=100") new_client
    = logged (TxsQuery ("tx.height=7" +:+ "&limit=100")) new_client.
Proof.
  apply (txsQuery_returns_the_page example_lib
           (txs_backend (fun _ _ => Ok (one_page [rest_tx "7" "AB"])))
           "tx.height=7" new_client
           (logged (TxsQuery "tx.height=7&limit=100") new_client)
           [indexed_tx 7 "AB"]).
  reflexivity.
Defined.

(** X5: a [getTx] that returns has sent the one search [tx.hash=<id>]; it
    returns [null] exactly when the page lists nothing, and otherwise the
    first transaction of the page. *)
Theorem getTx_returns_first_or_null
  (lib : Lib) (lcdClient : Backend) (id : string) (st st' : State)
  (found : option IndexedTx) :
  getTx lib lcdClient id st = (Ok found, st') ->
  exists resp,
    be_txsQuery lcdClient (requests st) ("tx.hash=" +:+ id +:+ "&limit=100")
    = Ok resp /\
    match found with
    | None => txs resp = []
    | Some tx =>
        exists first others,
          txs resp = first :: others /\ indexed_from lib first tx
    end /\
    st' = logged (TxsQuery ("tx.hash=" +:+ id +:+ "&limit=100")) st.
Proof.
  unfold getTx, bind.
  destruct (txsQuery lib lcdClient ("tx.hash=" +:+ id) st)
    as [[l|e] st1] eqn:Hrun; [|discriminate].
  unfold ret. intros H. injection H as <- <-.
  apply txsQuery_ok_inv in Hrun as (resp & H1 & _ & H3 & H4).
  exists resp.
  change (txs_request ("tx.hash=" +:+ id))
    with ("tx.hash=" +:+ id +:+ "&limit=100") in *.
  split; [exact H1|]. split; [|exact H4].
  destruct H3 as [|first tx others l' Hfirst _]; simpl; [reflexivity|].
  exists first, others. auto.
Qed.

Lemma getTx_returns_first_or_null_witness :
  exists resp,
    be_txsQuery (txs_backend (fun _ _ => Ok (one_page [])))
      (requests new_client) ("tx.hash=" +:+ "AB" +:+ "&limit=100")
    = Ok resp /\
    txs resp = [] /\
    logged (TxsQuery "tx.hash=AB&limit=100") new_client
    = logged (TxsQuery ("tx.hash=" +:+ "AB" +:+ "&limit=100")) new_client.
Proof.
  apply (getTx_returns_first_or_null example_lib
           (txs_backend (fun _ _ => Ok (one_page []))) "AB" new_client
           (logged (TxsQuery "tx.hash=AB&limit=100") new_client) None).
  reflexivity.
Defined.

Lemma sent_more_nil st : sent_more [] st = st.
Proof. destruct st. unfold sent_more. simpl. rewrite app_nil_r. reflexivity. Qed.

Lemma logged_twice a b st : logged b (logged a st) = sent_more [a; b] st.
Proof.
  unfold logged, sent_more. simpl. rewrite <- app_assoc. reflexivity.
Qed.

(** X6: the searches [searchTx] sends are fixed by the query and the
    filter, whatever the endpoint answers: none for an empty range, for a
    height outside the range and for an unknown query, one for a height or
    for tags, and for a sender or recipient always two, the second also when
    the first fails.  [searchTx] assigns to no field of the client. *)
Theorem searchTx_sends_what_the_query_fixes
  (lib : Lib) (lcdClient : Backend) (query : SearchTxQuery)
  (filter : SearchTxFilter) (st : State) :
  snd (searchTx lib lcdClient query filter st)
  = sent_more (searchTx_requests query filter) st.
Proof.
  unfold searchTx, searchTx_requests. cbv zeta.
  destruct (lt _ _); [symmetry; apply sent_more_nil|].
  unfold bind at 1.
  destruct (q_height query) as [height|].
  { destruct (lt height _ || gt height _)%bool.
    - simpl. symmetry. apply sent_more_nil.
    - pose proof (txsQuery_state lib lcdClient
                    ("tx.height=" +:+ to_string height) st) as Hst.
      destruct (txsQuery _ _ _ _) as [[txs|e] st1]; simpl in *; subst;
        reflexivity. }
  destruct (q_sentFromOrTo query) as [address|].
  { unfold bind at 1, promise_all2.
    match goal with |- context [txsQuery lib lcdClient ?x st] =>
      pose proof (txsQuery_state lib lcdClient x st) as Hst1;
      destruct (txsQuery lib lcdClient x st) as [r1 st1]
    end.
    simpl in Hst1. subst st1.
    match goal with |- context [txsQuery lib lcdClient ?x ?s] =>
      pose proof (txsQuery_state lib lcdClient x s) as Hst2;
      destruct (txsQuery lib lcdClient x s) as [r2 st2]
    end.
    simpl in Hst2. subst st2.
    destruct r1 as [a|e1], r2 as [b|e2]; simpl; apply logged_twice. }
  destruct (q_tags query) as [tags|].
  - match goal with |- context [txsQuery lib lcdClient ?x st] =>
      pose proof (txsQuery_state lib lcdClient x st) as Hst;
      destruct (txsQuery lib lcdClient x st) as [[txs|e] st1]
    end; simpl in *; subst; reflexivity.
  - simpl. symmetry. apply sent_more_nil.
Qed.


(** ** The height filter, for bounds other than 0 *)

(** X7: for a filter whose [maxHeight] is not 0 and lies below its
    [minHeight] (an absent bound being 0 or [MAX_SAFE_INTEGER]), [searchTx]
    returns the empty list at once: nothing is sent and the client is left
    as it was, whatever the query. *)
Theorem searchTx_answers_empty_range_at_once
  (lib : Lib) (lcdClient : Backend) (query : SearchTxQuery)
  (filter : SearchTxFilter) (st : State) :
  maxHeight filter <> Some (Num 0) ->
  lt (filter_max filter) (filter_min filter) = true ->
  searchTx lib lcdClient query filter st = (Ok [], st).
Proof. apply searchTx_empty_range. Qed.

Lemma searchTx_answers_empty_range_at_once_witness :
  searchTx example_lib
    (txs_backend (fun _ _ => Ok (one_page [rest_tx "7" "AB"])))
    (SearchByTagsQuery [("message.module", "bank")])
    {| minHeight := Some (Num 20); maxHeight := Some (Num 10) |} new_client
  = (Ok [], new_client).
Proof.
  apply (searchTx_answers_empty_range_at_once example_lib
           (txs_backend (fun _ _ => Ok (one_page [rest_tx "7" "AB"])))
           (SearchByTagsQuery [("message.module", "bank")])
           {| minHeight := Some (Num 20); maxHeight := Some (Num 10) |}
           new_client);
    [discriminate|reflexivity].
Defined.

(** X8: for a filter whose bounds are numbers and whose [maxHeight] is not
    0, every transaction [searchTx] returns has its height within the
    bounds, both included (an absent bound being 0 or [MAX_SAFE_INTEGER]),
    also when the endpoint lists transactions outside them. *)
Theorem searchTx_returns_within_filter
  (lib : Lib) (lcdClient : Backend) (query : SearchTxQuery)
  (filter : SearchTxFilter) (st : State) (l : list IndexedTx) :
  minHeight filter <> Some NaN -> maxHeight filter <> Some NaN ->
  maxHeight filter <> Some (Num 0) ->
  fst (searchTx lib lcdClient query filter st) = Ok l ->
  Forall (fun tx => in_range (filter_min filter) (filter_max filter) tx = true) l.
Proof. apply searchTx_within_filter. Qed.

Lemma searchTx_returns_within_filter_witness :
  Forall (fun tx =>
            in_range
              (filter_min {| minHeight := Some (Num 5);
                             maxHeight := Some (Num 10) |})
              (filter_max {| minHeight := Some (Num 5);
                             maxHeight := Some (Num 10) |}) tx = true)
    [indexed_tx 7 "AB"].
Proof.
  apply (searchTx_returns_within_filter example_lib
           (txs_backend (fun _ _ =>
              Ok (one_page [rest_tx "3" "AA"; rest_tx "7" "AB";
                            rest_tx "12" "AC"])))
           (SearchByTagsQuery [("message.module", "bank")])
           {| minHeight := Some (Num 5); maxHeight := Some (Num 10) |}
           new_client [indexed_tx 7 "AB"]);
    [discriminate|discriminate|discriminate|reflexivity].
Defined.

(** X9: a search by height that returns.  When the range is empty or
    the height is outside the bounds [searchTx] works with, it has sent
    nothing and returns the empty list.  Otherwise it has sent the one search
    [tx.height=<height>], without the bounds, and returns the transactions
    of the page whose height is within the bounds. *)
Theorem searchTx_by_height
  (lib : Lib) (lcdClient : Backend) (query : SearchTxQuery)
  (filter : SearchTxFilter) (st st' : State) (height : number)
  (l : list IndexedTx) :
  q_height query = Some height ->
  searchTx lib lcdClient query filter st = (Ok l, st') ->
  if (lt (effective_max filter) (effective_min filter)
      || lt height (effective_min filter)
      || gt height (effective_max filter))%bool
  then l = [] /\ st' = st
  else
    exists resp page,
      be_txsQuery lcdClient (requests st)
        ("tx.height=" +:+ to_string height +:+ "&limit=100") = Ok resp /\
      Forall2 (indexed_from lib) (txs resp) page /\
      l = List.filter
            (in_range (effective_min filter) (effective_max filter)) page /\
      st' = logged (TxsQuery
                      ("tx.height=" +:+ to_string height +:+ "&limit=100")) st.
Proof.
  intros Hheight. unfold searchTx. rewrite Hheight.
  destruct (lt (effective_max filter) (effective_min filter)).
  { simpl. intros H. injection H as <- <-. auto. }
  simpl orb. unfold bind at 1.
  destruct (lt height _ || gt height _)%bool.
  { simpl. intros H. injection H as <- <-. auto. }
  destruct (txsQuery lib lcdClient ("tx.height=" +:+ to_string height) st)
    as [[page|e] st1] eqn:Hrun; [|discriminate].
  unfold ret. intros H. injection H as <- <-.
  apply txsQuery_ok_inv in Hrun as (resp & H1 & _ & H3 & H4).
  exists resp, page. auto.
Qed.

Lemma searchTx_by_height_witness :
  exists resp page,
    be_txsQuery
      (txs_backend (fun _ _ =>
         Ok (one_page [rest_tx "7" "AB"; rest_tx "9" "AC"])))
      (requests new_client)
      ("tx.height=" +:+ to_string (Num 7) +:+ "&limit=100") = Ok resp /\
    Forall2 (indexed_from example_lib) (txs resp) page /\
    [indexed_tx 7 "AB"]
    = List.filter (in_range (effective_min no_filter)
                     (effective_max {| minHeight := None;
                                       maxHeight := Some (Num 8) |})) page /\
    logged (TxsQuery "tx.height=7&limit=100") new_client
    = logged (TxsQuery
                ("tx.height=" +:+ to_string (Num 7) +:+ "&limit=100"))
        new_client.
Proof.
  apply (searchTx_by_height example_lib
           (txs_backend (fun _ _ =>
              Ok (one_page [rest_tx "7" "AB"; rest_tx "9" "AC"])))
           (SearchByHeightQuery (Num 7))
           {| minHeight := None; maxHeight := Some (Num 8) |}
           new_client
           (logged (TxsQuery "tx.height=7&limit=100") new_client)
           (Num 7) [indexed_tx 7 "AB"]);
    reflexivity.
Defined.


(** ** Accounts and the height *)

Lemma getAccount_state lib lcdClient address st account :
  be_get_account lcdClient (requests st) (account_path address) = Ok account ->
  snd (getAccount lib lcdClient address st)
  = if String.eqb (av_address (aar_value account)) EmptyString
    then logged (Get (account_path address)) st
    else written (set_anyValidAddress (Some (av_address (aar_value account))))
           (logged (Get (account_path address)) st).
Proof.
  intros Hanswer. unfold getAccount, bind, send, write, lift, ret.
  unfold account_path in *. rewrite Hanswer.
  destruct (String.eqb _ _); [reflexivity|].
  destruct (normalizePubkey _ _); [|reflexivity].
  destruct (uint64ToNumber lib (av_account_number _)); [|reflexivity].
  destruct (uint64ToNumber lib (av_sequence _)); reflexivity.
Qed.

Lemma getSequence_state lib lcdClient address st :
  snd (getSequence lib lcdClient address st)
  = snd (getAccount lib lcdClient address st).
Proof.
  unfold getSequence, bind.
  destruct (getAccount _ _ _ _) as [[[account|]|e] st']; reflexivity.
Qed.

(** X10: what an account lookup leaves behind.  When the record comes back
    with an empty address, [getAccount] and [getSequence] only have sent the
    lookup.  When it comes back with an address, they have also noted it as
    the address known to be valid, and this also when the record then fails
    to convert and the call throws. *)
Theorem getAccount_notes_the_address
  (lib : Lib) (lcdClient : Backend) (address : string) (st : State)
  (account : AuthAccountsResponse) :
  be_get_account lcdClient (requests st) ("/auth/accounts/" +:+ address)
  = Ok account ->
  snd (getAccount lib lcdClient address st)
  = (if String.eqb (av_address (aar_value account)) EmptyString
     then logged (Get ("/auth/accounts/" +:+ address)) st
     else written
            (set_anyValidAddress (Some (av_address (aar_value account))))
            (logged (Get ("/auth/accounts/" +:+ address)) st)) /\
  snd (getSequence lib lcdClient address st)
  = snd (getAccount lib lcdClient address st).
Proof.
  intros Hanswer. split.
  - apply getAccount_state, Hanswer.
  - apply getSequence_state.
Qed.

Lemma getAccount_notes_the_address_witness :
  snd (getAccount example_lib funded_backend "orai1funded" new_client)
  = written (set_anyValidAddress (Some "orai1funded"))
      (logged (Get "/auth/accounts/orai1funded") new_client) /\
  snd (getSequence example_lib funded_backend "orai1funded" new_client)
  = snd (getAccount example_lib funded_backend "orai1funded" new_client).
Proof.
  apply (getAccount_notes_the_address example_lib funded_backend
           "orai1funded" new_client funded_account).
  reflexivity.
Defined.

(** X11: the two ways of [getHeight].  On a client that knows no valid
    address it asks for the latest block and returns the height of its
    header.  Once [getAccount] has returned an account, it asks for that
    account instead, by [auth.account] with the address of the account, and
    returns the height of the answer. *)
Theorem getHeight_uses_the_known_address
  (lib : Lib) (lcdClient : Backend) (address : string) (st st' : State)
  (account : Account) :
  getAccount lib lcdClient address st = (Ok (Some account), st') ->
  getHeight lcdClient st'
  = (result_map (fun answer => parseInt (aar_height answer))
       (be_authAccount lcdClient (requests st') (acc_address account)),
     logged (AuthAccount (acc_address account)) st') /\
  getHeight lcdClient new_client
  = (result_map (fun latest => parseInt (br_height latest))
       (be_blocksLatest lcdClient []),
     logged BlocksLatest new_client).
Proof.
  intros Hfound. split.
  - assert (anyValidAddress (fields st') = Some (acc_address account) /\
            acc_address account <> EmptyString) as [Hknown Hnonempty].
    { revert Hfound. unfold getAccount, bind, send, write, lift, ret.
      destruct (be_get_account _ _ _) as [answer|e]; [|discriminate].
      destruct (String.eqb _ _) eqn:Hempty; [discriminate|].
      destruct (normalizePubkey _ _); [|discriminate].
      destruct (uint64ToNumber lib (av_account_number _)); [|discriminate].
      destruct (uint64ToNumber lib (av_sequence _)); [|discriminate].
      intros H. injection H as <- <-. simpl.
      apply String.eqb_neq in Hempty. auto. }
    unfold getHeight, bind, read, send, ret. rewrite Hknown.
    rewrite (str_or_undefined_nonempty _ Hnonempty).
    destruct (be_authAccount _ _ _); reflexivity.
  - unfold getHeight, bind, read, send, ret. simpl.
    destruct (be_blocksLatest _ _); reflexivity.
Qed.

Lemma getHeight_uses_the_known_address_witness :
  getHeight funded_backend
    (written (set_anyValidAddress (Some "orai1funded"))
       (logged (Get "/auth/accounts/orai1funded") new_client))
  = (Ok (Num 12),
     logged (AuthAccount "orai1funded")
       (written (set_anyValidAddress (Some "orai1funded"))
          (logged (Get "/auth/accounts/orai1funded") new_client))) /\
  getHeight funded_backend new_client
  = (Throw (Error "Network Error"), logged BlocksLatest new_client).
Proof.
  apply (getHeight_uses_the_known_address example_lib funded_backend
           "orai1funded" new_client
           (written (set_anyValidAddress (Some "orai1funded"))
              (logged (Get "/auth/accounts/orai1funded") new_client))
           {| acc_address := "orai1funded"; acc_balance := JArray [];
              acc_pubkey := None; acc_accountNumber := Num 7;
              acc_sequence := Num 3 |}).
  reflexivity.
Defined.

(** ** Contracts *)

(** X12: for an address the endpoint has no contract at, [getContract]
    and [queryContractRaw] throw, with a message that quotes the address, and
    [queryContractRaw] has sent the contract lookup only: the raw query is
    not made. *)
Theorem queryContractRaw_needs_the_contract
  (lib : Lib) (lcdClient : Backend) (address : string) (key : Bytes)
  (st : State) (height : string) :
  be_get_contract lcdClient (requests st) ("/wasm/contract/" +:+ address)
  = Ok (WasmSuccess height None) ->
  getContract lcdClient address st
  = (Throw (Error (no_contract_message address)),
     logged (Get ("/wasm/contract/" +:+ address)) st) /\
  queryContractRaw lib lcdClient address key st
  = (Throw (Error (no_contract_message address)),
     logged (Get ("/wasm/contract/" +:+ address)) st).
Proof.
  intros Hanswer.
  assert (getContract lcdClient address st
          = (Throw (Error (no_contract_message address)),
             logged (Get ("/wasm/contract/" +:+ address)) st)) as Hthrows.
  { unfold getContract, WasmExtension.getContractInfo, bind, send.
    rewrite Hanswer. reflexivity. }
  split; [exact Hthrows|].
  unfold queryContractRaw, bind at 1. rewrite Hthrows. reflexivity.
Qed.

Lemma queryContractRaw_needs_the_contract_witness :
  getContract no_contract_backend "orai1nothing" new_client
  = (Throw (Error (no_contract_message "orai1nothing")),
     logged (Get ("/wasm/contract/" +:+ "orai1nothing")) new_client) /\
  queryContractRaw example_lib no_contract_backend "orai1nothing" []
    new_client
  = (Throw (Error (no_contract_message "orai1nothing")),
     logged (Get ("/wasm/contract/" +:+ "orai1nothing")) new_client).
Proof.
  apply (queryContractRaw_needs_the_contract example_lib no_contract_backend
           "orai1nothing" [] new_client "12").
  reflexivity.
Defined.

(** X13: when the endpoint answers a smart query with an error,
    [queryContractSmart] throws: with the message that no contract is found
    at the address when the error starts with [not found: contract], and
    with the error of the endpoint as it is otherwise. *)
Theorem queryContractSmart_names_the_missing_contract
  (lib : Lib) (lcdClient : Backend) (address : string) (queryMsg : Json)
  (st : State) (message : string) :
  be_get_smart lcdClient (requests st) (smart_path lib address queryMsg)
  = Ok (WasmError message) ->
  queryContractSmart lib lcdClient address queryMsg st
  = (Throw (Error (if String.prefix "not found: contract" message
                   then no_contract_message address
                   else message)),
     logged (Get (smart_path lib address queryMsg)) st).
Proof.
  intros Hanswer.
  unfold queryContractSmart, try_catch, WasmExtension.queryContractSmart.
  cbv zeta. unfold bind at 1, send.
  fold (smart_path lib address queryMsg). rewrite Hanswer. simpl.
  destruct (String.prefix _ _); reflexivity.
Qed.

Lemma queryContractSmart_names_the_missing_contract_witness :
  queryContractSmart example_lib
    (smart_error_backend "not found: contract") "orai1nothing" JNull
    new_client
  = (Throw (Error (if String.prefix "not found: contract"
                        "not found: contract"
                   then no_contract_message "orai1nothing"
                   else "not found: contract")),
     logged (Get (smart_path example_lib "orai1nothing" JNull)) new_client).
Proof.
  apply (queryContractSmart_names_the_missing_contract example_lib
           (smart_error_backend "not found: contract") "orai1nothing" JNull
           new_client "not found: contract").
  reflexivity.
Defined.

(** X14: [getContractCodeHistory] throws, with a message that quotes the
    address, only when the endpoint answers [null]; a history that is empty
    is returned as the empty list, and a history is returned entry by entry,
    in its order. *)
Theorem getContractCodeHistory_null_or_list
  (lcdClient : Backend) (address : string) (st : State) (height : string)
  (history : option (list WasmContractCodeHistoryEntry)) :
  be_get_history lcdClient (requests st)
    ("/wasm/contract/" +:+ address +:+ "/history")
  = Ok (WasmSuccess height history) ->
  match history with
  | None =>
      fst (getContractCodeHistory lcdClient address st)
      = Throw (Error ("No contract history found for address " +:+ dquote
                      +:+ address +:+ dquote))
  | Some entries =>
      exists l,
        fst (getContractCodeHistory lcdClient address st) = Ok l /\
        length l = length entries /\
        map he_operation l = map che_operation entries /\
        map he_codeId l = map che_code_id entries /\
        map he_msg l = map che_msg entries
  end.
Proof.
  intros Hanswer.
  unfold getContractCodeHistory, WasmExtension.getContractCodeHistory.
  cbv zeta. unfold bind, send. rewrite Hanswer. simpl.
  destruct history as [entries|]; [|reflexivity].
  eexists. split; [reflexivity|].
  rewrite length_map, !map_map. auto.
Qed.

Lemma getContractCodeHistory_null_or_list_witness :
  exists l,
    fst (getContractCodeHistory (history_backend (Some [])) "orai1contract"
           new_client) = Ok l /\
    length l = length (@nil WasmContractCodeHistoryEntry) /\
    map he_operation l = map che_operation [] /\
    map he_codeId l = map che_code_id [] /\
    map he_msg l = map che_msg [].
Proof.
  apply (getContractCodeHistory_null_or_list (history_backend (Some []))
           "orai1contract" new_client "12" (Some [])).
  reflexivity.
Defined.

(** ** The code cache *)

(** X15: what [getCodeDetails] does to the cache.  A call that returns
    leaves the cache as it was with the returned details stored under the
    code id; a call that throws leaves the cache as it was, so that a later
    call asks again.  With the code cached nothing is sent; without, the one
    request for the code is. *)
Theorem getCodeDetails_stores_what_it_returns
  (lib : Lib) (lcdClient : Backend) (codeId : number) (st : State) :
  match fst (getCodeDetails lib lcdClient codeId st) with
  | Ok d =>
      codesCache (fields (snd (getCodeDetails lib lcdClient codeId st)))
      = <[codeId := d]> (codesCache (fields st))
  | Throw _ =>
      codesCache (fields (snd (getCodeDetails lib lcdClient codeId st)))
      = codesCache (fields st)
  end /\
  (is_Some (codesCache (fields st) !! codeId) ->
   snd (getCodeDetails lib lcdClient codeId st) = st) /\
  (codesCache (fields st) !! codeId = None ->
   requests (snd (getCodeDetails lib lcdClient codeId st))
   = requests st ++ [Get ("/wasm/code/" +:+ to_string codeId)]).
Proof.
  destruct (codesCache (fields st) !! codeId) as [cached|] eqn:Hcache.
  - rewrite (getCodeDetails_hit lib lcdClient codeId cached st Hcache).
    simpl. split; [|split].
    + symmetry. apply insert_id, Hcache.
    + reflexivity.
    + discriminate.
  - remember (getCodeDetails lib lcdClient codeId st) as run eqn:Hrun.
    unfold getCodeDetails, bind at 1, read in Hrun. rewrite Hcache in Hrun.
    unfold WasmExtension.getCode, bind, send, lift, write, ret in Hrun.
    destruct (be_get_code _ _ _) as [responseData|e];
      [|subst run; simpl; split;
        [reflexivity|split; [intros [? ?]; discriminate|reflexivity]]].
    destruct (unwrapWasmResponse responseData) as [getCodeResult|e];
      [|subst run; simpl; split;
        [reflexivity|split; [intros [? ?]; discriminate|reflexivity]]].
    destruct (fromHex _ _) as [hashBytes|e];
      [|subst run; simpl; split;
        [reflexivity|split; [intros [? ?]; discriminate|reflexivity]]].
    destruct (fromBase64 _ _) as [data|e];
      subst run; simpl; (split;
        [reflexivity|split; [intros [? ?]; discriminate|reflexivity]]).
Qed.


(** ** What each method sends and assigns *)

Section Footprint.

Variable R : Call -> State -> State -> Prop.
Hypothesis F_refl : forall call st, R call st st.
Hypothesis F_trans :
  forall call st1 st2 st3, R call st1 st2 -> R call st2 st3 -> R call st1 st3.
Hypothesis F_send :
  forall call r st, sends call r = true -> R call st (logged r st).
Hypothesis F_address :
  forall call a st,
    writes_anyValidAddress call = true ->
    R call st (written (set_anyValidAddress a) st).
Hypothesis F_cache :
  forall call codeId d st,
    writes_codesCache call = true ->
    R call st (written (codesCache_set codeId d) st).
Hypothesis F_chain :
  forall call c st,
    writes_chainId call = true -> R call st (written (set_chainId c) st).

Ltac footprint_step :=
  match goal with
  | |- every_run _ (ret _) => apply every_run_ret; intros; apply F_refl
  | |- every_run _ (throw _) => apply every_run_throw; intros; apply F_refl
  | |- every_run _ (lift _) => apply every_run_lift; intros; apply F_refl
  | |- every_run _ (read _) => apply every_run_read; intros; apply F_refl
  | |- every_run _ (send _ _) =>
      let st := fresh "st" in intros st; apply F_send; reflexivity
  | |- every_run _ (write (set_anyValidAddress _)) =>
      let st := fresh "st" in intros st; apply F_address; reflexivity
  | |- every_run _ (write (codesCache_set _ _)) =>
      let st := fresh "st" in intros st; apply F_cache; reflexivity
  | |- every_run _ (write (set_chainId _)) =>
      let st := fresh "st" in intros st; apply F_chain; reflexivity
  | |- every_run _ (bind _ _) =>
      apply every_run_bind;
      [intros; eapply F_trans; eassumption| |intros ?]
  | |- every_run _ (mapM _ _) =>
      apply every_run_mapM;
      [intros; apply F_refl|intros; eapply F_trans; eassumption|intros ?]
  | |- every_run _ (try_catch _ _) =>
      apply every_run_try_catch;
      [intros; eapply F_trans; eassumption| |intros ?]
  | |- every_run _ (promise_all2 _ _) =>
      apply every_run_promise_all2;
      [intros; eapply F_trans; eassumption| |]
  | |- every_run _ (match ?x with _ => _ end) => destruct x
  | |- every_run _ (if ?b then _ else _) => destruct b
  end.

Variable lib : Lib.
Variable lcdClient : Backend.

Lemma footprint_after call st : R call st (after lib lcdClient call st).
Proof.
  destruct call as [ | |tx|address|address|height|id|query filter|tx|
                    |codeId|codeId|address|address|address rawKey
                    |address queryMsg];
    simpl;
    match goal with
    | |- R ?c st (snd (?m st)) => revert st; change (every_run (R c) m)
    end;
    unfold getChainId, getHeight, getIdentifier, getSequence, getAccount,
      getBlock, getTx, searchTx, txsQuery, to_IndexedTx, broadcastTx,
      getCodes, getCodeDetails, getContracts, getContractCodeHistory,
      queryContractRaw, queryContractSmart, getContract,
      WasmExtension.listCodeInfo, WasmExtension.getCode,
      WasmExtension.listContractsByCodeId, WasmExtension.getContractInfo,
      WasmExtension.getContractCodeHistory, WasmExtension.queryContractRaw,
      WasmExtension.queryContractSmart;
    cbv zeta; repeat footprint_step.
Qed.

End Footprint.

Lemma within_footprint_after lib lcdClient call st :
  within_footprint call st (after lib lcdClient call st).
Proof.
  apply (footprint_after within_footprint); clear; unfold within_footprint.
  - intros call st. split; [exists []; rewrite app_nil_r; auto|auto].
  - intros call st1 st2 st3 [(new1 & Hn1 & Hs1) (Ha1 & Hc1 & Hi1)]
      [(new2 & Hn2 & Hs2) (Ha2 & Hc2 & Hi2)].
    split; [|repeat split; intros Hflag].
    + exists (new1 ++ new2). rewrite Hn2, Hn1, app_assoc. split; [easy|].
      rewrite forallb_app, Hs1, Hs2. reflexivity.
    + rewrite (Ha2 Hflag). auto.
    + rewrite (Hc2 Hflag). auto.
    + rewrite (Hi2 Hflag). auto.
  - intros call r st Hr. split; [|auto].
    exists [r]. split; [reflexivity|]. simpl. rewrite Hr. reflexivity.
  - intros call a st Hflag. split; [exists []; rewrite app_nil_r; auto|].
    repeat split; auto. congruence.
  - intros call codeId d st Hflag.
    split; [exists []; rewrite app_nil_r; auto|].
    repeat split; auto. congruence.
  - intros call c st Hflag. split; [exists []; rewrite app_nil_r; auto|].
    repeat split; auto. congruence.
Qed.

(** X16: a call sends only requests of the kinds of its method; whether
    it returns or throws, what was sent before stays in the log.  So
    only [broadcastTx] broadcasts a transaction, only [getIdentifier] has a
    transaction encoded, only [getChainId] asks for the node info, only
    [getTx] and [searchTx] search transactions, and no method but
    [getHeight] and [getBlock] asks for a block. *)
Theorem calls_send_only_their_kind
  (lib : Lib) (lcdClient : Backend) (call : Call) (st : State) :
  exists new,
    requests (after lib lcdClient call st) = requests st ++ new /\
    forallb (sends call) new = true.
Proof. apply (within_footprint_after lib lcdClient call st). Qed.

(** X17: the fields a call can assign to.  [chainId] changes only in
    [getChainId], [codesCache] only in [getCodeDetails], and
    [anyValidAddress] only in [getAccount], [getSequence] and [getCodes];
    every other call, whether it returns or throws, leaves the field as it
    was. *)
Theorem calls_assign_only_their_fields
  (lib : Lib) (lcdClient : Backend) (call : Call) (st : State) :
  (writes_anyValidAddress call = false ->
   anyValidAddress (fields (after lib lcdClient call st))
   = anyValidAddress (fields st)) /\
  (writes_codesCache call = false ->
   codesCache (fields (after lib lcdClient call st))
   = codesCache (fields st)) /\
  (writes_chainId call = false ->
   chainId (fields (after lib lcdClient call st)) = chainId (fields st)).
Proof. apply (within_footprint_after lib lcdClient call st). Qed.


(** ** Blocks, codes and contract state *)

Lemma mapM_lift_ok {A B} (f : A -> Result B) xs st l st' :
  mapM (fun x => lift (f x)) xs st = (Ok l, st') ->
  Forall2 (fun x y => f x = Ok y) xs l /\ st' = st.
Proof.
  revert l st'. induction xs as [|x xs IH]; intros l st' Hrun.
  - injection Hrun as <- <-. split; [constructor|reflexivity].
  - simpl in Hrun. unfold bind at 1, lift at 1 in Hrun.
    destruct (f x) as [y|e] eqn:Hx; [|discriminate].
    unfold bind at 1 in Hrun.
    destruct (mapM _ xs st) as [[ys|e] st1] eqn:Hrest; [|discriminate].
    unfold ret in Hrun. injection Hrun as <- <-.
    destruct (IH ys st1 eq_refl) as [Hall ->].
    split; [constructor; assumption|reflexivity].
Qed.

(** X18: a [getBlock] that returns has sent one request, for the block
    of the given height or, without a height, for the latest block; it
    returns the hash, chain id and time of the answer, the height of its
    header read by [parseInt], and its transactions decoded from base64, as
    many and in the same order, none when the answer has [null] for them. *)
Theorem getBlock_returns_the_answer
  (lib : Lib) (lcdClient : Backend) (height : option number)
  (st st' : State) (block : Block) :
  getBlock lib lcdClient height st = (Ok block, st') ->
  exists response,
    match height with
    | Some h => be_blocks lcdClient (requests st) h
    | None => be_blocksLatest lcdClient (requests st)
    end = Ok response /\
    blk_id block = br_block_id_hash response /\
    bh_height (blk_header block) = parseInt (br_height response) /\
    bh_chainId (blk_header block) = br_chain_id response /\
    bh_time (blk_header block) = br_time response /\
    Forall2 (fun t bytes => fromBase64 lib t = Ok bytes)
      (default [] (br_txs response)) (blk_txs block) /\
    (br_txs response = None -> blk_txs block = []) /\
    st' = logged (block_request height) st.
Proof.
  unfold getBlock. unfold bind at 1.
  assert (forall r,
            (match height with
             | Some h => send (Blocks h) (fun hist => be_blocks lcdClient hist h)
             | None => send BlocksLatest (be_blocksLatest lcdClient)
             end) st
            = (r, logged (block_request height) st) ->
            match height with
            | Some h => be_blocks lcdClient (requests st) h
            | None => be_blocksLatest lcdClient (requests st)
            end = r) as Hsent
    by (intros r; destruct height; unfold send; simpl; congruence).
  assert (snd ((match height with
                | Some h =>
                    send (Blocks h) (fun hist => be_blocks lcdClient hist h)
                | None => send BlocksLatest (be_blocksLatest lcdClient)
                end) st) = logged (block_request height) st) as Hstate
    by (destruct height; reflexivity).
  destruct ((match height with
             | Some h => send (Blocks h) (fun hist => be_blocks lcdClient hist h)
             | None => send BlocksLatest (be_blocksLatest lcdClient)
             end) st) as [[response|e] st1] eqn:Hrun; [|discriminate].
  simpl in Hstate. subst st1. specialize (Hsent _ eq_refl).
  unfold bind at 1.
  destruct (mapM _ _ _) as [[decoded|e] st2] eqn:Hmap; [|discriminate].
  unfold ret. intros H. injection H as <- <-.
  apply mapM_lift_ok in Hmap as [Hall ->].
  exists response. simpl. repeat split; auto.
  intros Hnull. rewrite Hnull in Hall. simpl in Hall. inversion Hall.
  reflexivity.
Qed.

Lemma getBlock_returns_the_answer_witness :
  exists response,
    be_blocksLatest block_backend (requests new_client) = Ok response /\
    blk_id
      {| blk_id := "ABCD";
         blk_header := {| bh_version := JNull; bh_height := Num 12;
                          bh_chainId := "Oraichain";
                          bh_time := "2020-02-15T10:39:10.4696305Z" |};
         blk_txs := [list_byte_of_string "dHgx"; list_byte_of_string "dHgy"] |}
    = br_block_id_hash response /\
    Num 12 = parseInt (br_height response) /\
    "Oraichain" = br_chain_id response /\
    "2020-02-15T10:39:10.4696305Z" = br_time response /\
    Forall2 (fun t bytes => fromBase64 example_lib t = Ok bytes)
      (default [] (br_txs response))
      [list_byte_of_string "dHgx"; list_byte_of_string "dHgy"] /\
    (br_txs response = None ->
     [list_byte_of_string "dHgx"; list_byte_of_string "dHgy"] = []) /\
    logged BlocksLatest new_client = logged (block_request None) new_client.
Proof.
  apply (getBlock_returns_the_answer example_lib block_backend None
           new_client (logged BlocksLatest new_client)
           {| blk_id := "ABCD";
              blk_header := {| bh_version := JNull; bh_height := Num 12;
                               bh_chainId := "Oraichain";
                               bh_time := "2020-02-15T10:39:10.4696305Z" |};
              blk_txs := [list_byte_of_string "dHgx";
                          list_byte_of_string "dHgy"] |}).
  reflexivity.
Defined.

Lemma getCodes_map lib entries st codes st' :
  mapM (fun entry =>
          let* _ := write (set_anyValidAddress (Some (ci_creator entry))) in
          let* hashBytes := lift (fromHex lib (ci_data_hash entry)) in
          ret {| code_id := ci_id entry;
                 code_creator := ci_creator entry;
                 code_checksum := toHex lib hashBytes;
                 code_source := str_or_undefined (ci_source entry);
                 code_builder := str_or_undefined (ci_builder entry) |})
       entries st = (Ok codes, st') ->
  Forall2 (code_from lib) entries codes /\
  requests st' = requests st /\
  fields st' = match last entries with
               | Some entry =>
                   set_anyValidAddress (Some (ci_creator entry)) (fields st)
               | None => fields st
               end.
Proof.
  revert st codes st'. induction entries as [|entry entries IH];
    intros st codes st' Hrun.
  - injection Hrun as <- <-. repeat split. constructor.
  - simpl in Hrun. unfold bind at 1 in Hrun. unfold bind at 1, write in Hrun.
    unfold bind at 1, lift at 1 in Hrun.
    destruct (fromHex lib (ci_data_hash entry)) as [hashBytes|e] eqn:Hhash;
      [|discriminate].
    unfold ret at 1 in Hrun. unfold bind at 1 in Hrun.
    match type of Hrun with
    | context [mapM ?f entries ?s] =>
        destruct (mapM f entries s) as [[rest|e] st1] eqn:Hrest
    end; [|discriminate].
    unfold ret in Hrun. injection Hrun as <- <-.
    apply IH in Hrest as (Hall & Hrequests & Hfields).
    split; [|split].
    + constructor; [|exact Hall].
      unfold code_from. simpl. rewrite Hhash. repeat split.
    + rewrite Hrequests. reflexivity.
    + rewrite Hfields. destruct entries as [|next entries]; [reflexivity|].
      change (last (entry :: next :: entries)) with (last (next :: entries)).
      destruct (last (next :: entries)) eqn:Hlast; [reflexivity|].
      apply last_None in Hlast. discriminate.
Qed.

(** What a successful [getCodes] saw and left behind. *)
Lemma getCodes_ok_inv lib lcdClient st st' codes :
  getCodes lib lcdClient st = (Ok codes, st') ->
  exists height listed,
    be_get_codes lcdClient (requests st) "/wasm/code"
    = Ok (WasmSuccess height listed) /\
    Forall2 (code_from lib) (default [] listed) codes /\
    requests st' = requests st ++ [Get "/wasm/code"] /\
    fields st' = match last (default [] listed) with
                 | Some entry =>
                     set_anyValidAddress (Some (ci_creator entry)) (fields st)
                 | None => fields st
                 end.
Proof.
  unfold getCodes, WasmExtension.listCodeInfo. cbv zeta.
  unfold bind at 1. unfold bind at 1, send.
  destruct (be_get_codes _ _ _) as [[height listed|message]|e];
    [|discriminate|discriminate].
  simpl. unfold bind at 1. unfold ret at 1, normalizeLcdApiArray.
  intros Hmap. apply getCodes_map in Hmap as (Hall & Hrequests & Hfields).
  exists height, listed. repeat split; auto.
Qed.

(** X19: a [getCodes] that returns has sent the one request for the
    codes; it returns one code for each code listed, in the same order, with
    its id and creator, its checksum decoded and encoded again, and an empty
    source or builder turned into [undefined]; a [null] list gives none.
    The address known to be valid is then the creator of the last code
    listed, and is as it was when none is listed. *)
Theorem getCodes_returns_the_list
  (lib : Lib) (lcdClient : Backend) (st st' : State) (codes : list Code) :
  getCodes lib lcdClient st = (Ok codes, st') ->
  exists height listed,
    be_get_codes lcdClient (requests st) "/wasm/code"
    = Ok (WasmSuccess height listed) /\
    Forall2 (code_from lib) (default [] listed) codes /\
    length codes = length (default [] listed) /\
    requests st' = requests st ++ [Get "/wasm/code"] /\
    fields st' = match last (default [] listed) with
                 | Some entry =>
                     set_anyValidAddress (Some (ci_creator entry)) (fields st)
                 | None => fields st
                 end.
Proof.
  intros Hrun.
  apply getCodes_ok_inv in Hrun as (height & listed & H1 & H2 & H3 & H4).
  exists height, listed. repeat split; auto.
  symmetry. eapply Forall2_length. exact H2.
Qed.

Lemma getCodes_returns_the_list_witness :
  exists height listed,
    be_get_codes (codes_backend (Some [example_code_info]))
      (requests new_client) "/wasm/code"
    = Ok (WasmSuccess height listed) /\
    Forall2 (code_from example_lib) (default [] listed)
      [{| code_id := Num 1; code_creator := "orai1creator";
          code_checksum := "3defc33a"; code_source := None;
          code_builder := Some "cosmwasm/rust-optimizer:0.8.0" |}] /\
    length [{| code_id := Num 1; code_creator := "orai1creator";
               code_checksum := "3defc33a"; code_source := None;
               code_builder := Some "cosmwasm/rust-optimizer:0.8.0" |}]
    = length (default [] listed) /\
    requests (written (set_anyValidAddress (Some "orai1creator"))
                (logged (Get "/wasm/code") new_client))
    = requests new_client ++ [Get "/wasm/code"] /\
    fields (written (set_anyValidAddress (Some "orai1creator"))
              (logged (Get "/wasm/code") new_client))
    = match last (default [] listed) with
      | Some entry =>
          set_anyValidAddress (Some (ci_creator entry)) (fields new_client)
      | None => fields new_client
      end.
Proof.
  apply (getCodes_returns_the_list example_lib
           (codes_backend (Some [example_code_info])) new_client
           (written (set_anyValidAddress (Some "orai1creator"))
              (logged (Get "/wasm/code") new_client))
           [{| code_id := Num 1; code_creator := "orai1creator";
               code_checksum := "3defc33a"; code_source := None;
               code_builder := Some "cosmwasm/rust-optimizer:0.8.0" |}]).
  reflexivity.
Defined.

Lemma mapM_lift_complete {A B} (f : A -> Result B) xs st l :
  Forall2 (fun x y => f x = Ok y) xs l ->
  mapM (fun x => lift (f x)) xs st = (Ok l, st).
Proof.
  induction 1 as [|x y xs ys Hx _ IH]; [reflexivity|].
  simpl. unfold bind at 1, lift at 1. rewrite Hx.
  unfold bind at 1. rewrite IH. reflexivity.
Qed.

Lemma parseWasmData_ok lib d m :
  WasmExtension.parseWasmData lib d = Ok m <-> model_from lib d m.
Proof.
  unfold WasmExtension.parseWasmData, model_from, result_bind.
  destruct (fromHex lib (key d)) as [k|e].
  - destruct (fromBase64 lib (val d)) as [v|e].
    + split.
      * intros H. injection H as <-. split; reflexivity.
      * intros [Hk Hv]. injection Hk as Hk. injection Hv as Hv.
        destruct m. simpl in *. subst. reflexivity.
    + split; [discriminate|intros [_ ?]; discriminate].
  - split; [discriminate|intros [? _]; discriminate].
Qed.

(** X20: when the endpoint answers the state of a contract,
    [getAllContractState] returns one entry for each entry listed, in the
    same order, with the key decoded from hex and the value from base64;
    an answer of [null] gives the empty list, not an error, and the call
    throws when an entry does not decode. *)
Theorem getAllContractState_decodes_the_list
  (lib : Lib) (lcdClient : Backend) (address : string) (st : State)
  (height : string) (listed : LcdApiArray WasmData) :
  be_get_state lcdClient (requests st)
    ("/wasm/contract/" +:+ address +:+ "/state")
  = Ok (WasmSuccess height listed) ->
  (listed = None ->
   fst (WasmExtension.getAllContractState lib lcdClient address st) = Ok []) /\
  (forall l,
     fst (WasmExtension.getAllContractState lib lcdClient address st) = Ok l <->
     Forall2 (model_from lib) (default [] listed) l) /\
  snd (WasmExtension.getAllContractState lib lcdClient address st)
  = logged (Get ("/wasm/contract/" +:+ address +:+ "/state")) st.
Proof.
  intros Hanswer.
  assert (WasmExtension.getAllContractState lib lcdClient address st
          = mapM (fun d => lift (WasmExtension.parseWasmData lib d))
              (default [] listed)
              (logged (Get ("/wasm/contract/" +:+ address +:+ "/state")) st))
    as ->.
  { unfold WasmExtension.getAllContractState. cbv zeta.
    unfold bind, send. rewrite Hanswer. reflexivity. }
  split; [|split].
  - intros ->. reflexivity.
  - intros l. split.
    + intros Hl.
      destruct (mapM _ _ _) as [r st1] eqn:Hrun. simpl in Hl. subst r.
      apply mapM_lift_ok in Hrun as [Hall _].
      eapply Forall2_impl; [exact Hall|].
      intros d m. apply parseWasmData_ok.
    + intros Hall. rewrite (mapM_lift_complete _ _ _ l); [reflexivity|].
      eapply Forall2_impl; [exact Hall|].
      intros d m. apply parseWasmData_ok.
  - apply mapM_state. intros x s. unfold lift. reflexivity.
Qed.

Lemma getAllContractState_decodes_the_list_witness :
  (@None (list WasmData) = None ->
   fst (WasmExtension.getAllContractState example_lib (state_backend None)
          "orai1nothing" new_client) = Ok []) /\
  (forall l,
     fst (WasmExtension.getAllContractState example_lib (state_backend None)
            "orai1nothing" new_client) = Ok l <->
     Forall2 (model_from example_lib) (default [] None) l) /\
  snd (WasmExtension.getAllContractState example_lib (state_backend None)
         "orai1nothing" new_client)
  = logged (Get ("/wasm/contract/" +:+ "orai1nothing" +:+ "/state"))
      new_client.
Proof.
  apply (getAllContractState_decodes_the_list example_lib (state_backend None)
           "orai1nothing" new_client "12" None).
  reflexivity.
Defined.


(** ** Further compositions *)

Lemma Forall2_code_from_last lib listed codes code :
  Forall2 (code_from lib) listed codes -> last codes = Some code ->
  exists entry, last listed = Some entry /\ ci_creator entry = code_creator code.
Proof.
  induction 1 as [|entry c listed codes Hfirst Hrest IH]; [discriminate|].
  destruct Hrest as [|entry' c' listed' codes' Hnext Hrest'].
  - simpl. intros H. injection H as <-. exists entry.
    split; [reflexivity|]. destruct Hfirst as (_ & -> & _). reflexivity.
  - rewrite !last_cons_cons. exact IH.
Qed.

(** X21: [getCodes] warms the client up for [getHeight].  After a
    [getCodes] that returned codes, the last of them with a creator,
    [getHeight] asks for the account of that creator, by [auth.account],
    instead of the latest block, and returns the height of the answer. *)
Theorem getHeight_after_getCodes
  (lib : Lib) (lcdClient : Backend) (st st' : State) (codes : list Code)
  (code : Code) :
  getCodes lib lcdClient st = (Ok codes, st') ->
  last codes = Some code ->
  code_creator code <> EmptyString ->
  getHeight lcdClient st'
  = (result_map (fun answer => parseInt (aar_height answer))
       (be_authAccount lcdClient (requests st') (code_creator code)),
     logged (AuthAccount (code_creator code)) st').
Proof.
  intros Hrun Hlast Hcreator.
  apply getCodes_ok_inv in Hrun as (height & listed & _ & Hall & _ & Hfields).
  destruct (Forall2_code_from_last _ _ _ _ Hall Hlast)
    as (entry & Hentry & Hsame).
  rewrite Hentry in Hfields.
  unfold getHeight, bind, read, send, ret. rewrite Hfields.
  unfold set_anyValidAddress. cbn [anyValidAddress].
  rewrite Hsame, (str_or_undefined_nonempty _ Hcreator).
  destruct (be_authAccount _ _ _); reflexivity.
Qed.

Lemma getHeight_after_getCodes_witness :
  getHeight warm_backend
    (written (set_anyValidAddress (Some "orai1creator"))
       (logged (Get "/wasm/code") new_client))
  = (Ok (Num 12),
     logged (AuthAccount "orai1creator")
       (written (set_anyValidAddress (Some "orai1creator"))
          (logged (Get "/wasm/code") new_client))).
Proof.
  apply (getHeight_after_getCodes example_lib warm_backend new_client
           (written (set_anyValidAddress (Some "orai1creator"))
              (logged (Get "/wasm/code") new_client))
           [example_code_listed] example_code_listed);
    [reflexivity|reflexivity|discriminate].
Defined.

(** X22: a list merged with itself is that list: when every transaction
    was both sent and received, each is returned once. *)
Theorem mergeTxs_with_itself (l : list IndexedTx) : mergeTxs l l = l.
Proof.
  induction l as [|a l IH]; [apply mergeTxs_nil_l|].
  rewrite mergeTxs_cons, String.eqb_refl, IH. reflexivity.
Qed.

(** X23: a search by tags that returns, the range not being empty, has
    sent one search: the tags as [key=value] joined by [&], followed by the
    two bounds; it returns the transactions of the page whose height is
    within the bounds, in the order of the page. *)
Theorem searchTx_by_tags
  (lib : Lib) (lcdClient : Backend) (query : SearchTxQuery)
  (filter : SearchTxFilter) (st st' : State)
  (tags : list (string * string)) (l : list IndexedTx) :
  q_height query = None -> q_sentFromOrTo query = None ->
  q_tags query = Some tags ->
  lt (effective_max filter) (effective_min filter) = false ->
  searchTx lib lcdClient query filter st = (Ok l, st') ->
  exists resp page,
    be_txsQuery lcdClient (requests st)
      ((String.concat "&" (map (fun t => fst t +:+ "=" +:+ snd t) tags)
        +:+ "&tx.minheight=" +:+ to_string (effective_min filter)
        +:+ "&tx.maxheight=" +:+ to_string (effective_max filter))
       +:+ "&limit=100")
    = Ok resp /\
    Forall2 (indexed_from lib) (txs resp) page /\
    l = List.filter
          (in_range (effective_min filter) (effective_max filter)) page /\
    requests st' = requests st ++ searchTx_requests query filter.
Proof.
  intros Hheight Hsent Htags Hrange. unfold searchTx, searchTx_requests.
  rewrite Hrange, Hheight, Hsent, Htags. unfold bind at 1.
  match goal with |- context [txsQuery lib lcdClient ?x st] =>
    destruct (txsQuery lib lcdClient x st) as [[page|e] st1] eqn:Hrun
  end; [|discriminate].
  unfold ret. intros H. injection H as <- <-.
  apply txsQuery_ok_inv in Hrun as (resp & H1 & _ & H3 & ->).
  exists resp, page. repeat split; auto.
Qed.

Lemma searchTx_by_tags_witness :
  exists resp page,
    be_txsQuery
      (txs_backend (fun _ _ =>
         Ok (one_page [rest_tx "3" "AA"; rest_tx "7" "AB"])))
      (requests new_client)
      ((String.concat "&"
          (map (fun t => fst t +:+ "=" +:+ snd t)
             [("message.module", "bank"); ("message.action", "send")])
        +:+ "&tx.minheight="
        +:+ to_string (effective_min {| minHeight := Some (Num 5);
                                        maxHeight := None |})
        +:+ "&tx.maxheight="
        +:+ to_string (effective_max {| minHeight := Some (Num 5);
                                        maxHeight := None |}))
       +:+ "&limit=100")
    = Ok resp /\
    Forall2 (indexed_from example_lib) (txs resp) page /\
    [indexed_tx 7 "AB"]
    = List.filter
        (in_range (effective_min {| minHeight := Some (Num 5);
                                    maxHeight := None |})
                  (effective_max {| minHeight := Some (Num 5);
                                    maxHeight := None |})) page /\
    requests
      (logged (TxsQuery
         ("message.module=bank&message.action=send&tx.minheight=5"
          +:+ "&tx.maxheight=9007199254740991&limit=100")) new_client)
    = requests new_client
      ++ searchTx_requests
           (SearchByTagsQuery
              [("message.module", "bank"); ("message.action", "send")])
           {| minHeight := Some (Num 5); maxHeight := None |}.
Proof.
  apply (searchTx_by_tags example_lib
           (txs_backend (fun _ _ =>
              Ok (one_page [rest_tx "3" "AA"; rest_tx "7" "AB"])))
           (SearchByTagsQuery
              [("message.module", "bank"); ("message.action", "send")])
           {| minHeight := Some (Num 5); maxHeight := None |}
           new_client
           (logged (TxsQuery
              ("message.module=bank&message.action=send&tx.minheight=5"
               +:+ "&tx.maxheight=9007199254740991&limit=100")) new_client)
           [("message.module", "bank"); ("message.action", "send")]
           [indexed_tx 7 "AB"]);
    reflexivity.
Defined.

(** X24: a search by sender or recipient that returns, the range not
    being empty, has got a single page for each of its two searches ([page_total]
    read by [parseInt] is not above 1 in both answers), the one by sender
    first; it returns the merge of the two pages cut to the bounds, so every
    transaction returned is a transaction of one of the two pages with its
    height within the bounds. *)
Theorem searchTx_by_sender_or_recipient
  (lib : Lib) (lcdClient : Backend) (query : SearchTxQuery)
  (filter : SearchTxFilter) (st st' : State) (address : string)
  (l : list IndexedTx) :
  q_height query = None -> q_sentFromOrTo query = Some address ->
  lt (effective_max filter) (effective_min filter) = false ->
  searchTx lib lcdClient query filter st = (Ok l, st') ->
  exists sentResp receivedResp sent received,
    be_txsQuery lcdClient (requests st)
      (txs_request
         (withFilters (effective_min filter) (effective_max filter)
            ("message.module=bank&message.sender=" +:+ address)))
    = Ok sentResp /\
    be_txsQuery lcdClient
      (requests st
       ++ [TxsQuery (txs_request
             (withFilters (effective_min filter) (effective_max filter)
                ("message.module=bank&message.sender=" +:+ address)))])
      (txs_request
         (withFilters (effective_min filter) (effective_max filter)
            ("message.module=bank&transfer.recipient=" +:+ address)))
    = Ok receivedResp /\
    gt (parseInt (page_total sentResp)) (Num 1) = false /\
    gt (parseInt (page_total receivedResp)) (Num 1) = false /\
    Forall2 (indexed_from lib) (txs sentResp) sent /\
    Forall2 (indexed_from lib) (txs receivedResp) received /\
    l = List.filter
          (in_range (effective_min filter) (effective_max filter))
          (mergeTxs sent received) /\
    (forall x, In x l ->
       (In x sent \/ In x received) /\
       in_range (effective_min filter) (effective_max filter) x = true) /\
    requests st' = requests st ++ searchTx_requests query filter.
Proof.
  intros Hheight Haddress Hrange. unfold searchTx, searchTx_requests.
  rewrite Hrange, Hheight, Haddress. unfold bind at 1. unfold bind at 1.
  unfold promise_all2.
  match goal with |- context [txsQuery lib lcdClient ?x st] =>
    destruct (txsQuery lib lcdClient x st) as [r1 st1] eqn:Hrun1
  end.
  match goal with |- context [txsQuery lib lcdClient ?x st1] =>
    destruct (txsQuery lib lcdClient x st1) as [r2 st2] eqn:Hrun2
  end.
  destruct r1 as [sent|e1]; [|discriminate].
  destruct r2 as [received|e2]; [|discriminate].
  unfold ret. simpl. intros H. injection H as <- <-.
  apply txsQuery_ok_inv in Hrun1 as (sentResp & H1 & H2 & H3 & ->).
  apply txsQuery_ok_inv in Hrun2 as (receivedResp & H5 & H6 & H7 & ->).
  exists sentResp, receivedResp, sent, received.
  split; [exact H1|]. split; [exact H5|]. split; [exact H2|].
  split; [exact H6|]. split; [exact H3|].
  split; [exact H7|]. split; [reflexivity|]. split.
  - intros x Hx. apply filter_In in Hx as [Hx Hin].
    split; [apply mergeTxs_In, Hx|exact Hin].
  - simpl. rewrite <- app_assoc. reflexivity.
Qed.

Lemma searchTx_by_sender_or_recipient_witness :
  exists sentResp receivedResp sent received,
    be_txsQuery
      (bank_backend [rest_tx "10" "A"; rest_tx "20" "B"]
                    [rest_tx "15" "C"; rest_tx "20" "B"])
      (requests new_client)
      (txs_request
         (withFilters (effective_min no_filter) (effective_max no_filter)
            ("message.module=bank&message.sender=" +:+ "orai1address")))
    = Ok sentResp /\
    be_txsQuery
      (bank_backend [rest_tx "10" "A"; rest_tx "20" "B"]
                    [rest_tx "15" "C"; rest_tx "20" "B"])
      (requests new_client
       ++ [TxsQuery (txs_request
             (withFilters (effective_min no_filter) (effective_max no_filter)
                ("message.module=bank&message.sender=" +:+ "orai1address")))])
      (txs_request
         (withFilters (effective_min no_filter) (effective_max no_filter)
            ("message.module=bank&transfer.recipient=" +:+ "orai1address")))
    = Ok receivedResp /\
    gt (parseInt (page_total sentResp)) (Num 1) = false /\
    gt (parseInt (page_total receivedResp)) (Num 1) = false /\
    Forall2 (indexed_from example_lib) (txs sentResp) sent /\
    Forall2 (indexed_from example_lib) (txs receivedResp) received /\
    [indexed_tx 10 "A"; indexed_tx 15 "C"; indexed_tx 20 "B"]
    = List.filter
        (in_range (effective_min no_filter) (effective_max no_filter))
        (mergeTxs sent received) /\
    (forall x,
       In x [indexed_tx 10 "A"; indexed_tx 15 "C"; indexed_tx 20 "B"] ->
       (In x sent \/ In x received) /\
       in_range (effective_min no_filter) (effective_max no_filter) x = true) /\
    requests
      (sent_more
         (searchTx_requests (SearchBySentFromOrToQuery "orai1address")
            no_filter) new_client)
    = requests new_client
      ++ searchTx_requests (SearchBySentFromOrToQuery "orai1address")
           no_filter.
Proof.
  apply (searchTx_by_sender_or_recipient example_lib
           (bank_backend [rest_tx "10" "A"; rest_tx "20" "B"]
                         [rest_tx "15" "C"; rest_tx "20" "B"])
           (SearchBySentFromOrToQuery "orai1address") no_filter new_client
           (sent_more
              (searchTx_requests (SearchBySentFromOrToQuery "orai1address")
                 no_filter) new_client)
           "orai1address"
           [indexed_tx 10 "A"; indexed_tx 15 "C"; indexed_tx 20 "B"]);
    reflexivity.
Defined.


(** ** Calls one after the other are calls that do not overlap *)

(** A call that runs to its end before the next stretch starts is a
    sequence of stretches: of [getChainId], its two stretches with the answer
    of the endpoint, and of another method, what it sends and assigns. *)
Lemma after_is_a_run lib lcdClient call st n :
  exists events,
    forallb of_a_method events = true /\
    run events {| client := st; awaiting := n |}
    = {| client := after lib lcdClient call st; awaiting := n |}.
Proof.
  destruct (is_GetChainId call) eqn:Hcall.
  - destruct call; try discriminate. simpl.
    rewrite getChainId_begin_resume.
    destruct (getChainId_begin st) as [[c|] st'] eqn:Hbegin.
    + exists [CallGetChainId]. split; [reflexivity|].
      unfold run. simpl. rewrite Hbegin. reflexivity.
    + exists [CallGetChainId;
              NodeInfoAnswer (be_nodeInfo lcdClient (requests st))].
      split; [reflexivity|].
      unfold run. simpl. rewrite Hbegin. simpl.
      destruct (getChainId_resume _ st'); reflexivity.
  - assert (is_GetChainId call = true \/
            exists events,
              forallb of_other_method events = true /\
              forall n,
                run events {| client := st; awaiting := n |}
                = {| client := after lib lcdClient call st; awaiting := n |})
      as [Habsurd|(events & Hevents & Hrun)].
    { apply (footprint_after
               (fun call st st' =>
                  is_GetChainId call = true \/
                  exists events,
                    forallb of_other_method events = true /\
                    forall n,
                      run events {| client := st; awaiting := n |}
                      = {| client := st'; awaiting := n |})).
      - intros c s. right. exists []. split; reflexivity.
      - intros c s1 s2 s3 [H|(e1 & He1 & Hr1)]; [auto|].
        intros [H|(e2 & He2 & Hr2)]; [auto|]. right.
        exists (e1 ++ e2). split.
        + rewrite forallb_app, He1, He2. reflexivity.
        + intros m. rewrite run_app, Hr1. apply Hr2.
      - intros c r s Hsends.
        destruct (is_GetChainId c) eqn:Hc; [auto|]. right.
        exists [OtherSends r]. split; [|reflexivity].
        simpl. destruct c, r; simpl in *; congruence.
      - intros c a s _. right. exists [OtherNotesAddress a].
        split; reflexivity.
      - intros c codeId d s _. right. exists [OtherCachesCode codeId d].
        split; reflexivity.
      - intros c chain s Hwrites. left. destruct c; try discriminate.
        reflexivity. }
    + congruence.
    + exists events. split; [|apply Hrun].
      clear Hrun. induction events as [|e events IH]; [reflexivity|].
      simpl in *. apply andb_prop in Hevents as [He Hevents].
      rewrite (IH Hevents), andb_true_r.
      destruct e; simpl in *; auto; discriminate.
Qed.

Lemma after_all_is_a_run lib lcdClient calls st n :
  exists events,
    forallb of_a_method events = true /\
    run events {| client := st; awaiting := n |}
    = {| client := after_all lib lcdClient calls st; awaiting := n |}.
Proof.
  revert st. induction calls as [|call calls IH]; intros st.
  - exists []. split; reflexivity.
  - destruct (after_is_a_run lib lcdClient call st n) as (e1 & He1 & Hr1).
    destruct (IH (after lib lcdClient call st)) as (e2 & He2 & Hr2).
    exists (e1 ++ e2). split.
    + rewrite forallb_app, He1, He2. reflexivity.
    + rewrite run_app, Hr1. exact Hr2.
Qed.

(** ** No part of a longer result *)

Lemma one_request_split (r : Request) pre x post :
  [r] = pre ++ x :: post -> pre = [] /\ x = r.
Proof.
  destruct pre as [|p pre]; simpl; intros H.
  - injection H as -> _. auto.
  - injection H as _ H. destruct pre; discriminate.
Qed.

(** X25: a [searchTx] that returns has had every search it sent answered
    with a single page ([page_total] read by [parseInt] is not above 1).
    So when the endpoint reports several pages for a search by height, by
    tags, by sender or by recipient, [searchTx] returns no result: a caller
    never gets the first page of a longer result. *)
Theorem searchTx_returns_single_pages_only
  (lib : Lib) (lcdClient : Backend) (query : SearchTxQuery)
  (filter : SearchTxFilter) (st st' : State) (l : list IndexedTx)
  (before : list Request) (q : string) (behind : list Request) :
  searchTx lib lcdClient query filter st = (Ok l, st') ->
  searchTx_requests query filter = before ++ TxsQuery q :: behind ->
  exists resp,
    be_txsQuery lcdClient (requests st ++ before) q = Ok resp /\
    gt (parseInt (page_total resp)) (Num 1) = false.
Proof.
  unfold searchTx, searchTx_requests. cbv zeta.
  destruct (lt _ _); [intros _ H; destruct before; discriminate|].
  unfold bind at 1.
  destruct (q_height query) as [height|].
  { destruct (lt height _ || gt height _)%bool;
      [intros _ H; destruct before; discriminate|].
    destruct (txsQuery _ _ _ _) as [[txs|e] st1] eqn:Hrun; [|discriminate].
    intros _ Hsplit. apply one_request_split in Hsplit as [-> Hq].
    injection Hq as ->. rewrite app_nil_r.
    apply txsQuery_ok_inv in Hrun as (resp & H1 & H2 & _). eauto. }
  destruct (q_sentFromOrTo query) as [address|].
  { unfold bind at 1, promise_all2.
    match goal with |- context [txsQuery lib lcdClient ?x st] =>
      destruct (txsQuery lib lcdClient x st) as [r1 st1] eqn:Hrun1
    end.
    match goal with |- context [txsQuery lib lcdClient ?x st1] =>
      destruct (txsQuery lib lcdClient x st1) as [r2 st2] eqn:Hrun2
    end.
    destruct r1 as [sent|e1]; [|discriminate].
    destruct r2 as [received|e2]; [|discriminate].
    apply txsQuery_ok_inv in Hrun1 as (resp1 & H1 & H2 & _ & ->).
    apply txsQuery_ok_inv in Hrun2 as (resp2 & H3 & H4 & _).
    intros _ Hsplit. destruct before as [|first before]; simpl in Hsplit.
    - injection Hsplit as <- _. rewrite app_nil_r. eauto.
    - injection Hsplit as <- Hsplit.
      apply one_request_split in Hsplit as [-> Hq]. injection Hq as ->.
      eauto. }
  destruct (q_tags query) as [tags|].
  - destruct (txsQuery _ _ _ _) as [[txs|e] st1] eqn:Hrun; [|discriminate].
    intros _ Hsplit. apply one_request_split in Hsplit as [-> Hq].
    injection Hq as ->. rewrite app_nil_r.
    apply txsQuery_ok_inv in Hrun as (resp & H1 & H2 & _). eauto.
  - discriminate.
Qed.

Lemma searchTx_returns_single_pages_only_witness :
  exists resp,
    be_txsQuery
      (bank_backend [rest_tx "10" "A"; rest_tx "20" "B"]
                    [rest_tx "15" "C"; rest_tx "20" "B"])
      (requests new_client
       ++ [TxsQuery (txs_request
             (withFilters (Num 0) MAX_SAFE_INTEGER
                "message.module=bank&message.sender=orai1address"))])
      (txs_request
         (withFilters (Num 0) MAX_SAFE_INTEGER
            "message.module=bank&transfer.recipient=orai1address"))
    = Ok resp /\
    gt (parseInt (page_total resp)) (Num 1) = false.
Proof.
  apply (searchTx_returns_single_pages_only example_lib
           (bank_backend [rest_tx "10" "A"; rest_tx "20" "B"]
                         [rest_tx "15" "C"; rest_tx "20" "B"])
           (SearchBySentFromOrToQuery "orai1address") no_filter new_client
           (sent_more
              (searchTx_requests (SearchBySentFromOrToQuery "orai1address")
                 no_filter) new_client)
           [indexed_tx 10 "A"; indexed_tx 15 "C"; indexed_tx 20 "B"]
           [TxsQuery (txs_request
              (withFilters (Num 0) MAX_SAFE_INTEGER
                 "message.module=bank&message.sender=orai1address"))]
           (txs_request
              (withFilters (Num 0) MAX_SAFE_INTEGER
                 "message.module=bank&transfer.recipient=orai1address"))
           []);
    reflexivity.
Defined.
